(** * Probe aggregation and benchmarking engine

    A shallow embedding of [scripts/health_check.py] and
    [scripts/benchmark.py].

    Modelling conventions.
    - A Python [float] is an exact rational ([Q]); comparisons against the
      integer thresholds of the scripts are exact on floats, arithmetic is
      idealised (no rounding error, no NaN).
    - A call that may raise returns an [outcome]; code that threads the
      [results] dictionary and may raise lives in the monad [M].
    - The outside world (processes, HTTP endpoints, files, clocks) is an
      environment record of probe outcomes, one field per call site.
    - Terminal output is a log of events; the text of the status messages
      and the formatting of numbers are not kept.
    - Strings are handled on their ASCII part ([lower], [strip], [split]).
    - [KeyboardInterrupt] stands for the exceptions that [except Exception]
      does not catch; the properties that need a run to complete assume
      that no probe raises it. *)

From Stdlib Require Import Ascii String QArith Qround Qabs.
From stdpp Require Import gmap strings list fin_maps sorting pretty.

#[local] Open Scope string_scope.
#[local] Open Scope list_scope.

(** ** Python primitives *)

Module Py.

(** The exception classes the two scripts name in a handler, or that the
    modelled calls raise.  [OtherException] stands for any further subclass
    of [Exception]; [KeyboardInterrupt] is the one [BaseException] that is
    not an [Exception]. *)
Inductive pyclass : Type :=
  | KeyboardInterrupt
  | NameError
  | AttributeError
  | KeyError
  | ZeroDivisionError
  | ValueError
  | EOFError
  | FileNotFoundError
  | TimeoutExpired
  | CalledProcessError
  | SubprocessError
  | ConnectionError
  | ConnectTimeout
  | ReadTimeout
  | NoSuchProcess
  | AccessDenied
  | OtherException.

#[export] Instance pyclass_eq_dec : EqDecision pyclass.
Proof. solve_decision. Defined.

(** An exception value: its class and [str(e)]. *)
Record exn : Type := Exn { exn_class : pyclass; exn_str : string }.

(** [except Exception] *)
Definition is_Exception (e : exn) : bool :=
  match exn_class e with KeyboardInterrupt => false | _ => true end.

(** bare [except:] *)
Definition is_anything (e : exn) : bool := true.

(** [except requests.exceptions.ConnectionError]; [ConnectTimeout] derives
    from both [ConnectionError] and [Timeout]. *)
Definition is_requests_ConnectionError (e : exn) : bool :=
  match exn_class e with ConnectionError | ConnectTimeout => true | _ => false end.

(** [except requests.exceptions.Timeout] *)
Definition is_requests_Timeout (e : exn) : bool :=
  match exn_class e with ConnectTimeout | ReadTimeout => true | _ => false end.

(** [except subprocess.TimeoutExpired] *)
Definition is_TimeoutExpired (e : exn) : bool :=
  match exn_class e with TimeoutExpired => true | _ => false end.

(** [except subprocess.CalledProcessError] *)
Definition is_CalledProcessError (e : exn) : bool :=
  match exn_class e with CalledProcessError => true | _ => false end.

(** [except (subprocess.TimeoutExpired, subprocess.SubprocessError,
    FileNotFoundError)] *)
Definition is_subprocess_or_missing (e : exn) : bool :=
  match exn_class e with
  | TimeoutExpired | CalledProcessError | SubprocessError | FileNotFoundError => true
  | _ => false
  end.

(** [except (psutil.NoSuchProcess, psutil.AccessDenied)] *)
Definition is_psutil_gone (e : exn) : bool :=
  match exn_class e with NoSuchProcess | AccessDenied => true | _ => false end.

(** [except AttributeError] *)
Definition is_AttributeError (e : exn) : bool :=
  match exn_class e with AttributeError => true | _ => false end.

(** [except (ValueError, KeyboardInterrupt)] *)
Definition is_ValueError_or_KeyboardInterrupt (e : exn) : bool :=
  match exn_class e with ValueError | KeyboardInterrupt => true | _ => false end.

(** The result of a call: a value or a raised exception. *)
Inductive outcome (A : Type) : Type :=
  | Ret (a : A)
  | Raise (e : exn).
Arguments Ret {A} a.
Arguments Raise {A} e.

Definition returns {A} (o : outcome A) : Prop := exists a, o = Ret a.

(** Stateful code that may raise: the state survives the exception, as the
    mutations of a Python object do. *)
Definition M (S A : Type) : Type := S -> outcome A * S.

Definition ret {S A} (a : A) : M S A := fun s => (Ret a, s).

Definition bind {S A B} (m : M S A) (k : A -> M S B) : M S B :=
  fun s => match m s with
           | (Ret a, s') => k a s'
           | (Raise e, s') => (Raise e, s')
           end.

Definition raise {S A} (e : exn) : M S A := fun s => (Raise e, s).

(** Lift the outcome of a probe of the outside world. *)
Definition call {S A} (o : outcome A) : M S A := fun s => (o, s).

Definition modify {S} (f : S -> S) : M S unit := fun s => (Ret tt, f s).

Definition get {S} : M S S := fun s => (Ret s, s).

(** [try: body except C1: h1 except C2: h2 ...]: the first clause whose
    class test accepts the exception handles it; an exception raised by a
    handler is not offered to the later clauses. *)
Fixpoint dispatch {S A} (hs : list ((exn -> bool) * (exn -> M S A))) (e : exn) : M S A :=
  match hs with
  | [] => raise e
  | (c, h) :: hs' => if c e then h e else dispatch hs' e
  end.

Definition try_ {S A} (body : M S A) (hs : list ((exn -> bool) * (exn -> M S A))) : M S A :=
  fun s => match body s with
           | (Ret a, s') => (Ret a, s')
           | (Raise e, s') => dispatch hs e s'
           end.

(** A generator: the items it yields, and the exception that ends the
    iteration early, if any. *)
Record generator (A : Type) : Type := Gen { items : list A; fault : option exn }.
Arguments Gen {A} items fault.
Arguments items {A} g.
Arguments fault {A} g.

(** [for x in xs: body x], stopping at the first exception. *)
Fixpoint for_ {S A} (xs : list A) (body : A -> M S unit) : M S unit :=
  match xs with
  | [] => ret tt
  | x :: xs' => bind (body x) (fun _ => for_ xs' body)
  end.

(** An outcome that raises nothing beyond [Exception]. *)
Definition quiet {A} (o : outcome A) : Prop :=
  forall e, o = Raise e -> is_Exception e = true.

(** A computation that raises nothing beyond [Exception]. *)
Definition quietM {S A} (m : M S A) : Prop :=
  forall s, quiet (m s).1.

(** A computation all of whose runs relate the state before to the state
    after, however they end. *)
Definition keeps {S A} (R : relation S) (m : M S A) : Prop :=
  forall s, R s (m s).2.

(** [x < y] on numbers. *)
Definition Qltb (x y : Q) : bool := negb (Qle_bool y x).

(** [s * n] *)
Fixpoint string_times (s : string) (n : nat) : string :=
  match n with
  | O => ""
  | S n' => s ++ string_times s n'
  end.

Definition newline : string := String (ascii_of_nat 10) "".

(** [a / b] on numbers. *)
Definition div (a b : Q) : outcome Q :=
  if Qeq_bool b 0 then Raise (Exn ZeroDivisionError "division by zero")
  else Ret (a / b)%Q.

(** [round(x)]: to the nearest integer, ties to the even one. *)
Definition round0 (x : Q) : Z :=
  let f := Qfloor x in
  let r := (x - inject_Z f)%Q in
  match (r ?= 1 # 2)%Q with
  | Lt => f
  | Gt => (f + 1)%Z
  | Eq => if Z.even f then f else (f + 1)%Z
  end.

(** [round(x, n)] *)
Definition round (x : Q) (n : nat) : Q :=
  (inject_Z (round0 (x * inject_Z (10 ^ Z.of_nat n))) / inject_Z (10 ^ Z.of_nat n))%Q.

(** Strings: the ASCII part of [str.lower], [in], [endswith],
    [startswith], [strip] and [split]. *)
Definition lower_ascii (c : ascii) : ascii :=
  let n := nat_of_ascii c in
  if (65 <=? n)%nat && (n <=? 90)%nat then ascii_of_nat (n + 32) else c.

Fixpoint lower (s : string) : string :=
  match s with
  | EmptyString => EmptyString
  | String c s' => String (lower_ascii c) (lower s')
  end.

Fixpoint startswith (s p : string) : bool :=
  match p, s with
  | EmptyString, _ => true
  | String _ _, EmptyString => false
  | String a p', String b s' => if Ascii.eqb a b then startswith s' p' else false
  end.

(** [sub in s] *)
Fixpoint contains (sub s : string) : bool :=
  startswith s sub ||
  match s with
  | EmptyString => false
  | String _ s' => contains sub s'
  end.

Fixpoint string_rev_onto (s acc : string) : string :=
  match s with
  | EmptyString => acc
  | String c s' => string_rev_onto s' (String c acc)
  end.

Definition string_rev (s : string) : string := string_rev_onto s EmptyString.

Definition endswith (s p : string) : bool :=
  startswith (string_rev s) (string_rev p).

(** [sep.join(xs)] *)
Fixpoint join (sep : string) (xs : list string) : string :=
  match xs with
  | [] => ""
  | [x] => x
  | x :: xs' => x ++ sep ++ join sep xs'
  end.

Definition is_space (c : ascii) : bool :=
  let n := nat_of_ascii c in
  ((9 <=? n)%nat && (n <=? 13)%nat) || ((28 <=? n)%nat && (n <=? 32)%nat).

Fixpoint lstrip (s : string) : string :=
  match s with
  | EmptyString => EmptyString
  | String c s' => if is_space c then lstrip s' else s
  end.

(** [s.strip()] *)
Definition strip (s : string) : string :=
  string_rev (lstrip (string_rev (lstrip s))).

(** [len(s.split())]: the number of maximal runs of non-blank characters.
    [inword] tells whether the previous character was part of a word. *)
Fixpoint count_words (inword : bool) (s : string) : nat :=
  match s with
  | EmptyString => 0
  | String c s' =>
      if is_space c then count_words false s'
      else if inword then count_words true s'
      else S (count_words true s')
  end.

Definition word_count (s : string) : nat := count_words false s.

(** [s.split(sep)] for a separator of one character: the pieces between
    the separators, the empty ones included. *)
Fixpoint split_on (sep : ascii) (s : string) : list string :=
  match s with
  | EmptyString => [EmptyString]
  | String c s' =>
      if Ascii.eqb c sep then EmptyString :: split_on sep s'
      else match split_on sep s' with
           | w :: ws => String c w :: ws
           | [] => [String c EmptyString]
           end
  end.

(** Put a character in front of the first word. *)
Definition push_char (c : ascii) (ws : list string) : list string :=
  match ws with
  | w :: ws' => String c w :: ws'
  | [] => [String c EmptyString]
  end.

(** [s.split()]: the maximal runs of non-blank characters. *)
Fixpoint split (s : string) : list string :=
  match s with
  | EmptyString => []
  | String c s' =>
      if is_space c then split s'
      else match s' with
           | EmptyString => [String c EmptyString]
           | String c' _ =>
               if is_space c' then String c EmptyString :: split s'
               else push_char c (split s')
           end
  end.

Definition is_digit (c : ascii) : bool :=
  let n := nat_of_ascii c in (48 <=? n)%nat && (n <=? 57)%nat.

Fixpoint all_digits (s : string) : bool :=
  match s with
  | EmptyString => true
  | String c s' => is_digit c && all_digits s'
  end.

(** [s.isdigit()] on ASCII text: some character, and digits only. *)
Definition isdigit (s : string) : bool :=
  match s with
  | EmptyString => false
  | String _ _ => all_digits s
  end.

Fixpoint int_onto (acc : Z) (s : string) : Z :=
  match s with
  | EmptyString => acc
  | String c s' => int_onto (10 * acc + (Z.of_nat (nat_of_ascii c) - 48)) s'
  end.

(** The value of a string of digits. *)
Definition int_digits (s : string) : Z := int_onto 0 s.

(** The blanks that [int] skips around an ASCII literal. *)
Definition is_cspace (c : ascii) : bool :=
  let n := nat_of_ascii c in
  ((9 <=? n)%nat && (n <=? 13)%nat) || (n =? 32)%nat.

Fixpoint lstrip_c (s : string) : string :=
  match s with
  | EmptyString => EmptyString
  | String c s' => if is_cspace c then lstrip_c s' else s
  end.

Definition strip_c (s : string) : string :=
  string_rev (lstrip_c (string_rev (lstrip_c s))).

(** The digits of a decimal literal, without the underscores that may
    stand singly between two digits; [None] if the text is no such
    literal. *)
Fixpoint literal_digits (after_digit : bool) (s : string) : option string :=
  match s with
  | EmptyString => if after_digit then Some EmptyString else None
  | String c s' =>
      if is_digit c then
        match literal_digits true s' with
        | Some ds => Some (String c ds)
        | None => None
        end
      else if Ascii.eqb c "_" && after_digit then
        match s' with
        | String c' _ => if is_digit c' then literal_digits false s' else None
        | EmptyString => None
        end
      else None
  end.

(** [int(s)] on ASCII text: an optional sign and a decimal literal, with
    blanks around; a literal of more than [limit] digits is refused
    ([limit] is [sys.get_int_max_str_digits()], 4300 unless configured,
    and 0 where there is no limit). *)
Definition int (limit : nat) (s : string) : outcome Z :=
  let t := strip_c s in
  let '(negative, body) :=
    match t with
    | String "+" r => (false, r)
    | String "-" r => (true, r)
    | _ => (false, t)
    end in
  match literal_digits false body with
  | None => Raise (Exn ValueError "invalid literal for int() with base 10")
  | Some ds =>
      if negb (limit =? 0)%nat && (limit <? String.length ds)%nat then
        Raise (Exn ValueError "Exceeds the limit for integer string conversion")
      else Ret (if negative then - int_digits ds else int_digits ds)%Z
  end.

(** *** Floating-point numbers

    A float is represented by its exact value, a rational; a rational
    that is no float stands for the float nearest to it, as a decimal
    literal does in the source, and every operation converts its
    arguments first.  There are no infinities: results beyond the
    largest finite float are out of the model's range. *)

(** [floor(log2 q)] for [q > 0]. *)
Definition ilog2 (q : Q) : Z :=
  let k := (Z.log2 (Qnum q) - Z.log2 (Zpos (Qden q)))%Z in
  if Qle_bool (2 ^ k) q then k else (k - 1)%Z.

(** The nearest binary64 number, ties to the even mantissa; below
    [2^-1022] the spacing stays [2^-1074]. *)
Definition b64 (q : Q) : Q :=
  if Qeq_bool q 0 then 0%Q
  else
    let a := Qabs q in
    let p := Z.max (ilog2 a - 52) (-1074) in
    let m := round0 (a / 2 ^ p) in
    let r := Qred (inject_Z m * 2 ^ p) in
    if Qle_bool 0 q then r else (- r)%Q.

(** [a + b], [a * b] on floats. *)
Definition fadd (a b : Q) : Q := b64 (b64 a + b64 b).
Definition fmul (a b : Q) : Q := b64 (b64 a * b64 b).

(** [a / b] on floats, or on integers (true division). *)
Definition fdiv (a b : Q) : outcome Q :=
  if Qeq_bool (b64 b) 0 then Raise (Exn ZeroDivisionError "division by zero")
  else Ret (b64 (b64 a / b64 b)).

(** [round(x, n)] of a float [x]: the decimal of [n] places nearest to the
    exact value of [x], ties to even (it stands for the float nearest to
    it). *)
Definition fround (x : Q) (n : nat) : Q := Qred (round (b64 x) n).

(** [round(x)] of a float [x]. *)
Definition fround0 (x : Q) : Z := round0 (b64 x).

(** [sum(xs)] of floats, as CPython up to 3.11 computes it: the additions
    one after the other, from the integer 0. *)
Definition fsum (xs : list Q) : Q := foldl fadd 0%Q xs.

End Py.

Import Py.

#[export] Instance M_ret {S} : MRet (M S) := fun A a => ret a.
#[export] Instance M_bind {S} : MBind (M S) := fun A B k m => bind m k.

(** ** health_check.py *)

Module Health.

Inductive Status : Type := OK | WARNING | ERROR | INFO.

#[export] Instance Status_eq_dec : EqDecision Status.
Proof. solve_decision. Defined.

(** What the script writes to the terminal. *)
Inductive event : Type :=
  | Header (title : string)                        (* print_header *)
  | StatusLine (component : string) (status : Status)  (* print_status *)
  | Colored (message color : string)               (* print_colored *)
  | Plain (text : string).                         (* print *)

(** [self.results["system_info"]] once filled. *)
Record SystemInfo : Type := {
  cpu_cores : option Z;
  cpu_cores_logical : option Z;
  cpu_frequency : option Q;
  memory_total_gb : Q;
  memory_used_percent : Q;
  disk_total_gb : Q;
  disk_free_gb : Q;
  load_average : option (Q * Q * Q)
}.

(** The [HealthChecker] object ([self.results]) and the terminal.
    [system_info = None] is the empty dictionary. *)
Record checker : Type := Checker {
  timestamp : string;
  checks : gmap string Status;
  system_info : option SystemInfo;
  recommendations : list string;
  stdout : list event
}.

(** *** The outside world *)

Inductive site : Type := AtSystemInfo | AtOllama | AtLlamaCpp | AtPerformance.

Record svmem : Type := { vm_total : Z; vm_percent : Q }.
Record sdiskusage : Type := { du_total : Z; du_used : Z; du_free : Z }.

(** [proc.info]; an attribute psutil could not read is [None]. *)
Record proc_info : Type := {
  pid : Z;
  name : option string;
  cmdline : option (list string);
  proc_cpu_percent : option Q;
  proc_memory_percent : option Q
}.

(** One entry of the [models] array of [/api/tags]. *)
Record model_entry : Type := {
  model_name : option string;   (* None: the key is absent *)
  model_size : option Q         (* None: the key is absent *)
}.

(** The answer of [/api/tags]: status code, and what [response.json()]
    gives, [None] when the object has no ["models"] key. *)
Record tags_response : Type := {
  tags_status : Z;
  tags_json : outcome (option (list model_entry))
}.

Record env : Type := {
  HAS_PSUTIL : bool;
  HAS_REQUESTS : bool;
  now : string;                                   (* datetime.now().isoformat() *)
  sys_platform : string;
  fallback_info : outcome unit;                   (* import platform, os.cpu_count *)
  cpu_count : outcome (option Z);
  cpu_count_logical : outcome (option Z);
  cpu_freq : outcome (option Q);
  virtual_memory : site -> outcome svmem;
  disk_usage : site -> outcome sdiskusage;
  getloadavg : outcome (Q * Q * Q);
  process_iter : site -> outcome (generator proc_info);
  cpu_percent : outcome Q;
  ollama_health : outcome Z;                      (* status code of /api/health *)
  ollama_tags : outcome tags_response;
  llama_health : outcome Z;                       (* status code of :8080/health *)
  models_dir_exists : bool;                       (* ~/llama_models *)
  listdir : outcome (list string);
  getsize : string -> outcome Z;
  continue_config_exists : bool;                  (* ~/.continue/config.json *)
  continue_config_models : outcome nat;           (* open, json.load, len(models) *)
  code_list_extensions : outcome string;          (* stdout of code --list-extensions *)
  internet : outcome Z;                           (* status code of the internet probe *)
  connect_ex : Z -> outcome Z;
  user_input : outcome string;                    (* input(...) *)
  write_results : outcome unit                    (* open and json.dump *)
}.

(** A use of the module [psutil] (or [requests]) raises [NameError] when
    its import failed. *)
Definition psutil {A} (E : env) (o : outcome A) : outcome A :=
  if HAS_PSUTIL E then o else Raise (Exn NameError "name 'psutil' is not defined").

Definition requests {A} (E : env) (o : outcome A) : outcome A :=
  if HAS_REQUESTS E then o else Raise (Exn NameError "name 'requests' is not defined").

(** *** Printing and recording *)

Definition print (e : event) : M checker unit :=
  modify (fun c => Checker (timestamp c) (checks c) (system_info c)
                           (recommendations c) (stdout c ++ [e])).

Definition print_header (title : string) : M checker unit := print (Header title).

Definition print_status (component : string) (status : Status) : M checker unit :=
  print (StatusLine component status).

Definition print_colored (message color : string) : M checker unit :=
  print (Colored message color).

(** [self.results["checks"][k] = v] *)
Definition set_check (k : string) (v : Status) : M checker unit :=
  modify (fun c => Checker (timestamp c) (<[k:=v]> (checks c)) (system_info c)
                           (recommendations c) (stdout c)).

Definition set_system_info (i : SystemInfo) : M checker unit :=
  modify (fun c => Checker (timestamp c) (checks c) (Some i)
                           (recommendations c) (stdout c)).

Definition set_recommendations (r : list string) : M checker unit :=
  modify (fun c => Checker (timestamp c) (checks c) (system_info c) r (stdout c)).

Definition when {S} (b : bool) (m : M S unit) : M S unit := if b then m else mret tt.

(** [HealthChecker.__init__] *)
Definition init (E : env) : checker := Checker (now E) ∅ None [] [].

Definition GiB : Q := inject_Z (1024 ^ 3).

(** *** check_system_info *)

(** The [try] block of the fallback, taken when psutil is missing. *)
Definition system_info_fallback_body (E : env) : M checker unit :=
  call (fallback_info E);;
  print_status "CPU" INFO;;
  print_status "Platform" INFO;;
  set_check "system_info" WARNING.

(** The main [try] block of [check_system_info]. *)
Definition system_info_body (E : env) : M checker unit :=
  cpu_count ← call (psutil E (cpu_count E));
  cpu_count_logical ← call (psutil E (cpu_count_logical E));
  cpu_freq ← call (psutil E (cpu_freq E));
  memory ← call (psutil E (virtual_memory E AtSystemInfo));
  let memory_gb := (inject_Z (vm_total memory) / GiB)%Q in
  disk ← call (psutil E (disk_usage E AtSystemInfo));
  let disk_gb := (inject_Z (du_total disk) / GiB)%Q in
  let disk_free_gb := (inject_Z (du_free disk) / GiB)%Q in
  load_avg ← try_ (l ← call (getloadavg E); mret (Some l))
                  [(is_AttributeError, fun _ => mret None)];
  print_status "CPU" INFO;;
  when (bool_decide (is_Some cpu_freq)) (print_status "CPU Frequency" INFO);;
  print_status "Memory" INFO;;
  print_status "Disk" INFO;;
  when (bool_decide (is_Some load_avg)) (print_status "Load Average" INFO);;
  set_system_info {|
    cpu_cores := cpu_count;
    cpu_cores_logical := cpu_count_logical;
    cpu_frequency := cpu_freq;
    memory_total_gb := round memory_gb 1;
    memory_used_percent := vm_percent memory;
    disk_total_gb := round disk_gb 1;
    disk_free_gb := round disk_free_gb 1;
    load_average := load_avg |};;
  set_check "system_info" OK.

Definition check_system_info (E : env) : M checker unit :=
  print_header "System Information";;
  if negb (HAS_PSUTIL E) then
    print_status "Dependencies" WARNING;;
    try_ (system_info_fallback_body E)
         [(is_anything, fun _ =>
             print_status "System Info" ERROR;;
             set_check "system_info" ERROR)]
  else
    try_ (system_info_body E)
         [(is_Exception, fun _ =>
             print_status "System Info" ERROR;;
             set_check "system_info" ERROR)].

(** [for x in g: body x] where [body] answers [true] when it ran [break];
    the result tells whether the loop was left by [break]. *)
Fixpoint loop_break {S A} (body : A -> M S bool) (xs : list A) (fault : option exn) : M S bool :=
  match xs with
  | [] => match fault with Some e => raise e | None => ret false end
  | x :: xs' => bind (body x) (fun b : bool => if b then ret true else loop_break body xs' fault)
  end.

(** [s.lower()] on [proc.info['name']], which may be [None]. *)
Definition name_lower (p : proc_info) : outcome string :=
  match name p with
  | Some n => Ret (lower n)
  | None => Raise (Exn AttributeError "'NoneType' object has no attribute 'lower'")
  end.

(** *** check_ollama_service *)

(** The [try] block of [check_ollama_service]. *)
Definition ollama_service_body (E : env) : M checker unit :=
  g ← call (psutil E (process_iter E AtOllama));
  ollama_running ← loop_break (fun proc =>
      n ← call (name_lower proc);
      if contains "ollama" n then
        print_status "Ollama Process" OK;; mret true
      else mret false) (items g) (fault g);
  when (negb ollama_running)
    (print_status "Ollama Process" WARNING;;
     set_check "ollama_process" WARNING);;
  (* API endpoint *)
  try_ (status_code ← call (requests E (ollama_health E));
        if (status_code =? 200)%Z then
          print_status "Ollama API" OK;;
          set_check "ollama_api" OK
        else
          print_status "Ollama API" WARNING;;
          set_check "ollama_api" WARNING)
       [(is_requests_ConnectionError, fun _ =>
           print_status "Ollama API" ERROR;;
           set_check "ollama_api" ERROR);
        (is_requests_Timeout, fun _ =>
           print_status "Ollama API" WARNING;;
           set_check "ollama_api" WARNING)];;
  (* models *)
  try_ (response ← call (requests E (ollama_tags E));
        if (tags_status response =? 200)%Z then
          models_data ← call (tags_json response);
          let models := default [] models_data in
          let model_count := length models in
          (if (0 <? model_count)%nat then
             print_status "Models" OK;;
             for_ models (fun model =>
               match model_name model with
               | Some n => print_status ("  - " ++ n) INFO
               | None => raise (Exn KeyError "'name'")
               end)
           else
             print_status "Models" WARNING);;
          set_check "ollama_models" OK
        else
          print_status "Models" WARNING;;
          set_check "ollama_models" WARNING)
       [(is_Exception, fun _ =>
           print_status "Models" ERROR;;
           set_check "ollama_models" ERROR)].

Definition check_ollama_service (E : env) : M checker unit :=
  print_header "Ollama Service Check";;
  try_ (ollama_service_body E)
       [(is_Exception, fun _ =>
           print_status "Ollama Service" ERROR;;
           set_check "ollama_service" ERROR)].

(** *** check_llama_cpp *)

(** [cmdline and 'server' in ' '.join(cmdline)] *)
Definition is_server_cmdline (p : proc_info) : bool :=
  match cmdline p with
  | None | Some [] => false
  | Some l => contains "server" (join " " l)
  end.

(** The [try] block of [check_llama_cpp]. *)
Definition llama_cpp_body (E : env) : M checker unit :=
  g ← call (psutil E (process_iter E AtLlamaCpp));
  llama_running ← loop_break (fun proc =>
      try_ (if is_server_cmdline proc then
              print_status "llama.cpp Server" OK;; mret true
            else mret false)
           [(is_psutil_gone, fun _ => mret false)]) (items g) (fault g);
  when (negb llama_running)
    (print_status "llama.cpp Server" WARNING;;
     set_check "llama_cpp_server" WARNING);;
  (* server endpoint *)
  try_ (status_code ← call (requests E (llama_health E));
        if (status_code =? 200)%Z then
          print_status "llama.cpp API" OK;;
          set_check "llama_cpp_api" OK
        else
          print_status "llama.cpp API" WARNING;;
          set_check "llama_cpp_api" WARNING)
       [(is_requests_ConnectionError, fun _ =>
           print_status "llama.cpp API" WARNING;;
           set_check "llama_cpp_api" WARNING);
        (is_requests_Timeout, fun _ =>
           print_status "llama.cpp API" WARNING;;
           set_check "llama_cpp_api" WARNING)];;
  (* model files *)
  if models_dir_exists E then
    files ← call (listdir E);
    let models := filter (fun f => endswith f ".gguf" = true) files in
    (match models with
     | _ :: _ =>
         print_status "llama.cpp Models" OK;;
         for_ (take 3 models) (fun model =>
           call (getsize E model);;
           print_status ("  - " ++ model) INFO);;
         when (3 <? length models)%nat
           (print_status ("  ... and " ++ pretty (length models - 3)%nat ++ " more") INFO)
     | [] => print_status "llama.cpp Models" WARNING
     end);;
    set_check "llama_cpp_models" OK
  else
    print_status "llama.cpp Models" WARNING;;
    set_check "llama_cpp_models" WARNING.

Definition check_llama_cpp (E : env) : M checker unit :=
  print_header "llama.cpp Check";;
  try_ (llama_cpp_body E)
       [(is_Exception, fun _ =>
           print_status "llama.cpp Check" ERROR;;
           set_check "llama_cpp" ERROR)].

(** *** check_vscode_integration *)

(** The [try] block of [check_vscode_integration]. *)
Definition vscode_integration_body (E : env) : M checker unit :=
  (if continue_config_exists E then
     call (continue_config_models E);;
     print_status "Continue.dev Config" OK;;
     set_check "continue_config" OK
   else
     print_status "Continue.dev Config" WARNING;;
     set_check "continue_config" WARNING);;
  try_ (out ← call (code_list_extensions E);
        if contains "continue.continue" out then
          print_status "Continue.dev Extension" OK;;
          set_check "continue_extension" OK
        else
          print_status "Continue.dev Extension" WARNING;;
          set_check "continue_extension" WARNING)
       [(is_subprocess_or_missing, fun _ =>
           print_status "VS Code" WARNING;;
           set_check "vscode" WARNING)].

Definition check_vscode_integration (E : env) : M checker unit :=
  print_header "VS Code Integration Check";;
  try_ (vscode_integration_body E)
       [(is_Exception, fun _ =>
           print_status "VS Code Integration" ERROR;;
           set_check "vscode_integration" ERROR)].

(** *** check_network_connectivity *)

Definition ports_to_check : list (Z * string) :=
  [(11434%Z, "Ollama"); (8080%Z, "llama.cpp"); (1234%Z, "LM Studio (optional)")].

(** The loop over [ports_to_check]. *)
Definition check_ports (E : env) : M checker unit :=
  for_ ports_to_check (fun '(port, name) =>
    result ← call (connect_ex E port);
    if (result =? 0)%Z then print_status (name ++ " Port") OK
    else print_status (name ++ " Port") INFO).

(** The [try] block of [check_network_connectivity]. *)
Definition network_connectivity_body (E : env) : M checker unit :=
  try_ (call (requests E (internet E));;
        print_status "Internet" OK;;
        set_check "internet" OK)
       [(is_requests_ConnectionError, fun _ =>
           print_status "Internet" WARNING;;
           set_check "internet" WARNING)];;
  check_ports E.

Definition check_network_connectivity (E : env) : M checker unit :=
  print_header "Network Connectivity";;
  try_ (network_connectivity_body E)
       [(is_Exception, fun _ =>
           print_status "Network Check" ERROR;;
           set_check "network" ERROR)].

(** *** check_performance_metrics *)

Definition cpu_usage_status (cpu_percent : Q) : Status :=
  if Qltb cpu_percent 50 then OK
  else if Qltb cpu_percent 80 then WARNING
  else ERROR.

Definition memory_usage_status (percent : Q) : Status :=
  if Qltb percent 70 then OK
  else if Qltb percent 85 then WARNING
  else ERROR.

Definition disk_usage_status (disk_percent : Q) : Status :=
  if Qltb disk_percent 80 then OK
  else if Qltb disk_percent 90 then WARNING
  else ERROR.

(** [any(term in name for term in ['ollama', 'llama', 'server'])] *)
Definition is_ai_name (n : string) : bool :=
  existsb (fun term => contains term n) ["ollama"; "llama"; "server"].

(** The formatted line of one AI process needs its two percentages. *)
Definition format_proc (p : proc_info) : outcome unit :=
  match proc_cpu_percent p, proc_memory_percent p with
  | Some _, Some _ => Ret tt
  | _, _ => Raise (Exn OtherException "unsupported format string passed to NoneType.__format__")
  end.

(** The loop that collects [ai_processes]; the list is threaded as the
    accumulator. *)
Fixpoint collect_ai (xs : list proc_info) (fault : option exn) (acc : list proc_info)
    : M checker (list proc_info) :=
  match xs with
  | [] => match fault with Some e => raise e | None => ret acc end
  | proc :: xs' =>
      bind (try_ (n ← call (name_lower proc);
                  mret (if is_ai_name n then acc ++ [proc] else acc))
                 [(is_psutil_gone, fun _ => mret acc)])
           (fun acc' => collect_ai xs' fault acc')
  end.

(** The [try] block of [check_performance_metrics]. *)
Definition performance_metrics_body (E : env) : M checker unit :=
  cpu_percent ← call (psutil E (cpu_percent E));
  print_status "CPU Usage" (cpu_usage_status cpu_percent);;
  set_check "cpu_usage" (cpu_usage_status cpu_percent);;
  memory ← call (psutil E (virtual_memory E AtPerformance));
  print_status "Memory Usage" (memory_usage_status (vm_percent memory));;
  set_check "memory_usage" (memory_usage_status (vm_percent memory));;
  disk ← call (psutil E (disk_usage E AtPerformance));
  ratio ← call (div (inject_Z (du_used disk)) (inject_Z (du_total disk)));
  let disk_percent := (ratio * 100)%Q in
  print_status "Disk Usage" (disk_usage_status disk_percent);;
  set_check "disk_usage" (disk_usage_status disk_percent);;
  g ← call (psutil E (process_iter E AtPerformance));
  ai_processes ← collect_ai (items g) (fault g) [];
  match ai_processes with
  | _ :: _ =>
      print_status "AI Processes" OK;;
      for_ (take 3 ai_processes) (fun proc =>
        call (format_proc proc);;
        print_status ("  " ++ default "None" (name proc)) INFO)
  | [] =>
      print_status "AI Processes" WARNING;;
      set_check "ai_processes" WARNING
  end.

Definition check_performance_metrics (E : env) : M checker unit :=
  print_header "Performance Metrics";;
  try_ (performance_metrics_body E)
       [(is_Exception, fun _ =>
           print_status "Performance Check" ERROR;;
           set_check "performance" ERROR)].

(** *** generate_recommendations *)

Definition rec_start_ollama : string := "Start Ollama: ~/.ollama/start.sh".
Definition rec_ollama_status : string :=
  "Check if Ollama service is running: ~/.ollama/status.sh".
Definition rec_pull_models : string :=
  "Download models: ollama pull dolphin-mistral:7b-dpo-laser".
Definition rec_install_continue : string :=
  "Install Continue.dev: code --install-extension continue.continue".
Definition rec_high_cpu : string := "High CPU usage - close unnecessary applications".
Definition rec_high_memory : string :=
  "High memory usage - restart applications or add more RAM".
Definition rec_low_disk : string :=
  "Low disk space - free up space or move models to external drive".
Definition rec_large_models : string :=
  "Consider downloading larger models (13B+) for better coding assistance".
Definition rec_medium_models : string :=
  "Medium models (7B-13B) should provide good performance".
Definition rec_small_models : string :=
  "Limited memory - stick to small models (3B-7B)".
Definition rec_metal : string :=
  "For Apple Silicon: Ensure Metal acceleration is enabled (LLAMA_METAL=1)".
Definition rec_cuda : string :=
  "Consider installing CUDA drivers for NVIDIA GPU acceleration".

(** [if checks.get(k) == v: recommendations.append(r)] *)
Definition rule (checks : gmap string Status) (k : string) (v : Status) (r : string)
    : list string :=
  if bool_decide (checks !! k = Some v) then [r] else [].

(** [self.results["system_info"].get("memory_total_gb", 0)] *)
Definition memory_gb_of (i : option SystemInfo) : Q :=
  match i with Some i => memory_total_gb i | None => 0 end.

(** The memory-tier rule. *)
Definition memory_rule (memory_gb : Q) : list string :=
  if Qle_bool 16 memory_gb then [rec_large_models]
  else if Qle_bool 8 memory_gb then [rec_medium_models]
  else [rec_small_models].

(** The platform rule. *)
Definition platform_rule (platform : string) : list string :=
  if String.eqb platform "darwin" then [rec_metal]
  else if startswith platform "linux" then [rec_cuda]
  else [].

(** The list [recommendations] once every rule has been evaluated. *)
Definition recommend (platform : string) (checks : gmap string Status)
    (info : option SystemInfo) : list string :=
  rule checks "ollama_process" WARNING rec_start_ollama
  ++ rule checks "ollama_api" ERROR rec_ollama_status
  ++ rule checks "ollama_models" WARNING rec_pull_models
  ++ rule checks "continue_extension" WARNING rec_install_continue
  ++ rule checks "cpu_usage" ERROR rec_high_cpu
  ++ rule checks "memory_usage" ERROR rec_high_memory
  ++ rule checks "disk_usage" ERROR rec_low_disk
  ++ memory_rule (memory_gb_of info)
  ++ platform_rule platform.

Definition generate_recommendations (E : env) : M checker unit :=
  print_header "Recommendations";;
  c ← get;
  let recommendations := recommend (sys_platform E) (checks c) (system_info c) in
  (match recommendations with
   | _ :: _ =>
       for_ (imap (fun i rec => (S i, rec)) recommendations) (fun '(i, rec) =>
         print_colored ("  " ++ pretty i ++ ". " ++ rec) "blue")
   | [] => print_colored "  ✅ No issues detected - system is healthy!" "green"
   end);;
  set_recommendations recommendations.

(** *** run_full_check *)

(** [sum(1 for status in checks.values() if status == s)] *)
Definition count_status (s : Status) (checks : gmap string Status) : nat :=
  length (filter (fun kv => kv.2 = s) (map_to_list checks)).

Definition msg_healthy : string := "System is healthy! 🎉".
Definition msg_degraded : string := "System has some issues but is functional ⚠️".
Definition msg_critical : string := "System has significant issues that need attention ❌".

(** The pair [(status_msg, status_color)]. *)
Definition overall_status (error_count warning_count : nat) : string * string :=
  if (error_count =? 0)%nat then (msg_healthy, "green")
  else if (error_count <? warning_count)%nat then (msg_degraded, "yellow")
  else (msg_critical, "red").

(** The summary block: counts and overall status. *)
Definition print_summary : M checker unit :=
  print_header "Summary";;
  c ← get;
  let total_checks := size (checks c) in
  let ok_count := count_status OK (checks c) in
  let warning_count := count_status WARNING (checks c) in
  let error_count := count_status ERROR (checks c) in
  print_colored ("Total Checks: " ++ pretty total_checks) "blue";;
  print_colored ("✅ Passed: " ++ pretty ok_count) "green";;
  print_colored ("⚠️  Warnings: " ++ pretty warning_count) "yellow";;
  print_colored ("❌ Errors: " ++ pretty error_count) "red";;
  let '(status_msg, status_color) := overall_status error_count warning_count in
  print_colored (newline ++ "Overall Status: " ++ status_msg) status_color.

Definition run_full_check (E : env) : M checker unit :=
  print_colored "🚀 Local AI Coding Setup - System Health Check" "purple";;
  print_colored (string_times "=" 50) "purple";;
  check_system_info E;;
  check_ollama_service E;;
  check_llama_cpp E;;
  check_vscode_integration E;;
  check_network_connectivity E;;
  check_performance_metrics E;;
  generate_recommendations E;;
  print_summary.

(** *** main *)

(** [save_results]: failures to write are reported, not raised. *)
Definition save_results (E : env) : M checker unit :=
  try_ (call (write_results E);;
        print_colored (newline ++ "📊 Results saved") "cyan")
       [(is_Exception, fun _ => print_colored (newline ++ "❌ Failed to save results") "red")].

(** The body of [main] after the checker is built; the value is the
    argument of [sys.exit]. *)
Definition main_body (E : env) : M checker Z :=
  run_full_check E;;
  print (Plain (newline ++ string_times "=" 50));;
  answer ← call (user_input E);
  let save_choice := lower (strip answer) in
  when (bool_decide (save_choice ∈ ["y"; "yes"])) (save_results E);;
  c ← get;
  let error_count := count_status ERROR (checks c) in
  mret (if (error_count =? 0)%nat then 0%Z else 1%Z).

Definition main (E : env) : outcome Z * checker := main_body E (init E).

(** The exit status of the process: the argument of [sys.exit], or the
    interpreter's status for an exception nobody caught. *)
Definition exit_status (r : outcome Z) : Z :=
  match r with
  | Ret code => code
  | Raise e => match exn_class e with KeyboardInterrupt => 130%Z | _ => 1%Z end
  end.

(** *** Notions used to state the properties *)

(** The titles printed by [print_header], in order. *)
Definition headers (l : list event) : list string :=
  omap (fun e => match e with Header t => Some t | _ => None end) l.

(** "The entry of key [k] is unchanged". *)
Definition same_key (k : string) : relation checker :=
  fun s s' => checks s' !! k = checks s !! k.

(** "No header was printed". *)
Definition same_headers : relation checker :=
  fun s s' => headers (stdout s') = headers (stdout s).

(** "The check map is unchanged". *)
Definition same_checks : relation checker :=
  fun s s' => checks s' = checks s.

(** A generator probe that raises nothing beyond [Exception], neither
    when called nor while it is iterated. *)
Definition quiet_gen {A} (o : outcome (generator A)) : Prop :=
  quiet o /\ forall g e, o = Ret g -> fault g = Some e -> is_Exception e = true.

(** An environment none of whose probes is interrupted: whatever a probe
    raises is an [Exception].  ([fallback_info] sits under a bare
    [except:] and needs no such assumption.) *)
Record no_interrupt (E : env) : Prop := {
  ni_cpu_count : quiet (cpu_count E);
  ni_cpu_count_logical : quiet (cpu_count_logical E);
  ni_cpu_freq : quiet (cpu_freq E);
  ni_virtual_memory : forall x, quiet (virtual_memory E x);
  ni_disk_usage : forall x, quiet (disk_usage E x);
  ni_getloadavg : quiet (getloadavg E);
  ni_process_iter : forall x, quiet_gen (process_iter E x);
  ni_cpu_percent : quiet (cpu_percent E);
  ni_ollama_health : quiet (ollama_health E);
  ni_ollama_tags : quiet (ollama_tags E);
  ni_tags_json : forall r, ollama_tags E = Ret r -> quiet (tags_json r);
  ni_llama_health : quiet (llama_health E);
  ni_listdir : quiet (listdir E);
  ni_getsize : forall f, quiet (getsize E f);
  ni_continue_config_models : quiet (continue_config_models E);
  ni_code_list_extensions : quiet (code_list_extensions E);
  ni_internet : quiet (internet E);
  ni_connect_ex : forall p, quiet (connect_ex E p);
  ni_write_results : quiet (write_results E)
}.

(** A step of the run that ends normally and prints exactly the headers
    [t]. *)
Definition stage (t : list string) (m : M checker unit) : Prop :=
  forall s, (m s).1 = Ret tt /\ headers (stdout (m s).2) = headers (stdout s) ++ t.

(** The overall verdict and the line that announces it. *)
Inductive verdict : Type := Healthy | Degraded | Critical.

Definition verdict_line (v : verdict) : event :=
  match v with
  | Healthy => Colored (newline ++ "Overall Status: " ++ msg_healthy) "green"
  | Degraded => Colored (newline ++ "Overall Status: " ++ msg_degraded) "yellow"
  | Critical => Colored (newline ++ "Overall Status: " ++ msg_critical) "red"
  end.

(** The verdict rule as it is worded: healthy without errors, degraded
    with some errors but fewer than warnings, critical otherwise. *)
Definition verdict_rule (errors warnings : nat) : verdict :=
  if decide (errors = 0)%nat then Healthy
  else if decide (0 < errors /\ errors < warnings)%nat then Degraded
  else Critical.

(** The model size classes of the memory-tier rule. *)
Inductive size_class : Type := Small | Medium | Large.

Definition class_rec (c : size_class) : string :=
  match c with
  | Large => rec_large_models
  | Medium => rec_medium_models
  | Small => rec_small_models
  end.

(** The recommendations that name a model size class. *)
Definition size_recs (recs : list string) : list string :=
  filter (fun r => r ∈ [rec_large_models; rec_medium_models; rec_small_models]) recs.

(** The tier of a memory size for the bounds [hi] and [lo] (in GB). *)
Definition in_tier (hi lo m : Q) (c : size_class) : Prop :=
  (hi <= m /\ c = Large)%Q \/ (lo <= m /\ m < hi /\ c = Medium)%Q \/ (m < lo /\ c = Small)%Q.

(** What a search loop finds: [Ret true] at the first item that passes
    the test, [Ret false] when the items are exhausted, an exception when
    the test or the iteration fails. *)
Fixpoint first_hit {A} (test : A -> outcome bool) (xs : list A) (fault : option exn)
    : outcome bool :=
  match xs with
  | [] => match fault with Some e => Raise e | None => Ret false end
  | x :: xs' =>
      match test x with
      | Raise e => Raise e
      | Ret true => Ret true
      | Ret false => first_hit test xs' fault
      end
  end.

(** The daemon process: a process whose lowered name contains "ollama". *)
Definition ollama_test (p : proc_info) : outcome bool :=
  match name_lower p with
  | Raise e => Raise e
  | Ret n => Ret (contains "ollama" n)
  end.

Definition ollama_process_found (E : env) : outcome bool :=
  match psutil E (process_iter E AtOllama) with
  | Raise e => Raise e
  | Ret g => first_hit ollama_test (items g) (fault g)
  end.

(** The inference server: a command line that contains "server". *)
Definition server_test (p : proc_info) : outcome bool := Ret (is_server_cmdline p).

Definition llama_server_found (E : env) : outcome bool :=
  match psutil E (process_iter E AtLlamaCpp) with
  | Raise e => Raise e
  | Ret g => first_hit server_test (items g) (fault g)
  end.

(** The API check of the daemon completes when the endpoint answers or
    fails with one of the two handled classes. *)
Definition api_check_completes (o : outcome Z) : bool :=
  match o with
  | Ret _ => true
  | Raise e => is_requests_ConnectionError e || is_requests_Timeout e
  end.

(** "Only the terminal changed". *)
Definition same_results : relation checker :=
  fun s s' => checks s' = checks s /\ system_info s' = system_info s
              /\ recommendations s' = recommendations s.

(** The state a computation leaves. *)
Definition after {A} (m : M checker A) (s : checker) : checker := (m s).2.

Definition banner : M checker unit :=
  print_colored "🚀 Local AI Coding Setup - System Health Check" "purple";;
  print_colored (string_times "=" 50) "purple".

(** The state of a run when the recommendations are about to be derived,
    and when the summary is about to be printed. *)
Definition before_recommendations (E : env) (s : checker) : checker :=
  after (check_performance_metrics E)
    (after (check_network_connectivity E)
       (after (check_vscode_integration E)
          (after (check_llama_cpp E)
             (after (check_ollama_service E)
                (after (check_system_info E) (after banner s)))))).

Definition before_summary (E : env) (s : checker) : checker :=
  after (generate_recommendations E) (before_recommendations E s).

(** A guarded block records its failure: when [body], run after [pre],
    raises an [Exception], the whole [check] still ends normally and has
    [key] at ERROR. *)
Definition failure_recorded (pre body check : M checker unit) (key : string) : Prop :=
  forall s e,
    (body (after pre s)).1 = Raise e -> is_Exception e = true ->
    (check s).1 = Ret tt /\ checks (after check s) !! key = Some ERROR.

(** The three-way grading of a percentage as the thresholds are worded:
    [OK] below [lo], [WARNING] from [lo] up to but excluding [hi],
    [ERROR] from [hi] on. *)
Definition graded (lo hi v : Q) (s : Status) : Prop :=
  (v < lo /\ s = OK)%Q \/ (lo <= v /\ v < hi /\ s = WARNING)%Q \/ (hi <= v /\ s = ERROR)%Q.

(** *** Further notions *)

(** Every recorded status is one of OK, WARNING and ERROR. *)
Definition no_info (m : gmap string Status) : Prop :=
  forall k v, m !! k = Some v -> v <> INFO.

(** "No INFO status was recorded". *)
Definition keeps_no_info : relation checker :=
  fun s s' => no_info (checks s) -> no_info (checks s').

(** The keys under which the checks record a status. *)
Definition known_keys : gset string :=
  list_to_set
    [ "system_info";
      "ollama_process"; "ollama_api"; "ollama_models"; "ollama_service";
      "llama_cpp_server"; "llama_cpp_api"; "llama_cpp_models"; "llama_cpp";
      "continue_config"; "continue_extension"; "vscode"; "vscode_integration";
      "internet"; "network";
      "cpu_usage"; "memory_usage"; "disk_usage"; "ai_processes"; "performance" ].

(** "No key outside [known_keys] was added". *)
Definition within_known_keys : relation checker :=
  fun s s' => dom (checks s') ⊆ dom (checks s) ∪ known_keys.

(** "The system information is unchanged". *)
Definition same_system_info : relation checker :=
  fun s s' => system_info s' = system_info s.

(** The status an API check records for what the endpoint does; [conn]
    is the status of a refused connection, [None] stands for a failure
    that the check does not handle. *)
Definition api_status (conn : Status) (o : outcome Z) : option Status :=
  match o with
  | Ret code => Some (if (code =? 200)%Z then OK else WARNING)
  | Raise e =>
      if is_requests_ConnectionError e then Some conn
      else if is_requests_Timeout e then Some WARNING
      else None
  end.

(** The model files of a directory listing. *)
Definition gguf_files (files : list string) : list string :=
  filter (fun f => endswith f ".gguf" = true) files.

(** The model directory can be examined: it is missing, or it can be
    listed and the sizes of the files displayed can be read. *)
Definition models_dir_readable (E : env) : Prop :=
  models_dir_exists E = false
  \/ exists files,
       listdir E = Ret files
       /\ Forall (fun f => returns (getsize E f)) (take 3 (gguf_files files)).

(** Every recommendation there is, in the order of the rules. *)
Definition priority_order : list string :=
  [ rec_start_ollama; rec_ollama_status; rec_pull_models; rec_install_continue;
    rec_high_cpu; rec_high_memory; rec_low_disk;
    rec_large_models; rec_medium_models; rec_small_models;
    rec_metal; rec_cuda ].

(** The lines that list the recommendations, numbered from 1. *)
Definition numbered (recs : list string) : list event :=
  imap (fun i rec => Colored ("  " ++ pretty (S i) ++ ". " ++ rec) "blue") recs.

End Health.

(** ** benchmark.py *)

Module Bench.

(** What the script writes to the terminal; formatted numbers are not
    kept. *)
Inductive event : Type :=
  | LogInfo (message : string)    (* print_status *)
  | LogSuccess (message : string) (* print_success *)
  | LogError (message : string)   (* print_error *)
  | Plain (text : string)         (* print *)
  | Row (model : string) (avg_response avg_tokens_per_sec success_rate : Q).

(** How a spawned command behaves: it cannot be started, or it runs for
    [duration] seconds ([None]: it never exits) and then leaves a return
    code and its standard output. *)
Inductive proc_behaviour : Type :=
  | CannotStart (e : exn)
  | Runs (duration : option Q) (returncode : Z) (out : string).

Record CompletedProcess : Type := { returncode : Z; proc_stdout : string }.

(** The outside world: the behaviour of the [n]-th spawned command, the
    clock difference measured around it (a float), [sys.platform], what
    reading [/proc/meminfo] gives, what opening the report file and what
    writing and closing it do, and the interpreter's limit on the digits
    of an integer literal. *)
Record world : Type := {
  subprocess : nat -> list string -> proc_behaviour;
  elapsed : nat -> Q;
  sys_platform : string;
  meminfo : outcome (list string);
  open_report : outcome unit;
  dump_report : outcome unit;
  int_max_str_digits : nat
}.

(** The script's view of the run: how many commands it has spawned, and
    the terminal. *)
Record state : Type := State { calls : nat; stdout : list event }.

Definition print (e : event) : M state unit :=
  modify (fun s => State (calls s) (stdout s ++ [e])).
Definition print_status (m : string) : M state unit := print (LogInfo m).
Definition print_success (m : string) : M state unit := print (LogSuccess m).
Definition print_error (m : string) : M state unit := print (LogError m).

(** Take the number of the next command. *)
Definition next_call : M state nat :=
  fun s => (Ret (calls s), State (S (calls s)) (stdout s)).

Definition runs_longer_than (duration : option Q) (timeout : Q) : bool :=
  match duration with
  | None => true
  | Some d => Qltb timeout d
  end.

(** [subprocess.run(cmd, timeout=timeout, check=check)] *)
Definition subprocess_run (b : proc_behaviour) (timeout : Q) (check : bool)
    : outcome CompletedProcess :=
  match b with
  | CannotStart e => Raise e
  | Runs duration rc out =>
      if runs_longer_than duration timeout then
        Raise (Exn TimeoutExpired "Command timed out")
      else if check && negb (rc =? 0)%Z then
        Raise (Exn CalledProcessError "Command returned non-zero exit status")
      else Ret {| returncode := rc; proc_stdout := out |}
  end.

(** [run_command]: both handlers report and re-raise. *)
Definition run_command (W : world) (n : nat) (cmd : list string) (timeout : Q)
    : M state CompletedProcess :=
  try_ (call (subprocess_run (subprocess W n cmd) timeout true))
       [(is_TimeoutExpired, fun e =>
           print_error ("Command timed out: " ++ join " " cmd);; raise e);
        (is_CalledProcessError, fun e =>
           print_error ("Command failed: " ++ join " " cmd);; raise e)].

Record BenchmarkResult : Type := {
  model : string;
  success : bool;
  response_time : Q;
  tokens_generated : Z;
  tokens_per_second : Q;
  response_length : nat;
  error : option string
}.

(** *** benchmark_model *)

Definition benchmark_model (W : world) (model_name test_prompt : string)
    : M state BenchmarkResult :=
  print_status ("Benchmarking " ++ model_name ++ "...");;
  n ← next_call;                                  (* start_time = time.time() *)
  try_ (result ← run_command W n ["ollama"; "run"; model_name; test_prompt] 120;
        let response_time := elapsed W n in       (* end_time - start_time *)
        let response := strip (proc_stdout result) in
        let response_tokens := fmul (inject_Z (Z.of_nat (word_count response))) (13 # 10) in
        tokens_per_second ←
          (if Qltb 0 (b64 response_time) then call (fdiv response_tokens response_time)
           else mret 0%Q);
        mret {| model := model_name;
                success := true;
                response_time := fround response_time 2;
                tokens_generated := fround0 response_tokens;
                tokens_per_second := fround tokens_per_second 2;
                response_length := String.length response;
                error := None |})
       [(is_TimeoutExpired, fun _ =>
           mret {| model := model_name;
                   success := false;
                   response_time := 120;
                   tokens_generated := 0;
                   tokens_per_second := 0;
                   response_length := 0;
                   error := Some "timeout" |});
        (is_Exception, fun e =>
           mret {| model := model_name;
                   success := false;
                   response_time := elapsed W n;   (* time.time() - start_time *)
                   tokens_generated := 0;
                   tokens_per_second := 0;
                   response_length := 0;
                   error := Some (exn_str e) |})].

Definition get_test_prompts : list string :=
  [ "Write a Python function to calculate fibonacci numbers recursively.";
    "Explain the difference between stack and heap memory in programming.";
    "Write a SQL query to find the top 5 customers by total order value.";
    "What are the main principles of object-oriented programming?";
    "Debug this JavaScript code: function sum(a, b) { return a + b; } console.log(sum(5));" ].

(** *** run_comprehensive_benchmark *)

Record Summary : Type := {
  average_response_time : Q;
  average_tokens_per_second : Q;
  success_rate : Q;
  total_tests : nat;
  successful_tests : nat
}.

Record Report : Type := { individual_tests : list BenchmarkResult; summary : Summary }.

(** An insertion-ordered dictionary: [d[k] = v] replaces in place, or
    appends a new key. *)
Fixpoint dict_set {V} (k : string) (v : V) (d : list (string * V)) : list (string * V) :=
  match d with
  | [] => [(k, v)]
  | (k', v') :: d' => if String.eqb k k' then (k, v) :: d' else (k', v') :: dict_set k v d'
  end.

Fixpoint dict_get {V} (k : string) (d : list (string * V)) : option V :=
  match d with
  | [] => None
  | (k', v') :: d' => if String.eqb k k' then Some v' else dict_get k d'
  end.

Definition Qnat (n : nat) : Q := inject_Z (Z.of_nat n).

(** The inner loop: one result per prompt, in order. *)
Fixpoint run_tests (W : world) (model : string) (prompts : list string)
    (model_results : list BenchmarkResult) : M state (list BenchmarkResult) :=
  match prompts with
  | [] => ret model_results
  | prompt :: prompts' =>
      bind (print_status "Test";;
            result ← benchmark_model W model prompt;
            (if success result then print_success model
             else print_error ("Failed: " ++ default "None" (error result)));;
            mret (model_results ++ [result]))
           (fun model_results' => run_tests W model prompts' model_results')
  end.

(** "Calculate averages": the summary of one model. *)
Definition summarize (model_results : list BenchmarkResult) (test_prompts : list string)
    : outcome Summary :=
  let successful_tests := filter (fun r => success r = true) model_results in
  let averages :=
    match successful_tests with
    | _ :: _ =>
        match fdiv (fsum (response_time <$> successful_tests))
                   (Qnat (length successful_tests)) with
        | Raise e => Raise e
        | Ret avg_response_time =>
        match fdiv (fsum (tokens_per_second <$> successful_tests))
                   (Qnat (length successful_tests)) with
        | Raise e => Raise e
        | Ret avg_tokens_per_sec =>
        match fdiv (Qnat (length successful_tests)) (Qnat (length test_prompts)) with
        | Raise e => Raise e
        | Ret ratio => Ret (avg_response_time, avg_tokens_per_sec, fmul ratio 100)
        end end end
    | [] => Ret (0%Q, 0%Q, 0%Q)
    end in
  match averages with
  | Raise e => Raise e
  | Ret (avg_response_time, avg_tokens_per_sec, success_rate) =>
      Ret {| average_response_time := fround avg_response_time 2;
             average_tokens_per_second := fround avg_tokens_per_sec 2;
             success_rate := fround success_rate 1;
             total_tests := length test_prompts;
             successful_tests := length successful_tests |}
  end.

(** The outer loop over the models. *)
Fixpoint run_models (W : world) (models : list string) (results : list (string * Report))
    : M state (list (string * Report)) :=
  match models with
  | [] => ret results
  | model :: models' =>
      bind (print (Plain ("Testing " ++ model));;
            print (Plain (string_times "-" 50));;
            model_results ← run_tests W model get_test_prompts [];
            s ← call (summarize model_results get_test_prompts);
            mret (dict_set model {| individual_tests := model_results; summary := s |} results))
           (fun results' => run_models W models' results')
  end.

(** [get_system_info]: the commands it spawns, and the parsing that
    decides whether it goes on; the bare [except:] ends it quietly at the
    first failure of any kind.  The dictionary it builds goes into the
    report file only, whose content is not kept. *)
Definition get_system_info (W : world) : M state unit :=
  try_ (if String.eqb (sys_platform W) "darwin" then
          n ← next_call;
          result ← run_command W n ["sysctl"; "-n"; "hw.ncpu"] 30;
          call (int (int_max_str_digits W) (strip (proc_stdout result)));;
          n ← next_call;
          result ← run_command W n ["sysctl"; "-n"; "hw.memsize"] 30;
          call (int (int_max_str_digits W) (strip (proc_stdout result)));;
          mret tt
        else
          n ← next_call;
          result ← run_command W n ["nproc"] 30;
          call (int (int_max_str_digits W) (strip (proc_stdout result)));;
          call (meminfo W);;
          mret tt)
       [(is_anything, fun _ => mret tt)].

(** The results are saved inside [with open(...)]: the file is opened,
    then the dictionary is built, which calls [get_system_info], then it
    is written and the file closed. *)
Definition run_comprehensive_benchmark (W : world) (models : list string)
    (output_file : option string) : M state (list (string * Report)) :=
  match models with
  | [] => print_error "No models to benchmark";; mret []
  | _ :: _ =>
      print_status "Running comprehensive benchmark";;
      print_status "Using test prompts";;
      results ← run_models W models [];
      match output_file with
      | Some (String _ _) =>
          call (open_report W);;
          get_system_info W;;
          call (dump_report W);;
          print_success "Results saved";;
          mret results
      | _ => mret results
      end
  end.

(** *** print_results_summary *)

(** [sorted(xs, key=key, reverse=True)]: the stable sort by decreasing
    key, written as an insertion sort. *)
Fixpoint insert_desc {A} (key : A -> Q) (x : A) (l : list A) : list A :=
  match l with
  | [] => [x]
  | y :: l' => if Qltb (key x) (key y) then y :: insert_desc key x l' else x :: y :: l'
  end.

Definition sorted_desc {A} (key : A -> Q) (l : list A) : list A :=
  foldr (insert_desc key) [] l.

Definition sort_key (item : string * Report) : Q :=
  average_tokens_per_second (summary item.2).

Definition sorted_models (results : list (string * Report)) : list (string * Report) :=
  sorted_desc sort_key results.

Definition print_results_summary (results : list (string * Report)) : M state unit :=
  match results with
  | [] => mret tt
  | _ :: _ =>
      print (Plain "Benchmark Results Summary");;
      print (Plain (string_times "=" 60));;
      print (Plain "Model / Avg Response (s) / Tokens/sec / Success %");;
      for_ (sorted_models results) (fun '(model, data) =>
        print (Row model (average_response_time (summary data))
                         (average_tokens_per_second (summary data))
                         (success_rate (summary data))));;
      print (Plain "Legend:")
  end.

(** The order in which the models are displayed. *)
Definition ranking (results : list (string * Report)) : list string :=
  (sorted_models results).*1.

(** *** check_ollama, get_installed_models *)

(** The bare [except:] takes every exception, an interrupt too. *)
Definition check_ollama (W : world) : M state bool :=
  n ← next_call;
  try_ (run_command W n ["ollama"; "list"] 10;; mret true)
       [(is_anything, fun _ =>
           print_error "Ollama is not running or not accessible";;
           print_status "Please start Ollama: ollama serve";;
           mret false)].

(** One line of the listing: its first word, if the line is not blank. *)
Definition first_word (line : string) : option string :=
  match strip line with
  | EmptyString => None
  | String _ _ => head (split line)
  end.

(** The listing without its header line, one name per line. *)
Definition parse_models (out : string) : list string :=
  let lines := split_on (ascii_of_nat 10) (strip out) in
  omap first_word (drop 1 lines).

Definition get_installed_models (W : world) : M state (list string) :=
  n ← next_call;
  try_ (result ← run_command W n ["ollama"; "list"] 30;
        mret (parse_models (proc_stdout result)))
       [(is_anything, fun _ => mret [])].

(** *** main *)

(** The parsed command line; [--models] absent and [--models] without a
    name are both the empty list. *)
Record args : Type := {
  arg_models : list string;
  arg_all : bool;
  arg_output : option string;
  arg_quick : bool
}.

(** [[int(x.strip()) - 1 for x in fields]]: the first field that [int]
    refuses ends the comprehension. *)
Fixpoint ints (limit : nat) (fields : list string) : outcome (list Z) :=
  match fields with
  | [] => Ret []
  | x :: fields' =>
      match int limit (strip x) with
      | Raise e => Raise e
      | Ret i =>
          match ints limit fields' with
          | Raise e => Raise e
          | Ret l => Ret ((i - 1)%Z :: l)
          end
      end
  end.

(** [[int(x.strip()) - 1 for x in choice.split(',') if x.strip().isdigit()]] *)
Definition indices (limit : nat) (choice : string) : outcome (list Z) :=
  ints limit (filter (fun x => isdigit (strip x) = true) (split_on "," choice)).

(** [[installed[i] for i in indices if 0 <= i < len(installed)]] *)
Definition pick {A} (installed : list A) (indices : list Z) : list A :=
  omap (fun i => if (0 <=? i)%Z && (i <? Z.of_nat (length installed))%Z
                 then installed !! Z.to_nat i else None)
       indices.

(** The models chosen at the prompt, for the line typed there. *)
Definition chosen (limit : nat) (installed : list string) (answer : string)
    : outcome (list string) :=
  let choice := strip answer in
  if String.eqb (lower choice) "all" then Ret installed
  else match indices limit choice with
       | Raise e => Raise e
       | Ret idx => Ret (pick installed idx)
       end.

Definition quick_prompt : string := "Write a simple hello world function in Python.".

(** The quick benchmark: one probe per model. *)
Definition run_quick (W : world) (models : list string) : M state unit :=
  print_status "Running quick benchmark...";;
  for_ models (fun model =>
    result ← benchmark_model W model quick_prompt;
    if success result then print_success model
    else print_error (model ++ ": Failed (" ++ default "None" (error result) ++ ")")).

(** "Get models to benchmark": the models, or [None] where the script
    leaves through [sys.exit(1)] (a [SystemExit], which the handler of
    the prompt does not take).  [typed] is what [input()] does at the
    prompt, should the prompt be reached: the line it returns, or the
    exception it raises. *)
Definition models_to_benchmark (W : world) (a : args) (typed : outcome string)
    : M state (option (list string)) :=
  match arg_models a with
  | _ :: _ => mret (Some (arg_models a))
  | [] =>
      if arg_all a then
        models ← get_installed_models W;
        match models with
        | [] =>
            print_error "No models installed";;
            print_status "Install models first: python3 scripts/model_downloader.py";;
            mret None
        | _ :: _ => mret (Some models)
        end
      else
        installed ← get_installed_models W;
        match installed with
        | [] => print_error "No models installed";; mret None
        | _ :: _ =>
            print_status "Installed models:";;
            for_ installed (fun model => print (Plain model));;
            try_ (answer ← call typed;
                  models ← call (chosen (int_max_str_digits W) installed answer);
                  match models with
                  | [] => print_error "No valid models selected";; mret None
                  | _ :: _ => mret (Some models)
                  end)
                 [(is_ValueError_or_KeyboardInterrupt, fun _ =>
                     print_error "Invalid input";; mret None)]
        end
  end.

(** [main]; the value is the exit status: the argument of [sys.exit], or 0
    when [main] returns. *)
Definition main (W : world) (a : args) (typed : outcome string) : M state Z :=
  print (Plain "AI Model Benchmark Suite");;
  print (Plain (string_times "=" 40));;
  ok ← check_ollama W;
  if negb ok then mret 1%Z
  else
    selection ← models_to_benchmark W a typed;
    match selection with
    | None => mret 1%Z
    | Some models =>
        (if arg_quick a then run_quick W models
         else
           results ← run_comprehensive_benchmark W models (arg_output a);
           print_results_summary results);;
        mret 0%Z
    end.

(** The exit status of the process: the argument of [sys.exit], or the
    interpreter's status for an exception nobody caught. *)
Definition exit_status (r : outcome Z) : Z :=
  match r with
  | Ret code => code
  | Raise e => match exn_class e with KeyboardInterrupt => 130%Z | _ => 1%Z end
  end.

(** *** Notions used to state the properties *)

(** [y] may follow [x] in a list of decreasing keys. *)
Definition desc {A} (key : A -> Q) (x y : A) : Prop := (key y <= key x)%Q.

(** The elements of a given key value, in order. *)
Definition with_key {A} (key : A -> Q) (q : Q) (l : list A) : list A :=
  filter (fun x => Qeq_bool (key x) q = true) l.

(** The models of the [Row] lines, in the order printed. *)
Definition rows (l : list event) : list string :=
  omap (fun e => match e with Row m _ _ _ => Some m | _ => None end) l.

(** A world in which starting a command raises nothing beyond
    [Exception]. *)
Definition world_quiet (W : world) : Prop :=
  forall n cmd e, subprocess W n cmd = CannotStart e -> is_Exception e = true.

(** The command of one inference probe. *)
Definition probe_cmd (model_name test_prompt : string) : list string :=
  ["ollama"; "run"; model_name; test_prompt].

(** The [n]-th command, if it is [cmd], ends in time with return code 0. *)
Definition completes (W : world) (n : nat) (cmd : list string) (timeout : Q) : Prop :=
  returns (subprocess_run (subprocess W n cmd) timeout true).

Fixpoint blank_free (w : string) : bool :=
  match w with
  | EmptyString => true
  | String c w' => negb (is_space c) && blank_free w'
  end.

(** A word: some characters, none of them blank. *)
Definition word (w : string) : Prop := w <> EmptyString /\ blank_free w = true.

(** The decimal numeral of a number. *)
Definition numeral (n : nat) : string := pretty n.

(** The models at the 1-based positions [ks], skipping the positions
    that the list does not have. *)
Definition at_positions {A} (installed : list A) (ks : list nat) : list A :=
  omap (fun k => match k with O => None | S i => installed !! i end) ks.

(** The keys of a dictionary. *)
Definition keys {V} (d : list (string * V)) : list string := d.*1.

(** The distinct elements, in the order of their first occurrence. *)
Fixpoint first_occurrences (seen : list string) (l : list string) : list string :=
  match l with
  | [] => []
  | x :: l' =>
      if bool_decide (x ∈ seen) then first_occurrences seen l'
      else x :: first_occurrences (x :: seen) l'
  end.

(** "No row of the table was printed". *)
Definition same_rows : relation state :=
  fun s s' => rows (stdout s') = rows (stdout s).

(** "No command was spawned". *)
Definition same_calls : relation state :=
  fun s s' => calls s' = calls s.

(** The names that [ollama list] gives as the [n]-th command. *)
Definition installed_at (W : world) (n : nat) : list string :=
  match subprocess_run (subprocess W n ["ollama"; "list"]) 30 true with
  | Ret r => parse_models (proc_stdout r)
  | Raise _ => []
  end.

(** The state after the two lines of the banner. *)
Definition after_banner (s : state) : state :=
  State (calls s)
        ((stdout s ++ [Plain "AI Model Benchmark Suite"]) ++ [Plain (string_times "=" 40)]).

(** A list, or [None] for the empty one. *)
Definition nonempty {A} (l : list A) : option (list A) :=
  match l with
  | [] => None
  | _ :: _ => Some l
  end.

(** What the guarded block of the prompt comes to: the models chosen
    ([None] where the script gives up), or the exception that leaves
    it. *)
Definition prompted (limit : nat) (installed : list string) (typed : outcome string)
    : outcome (option (list string)) :=
  match match typed with
        | Ret answer => chosen limit installed answer
        | Raise e => Raise e
        end with
  | Ret l => Ret (nonempty l)
  | Raise e => if is_ValueError_or_KeyboardInterrupt e then Ret None else Raise e
  end.

(** The models that [main] goes on with, given the names installed and
    what happens at the prompt; [None] where it gives up. *)
Definition selection (W : world) (a : args) (installed : list string)
    (typed : outcome string) : outcome (option (list string)) :=
  match arg_models a with
  | _ :: _ => Ret (Some (arg_models a))
  | [] =>
      if arg_all a then Ret (nonempty installed)
      else match installed with
           | [] => Ret None
           | _ :: _ => prompted (int_max_str_digits W) installed typed
           end
  end.

(** Text of ASCII characters only: the text on which the model of
    [str.strip], [str.lower], [str.isdigit] and [int] is that of
    Python. *)
Fixpoint is_ascii (s : string) : bool :=
  match s with
  | EmptyString => true
  | String c s' => (nat_of_ascii c <? 128)%nat && is_ascii s'
  end.

(** What is typed at the prompt, if anything, is ASCII text. *)
Definition ascii_line (typed : outcome string) : Prop :=
  forall line, typed = Ret line -> is_ascii line = true.

(** The number of commands that [get_system_info] spawns when the next
    command is the [n]-th. *)
Definition system_info_calls (W : world) (n : nat) : nat :=
  if String.eqb (sys_platform W) "darwin" then
    match subprocess_run (subprocess W n ["sysctl"; "-n"; "hw.ncpu"]) 30 true with
    | Ret r =>
        match int (int_max_str_digits W) (strip (proc_stdout r)) with
        | Ret _ => 2%nat
        | Raise _ => 1%nat
        end
    | Raise _ => 1%nat
    end
  else 1%nat.

(** The number of commands spawned while the report is saved, when the
    next command is the [n]-th: none unless there are models, a file is
    asked for and it can be opened. *)
Definition report_calls (W : world) (models : list string) (output_file : option string)
    (n : nat) : nat :=
  match models, output_file with
  | _ :: _, Some (String _ _) =>
      match open_report W with
      | Ret _ => system_info_calls W n
      | Raise _ => 0%nat
      end
  | _, _ => 0%nat
  end.

(** The report, if one is asked for, can be opened and written. *)
Definition report_writable (W : world) (output_file : option string) : Prop :=
  match output_file with
  | Some (String _ _) => returns (open_report W) /\ returns (dump_report W)
  | _ => True
  end.

(** The mean of floats, as the source computes it: [sum(xs) / len(xs)]. *)
Definition fmean (xs : list Q) : Q :=
  b64 (b64 (fsum xs) / b64 (Qnat (length xs))).

(** What the probe of a model with a prompt gives when its command is
    the [n]-th. *)
Definition probe (W : world) (n : nat) (model_name test_prompt : string)
    : outcome BenchmarkResult :=
  (benchmark_model W model_name test_prompt (State n [])).1.

(** The probes of one round, one per prompt, when the first command of
    the round is the [n]-th. *)
Fixpoint probes (W : world) (n : nat) (model_name : string) (prompts : list string)
    : list (outcome BenchmarkResult) :=
  match prompts with
  | [] => []
  | prompt :: prompts' => probe W n model_name prompt :: probes W (S n) model_name prompts'
  end.

(** The dictionary holds for [k] the report of the round that started
    with the [n]-th command: the results of its five probes, and their
    summary. *)
Definition round_report (W : world) (n : nat) (k : string)
    (results : list (string * Report)) : Prop :=
  exists rep,
    dict_get k results = Some rep
    /\ Ret <$> individual_tests rep = probes W n k get_test_prompts
    /\ summarize (individual_tests rep) get_test_prompts = Ret (summary rep).

(** The record [r] is what the probe numbered [n] gave: a success
    exactly when its command completed in time with return code 0, and
    otherwise a failure that carries its error. *)
Definition classified_probe (W : world) (n : nat) (k p : string) (r : BenchmarkResult)
    : Prop :=
  probe W n k p = Ret r
  /\ (success r = true <-> completes W n (probe_cmd k p) 120)
  /\ (success r = false -> is_Some (error r)).

(** The dictionary holds for [k] a report whose results are, prompt by
    prompt, those of the five probes numbered from [n]. *)
Definition round_recorded (W : world) (n : nat) (k : string)
    (results : list (string * Report)) : Prop :=
  exists rep,
    dict_get k results = Some rep
    /\ length (individual_tests rep) = length get_test_prompts
    /\ forall i p, get_test_prompts !! i = Some p ->
         exists r, individual_tests rep !! i = Some r
                   /\ classified_probe W (n + i) k p r.

(** The last place of a model in the list. *)
Definition last_place (models : list string) (j : nat) (k : string) : Prop :=
  models !! j = Some k /\ forall j', (j < j')%nat -> models !! j' <> Some k.

(** The text does not contain the character. *)
Fixpoint free_of (sep : ascii) (w : string) : bool :=
  match w with
  | EmptyString => true
  | String c w' => negb (Ascii.eqb c sep) && free_of sep w'
  end.

End Bench.

(** ** model_downloader.py: the catalogue and the choice of models *)

Module Downloader.

(** The dictionary built by [get_system_info]. *)
Record SystemInfo : Type := {
  cpu_cores : Z;
  memory_gb : Z;
  has_gpu : bool;
  platform : string
}.

(** An entry of the catalogue. *)
Record Model : Type := {
  name : string;
  size : string;
  description : string;
  min_memory : Z;
  recommended : bool;
  category : string
}.

(** The local list [models] of [get_model_recommendations]. *)
Definition models (system_info : SystemInfo) : list Model :=
  [ {| name := "dolphin-2.6-mistral-7b";
       size := "4GB";
       description := "Fast, lightweight coding assistant";
       min_memory := 8;
       recommended := true;
       category := "lightweight" |};
    {| name := "dolphin-mixtral-8x7b";
       size := "15GB";
       description := "Excellent reasoning and code understanding";
       min_memory := 16;
       recommended := (16 <=? memory_gb system_info)%Z;
       category := "balanced" |};
    {| name := "wizardlm-2-8x22b";
       size := "14GB";
       description := "Creative coding and problem solving";
       min_memory := 16;
       recommended := (16 <=? memory_gb system_info)%Z;
       category := "creative" |};
    {| name := "dolphin-2.9.2-qwen2.5-72b";
       size := "45GB";
       description := "Advanced algorithms and complex reasoning";
       min_memory := 32;
       recommended := (32 <=? memory_gb system_info)%Z;
       category := "advanced" |};
    {| name := "mythomax-l2-13b";
       size := "8GB";
       description := "Balanced general purpose model";
       min_memory := 16;
       recommended := (16 <=? memory_gb system_info)%Z;
       category := "general" |} ].

Definition get_model_recommendations (system_info : SystemInfo) : list Model :=
  let available_memory := memory_gb system_info in
  filter (fun m => (min_memory m <= available_memory)%Z) (models system_info).

(** [main], [--category]: the recommendations of one category. *)
Definition category_models (system_info : SystemInfo) (cat : string) : list Model :=
  filter (fun m => category m = cat) (get_model_recommendations system_info).

(** [main], interactive mode: the label displayed with an entry. *)
Definition status (m : Model) : string :=
  if recommended m then "[RECOMMENDED]" else "[AVAILABLE]".

(** [main], interactive mode: the models to download for the line typed
    at the prompt; when [int] refuses a field, the script reports the
    input as invalid and returns, and nothing is downloaded. *)
Definition models_to_download (limit : nat) (recommendations : list Model)
    (answer : string) : list Model :=
  let choice := strip answer in
  if String.eqb (lower choice) "all" then recommendations
  else match Bench.indices limit choice with
       | Ret indices => Bench.pick recommendations indices
       | Raise _ => []
       end.

(** *** Notions used to state the properties *)

Definition names (l : list Model) : list string := name <$> l.

End Downloader.

(** ** Concrete scenarios *)

Module Scenarios.
Import Health.

Definition proc (n : string) : proc_info :=
  {| pid := 1; name := Some n; cmdline := Some [n];
     proc_cpu_percent := Some 1%Q; proc_memory_percent := Some 1%Q |}.

(** A machine with 16 GiB where the daemon runs and answers, with an
    empty model list; the inference server is absent. *)
Definition env_no_models : env := {|
  HAS_PSUTIL := true; HAS_REQUESTS := true;
  now := "2024-01-01T00:00:00"; sys_platform := "linux";
  fallback_info := Ret tt;
  cpu_count := Ret (Some 8%Z); cpu_count_logical := Ret (Some 16%Z);
  cpu_freq := Ret None;
  virtual_memory := fun _ => Ret {| vm_total := 17179869184; vm_percent := 40 |};
  disk_usage := fun _ => Ret {| du_total := 1000; du_used := 500; du_free := 500 |};
  getloadavg := Ret (1%Q, 1%Q, 1%Q);
  process_iter := fun _ => Ret (Gen [proc "systemd"; proc "Ollama"] None);
  cpu_percent := Ret 10%Q;
  ollama_health := Ret 200%Z;
  ollama_tags := Ret {| tags_status := 200; tags_json := Ret (Some []) |};
  llama_health := Raise (Exn ConnectionError "connection refused");
  models_dir_exists := false; listdir := Ret []; getsize := fun _ => Ret 0%Z;
  continue_config_exists := true; continue_config_models := Ret 2%nat;
  code_list_extensions := Ret "continue.continue";
  internet := Ret 200%Z; connect_ex := fun _ => Ret 111%Z;
  user_input := Ret "n"; write_results := Ret tt |}.

(** The same machine with the standard input closed: [input] raises
    EOFError. *)
Definition env_stdin_closed : env := {|
  HAS_PSUTIL := true; HAS_REQUESTS := true;
  now := "2024-01-01T00:00:00"; sys_platform := "linux";
  fallback_info := Ret tt;
  cpu_count := Ret (Some 8%Z); cpu_count_logical := Ret (Some 16%Z);
  cpu_freq := Ret None;
  virtual_memory := fun _ => Ret {| vm_total := 17179869184; vm_percent := 40 |};
  disk_usage := fun _ => Ret {| du_total := 1000; du_used := 500; du_free := 500 |};
  getloadavg := Ret (1%Q, 1%Q, 1%Q);
  process_iter := fun _ => Ret (Gen [proc "systemd"; proc "Ollama"] None);
  cpu_percent := Ret 10%Q;
  ollama_health := Ret 200%Z;
  ollama_tags := Ret {| tags_status := 200; tags_json := Ret (Some []) |};
  llama_health := Raise (Exn ConnectionError "connection refused");
  models_dir_exists := false; listdir := Ret []; getsize := fun _ => Ret 0%Z;
  continue_config_exists := true; continue_config_models := Ret 2%nat;
  code_list_extensions := Ret "continue.continue";
  internet := Ret 200%Z; connect_ex := fun _ => Ret 111%Z;
  user_input := Raise (Exn EOFError "EOF when reading a line");
  write_results := Ret tt |}.

(** Variations of that machine: whether psutil was imported, what the
    disk reports, how the internet probe ends, and whether the load
    average can be read. *)
Definition scenario (has_psutil : bool) (disk : sdiskusage) (net : outcome Z)
    (load : outcome (Q * Q * Q)) : env := {|
  HAS_PSUTIL := has_psutil; HAS_REQUESTS := true;
  now := "2024-01-01T00:00:00"; sys_platform := "linux";
  fallback_info := Ret tt;
  cpu_count := Ret (Some 8%Z); cpu_count_logical := Ret (Some 16%Z);
  cpu_freq := Ret None;
  virtual_memory := fun _ => Ret {| vm_total := 68719476736; vm_percent := 40 |};
  disk_usage := fun _ => Ret disk;
  getloadavg := load;
  process_iter := fun _ => Ret (Gen [proc "systemd"; proc "Ollama"] None);
  cpu_percent := Ret 10%Q;
  ollama_health := Ret 200%Z;
  ollama_tags := Ret {| tags_status := 200; tags_json := Ret (Some []) |};
  llama_health := Raise (Exn ConnectionError "connection refused");
  models_dir_exists := true; listdir := Ret ["notes.txt"]; getsize := fun _ => Ret 0%Z;
  continue_config_exists := true; continue_config_models := Ret 2%nat;
  code_list_extensions := Ret "continue.continue";
  internet := net; connect_ex := fun _ => Ret 111%Z;
  user_input := Ret "n"; write_results := Ret tt |}.

Definition half_full_disk : sdiskusage :=
  {| du_total := 1000; du_used := 500; du_free := 500 |}.

(** psutil could not be imported (on a machine of 64 GiB). *)
Definition env_without_psutil : env :=
  scenario false half_full_disk (Ret 200%Z) (Ret (1%Q, 1%Q, 1%Q)).

(** The disk reports a total of zero bytes. *)
Definition env_zero_disk : env :=
  scenario true {| du_total := 0; du_used := 0; du_free := 0 |} (Ret 200%Z)
           (Ret (1%Q, 1%Q, 1%Q)).

(** The internet probe connects but the answer does not come in time. *)
Definition env_slow_internet : env :=
  scenario true half_full_disk (Raise (Exn ReadTimeout "read timed out"))
           (Ret (1%Q, 1%Q, 1%Q)).

(** A platform without [os.getloadavg]. *)
Definition env_no_loadavg : env :=
  scenario true half_full_disk (Ret 200%Z)
           (Raise (Exn AttributeError "module 'os' has no attribute 'getloadavg'")).

(** A state whose system information reports [gb] GB of memory. *)
Definition checker_with_memory (gb : Q) : checker :=
  Checker "" ∅
    (Some {| cpu_cores := None; cpu_cores_logical := None; cpu_frequency := None;
             memory_total_gb := gb; memory_used_percent := 0;
             disk_total_gb := 0; disk_free_gb := 0; load_average := None |})
    [] [].

(** Three summaries with the throughputs 12.0, 12.0 and 30.0. *)
Definition report_with (tps : Q) : Bench.Report :=
  {| Bench.individual_tests := [];
     Bench.summary := {| Bench.average_response_time := 1;
                         Bench.average_tokens_per_second := tps;
                         Bench.success_rate := 100;
                         Bench.total_tests := 5;
                         Bench.successful_tests := 5 |} |}.

Definition results_ABC : list (string * Bench.Report) :=
  [("A", report_with 12); ("B", report_with 12); ("C", report_with 30)].

(** A world where every command hangs. *)
Definition world_hanging : Bench.world :=
  {| Bench.subprocess := fun _ _ => Bench.Runs None 0 "";
     Bench.elapsed := fun _ => 120%Q;
     Bench.sys_platform := "linux";
     Bench.meminfo := Ret ["MemTotal:       16266672 kB"];
     Bench.open_report := Ret tt;
     Bench.dump_report := Ret tt;
     Bench.int_max_str_digits := 4300 |}.

(** Five results of which the second and the fourth succeeded. *)
Definition result_of (ok : bool) (t tps : Q) : Bench.BenchmarkResult :=
  {| Bench.model := "m"; Bench.success := ok; Bench.response_time := t;
     Bench.tokens_generated := 0; Bench.tokens_per_second := tps;
     Bench.response_length := 0;
     Bench.error := if ok then None else Some "timeout" |}.

Definition five_results : list Bench.BenchmarkResult :=
  [result_of false 120 0; result_of true (114 # 100) 10; result_of false 120 0;
   result_of true (115 # 100) 20; result_of false 120 0].

(** The output of [ollama list]: a header, two models, a blank line. *)
Definition listing : string :=
  "NAME ID SIZE MODIFIED" ++ newline
  ++ "llama3:8b 365c0bd3c000 4.7 GB 2 days ago" ++ newline
  ++ newline
  ++ "phi3 4f2222927938 2.2 GB 5 weeks ago" ++ newline.

(** A world with two models installed, where the probes end in time,
    those of even number with return code 0 (on a clock that does not
    advance) and the others with return code 1, and where the report can
    be opened but not written. *)
Definition world_two_models : Bench.world :=
  {| Bench.subprocess := fun n cmd =>
       if bool_decide (cmd = ["ollama"; "list"]) then Bench.Runs (Some 1%Q) 0 listing
       else if Nat.even n then Bench.Runs (Some 2%Q) 0 "def f(): pass"
       else Bench.Runs (Some 3%Q) 1 "";
     Bench.elapsed := fun _ => 0%Q;
     Bench.sys_platform := "linux";
     Bench.meminfo := Ret ["MemTotal:       16266672 kB"];
     Bench.open_report := Ret tt;
     Bench.dump_report := Raise (Exn OtherException "No space left on device");
     Bench.int_max_str_digits := 4300 |}.

(** A world without the [ollama] executable. *)
Definition world_no_ollama : Bench.world :=
  {| Bench.subprocess := fun _ _ =>
       Bench.CannotStart (Exn FileNotFoundError "No such file or directory: 'ollama'");
     Bench.elapsed := fun _ => 0%Q;
     Bench.sys_platform := "linux";
     Bench.meminfo := Ret ["MemTotal:       16266672 kB"];
     Bench.open_report := Ret tt;
     Bench.dump_report := Ret tt;
     Bench.int_max_str_digits := 4300 |}.

(** A world with two models installed where every inference command
    hangs. *)
Definition world_slow_models : Bench.world :=
  {| Bench.subprocess := fun _ cmd =>
       if bool_decide (cmd = ["ollama"; "list"]) then Bench.Runs (Some 1%Q) 0 listing
       else Bench.Runs None 0 "";
     Bench.elapsed := fun _ => 120%Q;
     Bench.sys_platform := "darwin";
     Bench.meminfo := Raise (Exn FileNotFoundError "/proc/meminfo");
     Bench.open_report := Ret tt;
     Bench.dump_report := Ret tt;
     Bench.int_max_str_digits := 4300 |}.

(** A world where every command prints one word after four seconds. *)
Definition world_four_seconds : Bench.world :=
  {| Bench.subprocess := fun _ _ => Bench.Runs (Some 4%Q) 0 "hello";
     Bench.elapsed := fun _ => 4%Q;
     Bench.sys_platform := "linux";
     Bench.meminfo := Ret ["MemTotal:       16266672 kB"];
     Bench.open_report := Ret tt;
     Bench.dump_report := Ret tt;
     Bench.int_max_str_digits := 4300 |}.

End Scenarios.

(** * Properties *)

(** ** The monad *)

Module PyFacts.

Ltac unmonad := unfold mbind, M_bind, mret, M_ret in *.

Lemma Qltb_lt x y : Qltb x y = true <-> (x < y)%Q.
Proof.
  unfold Qltb. rewrite negb_true_iff, <- not_true_iff_false, Qle_bool_iff.
  split; [apply Qnot_le_lt | apply Qlt_not_le].
Qed.

Lemma Qltb_ge x y : Qltb x y = false <-> (y <= x)%Q.
Proof. unfold Qltb. now rewrite negb_false_iff, Qle_bool_iff. Qed.

Lemma quiet_Ret {A} (a : A) : quiet (Ret a).
Proof. intros e He. discriminate. Qed.

Lemma quiet_Raise {A} (e : exn) : is_Exception e = true -> quiet (@Raise A e).
Proof. intros H e' He'. congruence. Qed.

Section Quiet.
Context {S : Type}.

Lemma quietM_ret {A} (a : A) : quietM (S:=S) (ret a).
Proof. intros s. apply quiet_Ret. Qed.

Lemma quietM_call {A} (o : outcome A) : quiet o -> quietM (S:=S) (call o).
Proof. intros H s. exact H. Qed.

Lemma quietM_raise {A} (e : exn) : is_Exception e = true -> quietM (S:=S) (A:=A) (raise e).
Proof. intros H s. now apply quiet_Raise. Qed.

Lemma quietM_modify (f : S -> S) : quietM (modify f).
Proof. intros s. apply quiet_Ret. Qed.

Lemma quietM_get : quietM (S:=S) get.
Proof. intros s. apply quiet_Ret. Qed.

Lemma quietM_bind {A B} (m : M S A) (k : A -> M S B) :
  quietM m -> (forall a, quietM (k a)) -> quietM (bind m k).
Proof.
  intros Hm Hk s. unfold bind. specialize (Hm s).
  destruct (m s) as [[a|e] s']; simpl in *.
  - apply Hk.
  - apply quiet_Raise, (Hm e eq_refl).
Qed.

Lemma quiet_dispatch {A} (hs : list ((exn -> bool) * (exn -> M S A))) e :
  is_Exception e = true ->
  Forall (fun h => forall e', quietM (h.2 e')) hs ->
  quietM (dispatch hs e).
Proof.
  intros He. induction 1 as [|[c h] hs Hh _ IH]; simpl.
  - now apply quietM_raise.
  - destruct (c e); [apply Hh | apply IH].
Qed.

Lemma quietM_try {A} (m : M S A) hs :
  quietM m -> Forall (fun h => forall e', quietM (h.2 e')) hs -> quietM (try_ m hs).
Proof.
  intros Hm Hh s. unfold try_. specialize (Hm s).
  destruct (m s) as [[a|e] s']; simpl in *.
  - apply quiet_Ret.
  - apply quiet_dispatch; [now apply Hm | exact Hh].
Qed.

Lemma quietM_for {A} (xs : list A) (body : A -> M S unit) :
  (forall x, quietM (body x)) -> quietM (for_ xs body).
Proof.
  intros Hb. induction xs as [|x xs IH]; simpl.
  - apply quietM_ret.
  - apply quietM_bind; [apply Hb | intros _; exact IH].
Qed.

(** A guarded block whose handler catches every [Exception] ends
    normally when nothing else is raised inside it. *)
Lemma try_Exception_returns (m : M S unit) (h : exn -> M S unit) s :
  quietM m ->
  (forall e s0, (h e s0).1 = Ret tt) ->
  (try_ m [(is_Exception, h)] s).1 = Ret tt.
Proof.
  intros Hm Hh. unfold try_. specialize (Hm s).
  destruct (m s) as [[[]|e] s']; simpl in *; [reflexivity|].
  rewrite (Hm e eq_refl). apply Hh.
Qed.
End Quiet.

Section Keeps.
Context {S : Type} (R : relation S) `{!PreOrder R}.

Lemma keeps_ret {A} (a : A) : keeps R (ret a).
Proof. intros s. simpl. reflexivity. Qed.

Lemma keeps_call {A} (o : outcome A) : keeps R (call o).
Proof. intros s. simpl. reflexivity. Qed.

Lemma keeps_raise {A} (e : exn) : keeps R (A:=A) (raise e).
Proof. intros s. simpl. reflexivity. Qed.

Lemma keeps_get : keeps R get.
Proof. intros s. simpl. reflexivity. Qed.

Lemma keeps_bind {A B} (m : M S A) (k : A -> M S B) :
  keeps R m -> (forall a, keeps R (k a)) -> keeps R (bind m k).
Proof.
  intros Hm Hk s. unfold bind. specialize (Hm s).
  destruct (m s) as [[a|e] s']; simpl in *; [|exact Hm].
  etransitivity; [exact Hm | apply Hk].
Qed.

Lemma keeps_dispatch {A} (hs : list ((exn -> bool) * (exn -> M S A))) e :
  Forall (fun h => forall e', keeps R (h.2 e')) hs -> keeps R (dispatch hs e).
Proof.
  induction 1 as [|[c h] hs Hh _ IH]; simpl.
  - apply keeps_raise.
  - destruct (c e); [apply Hh | apply IH].
Qed.

Lemma keeps_try {A} (m : M S A) hs :
  keeps R m -> Forall (fun h => forall e', keeps R (h.2 e')) hs -> keeps R (try_ m hs).
Proof.
  intros Hm Hh s. unfold try_. specialize (Hm s).
  destruct (m s) as [[a|e] s']; simpl in *; [exact Hm|].
  etransitivity; [exact Hm | now apply keeps_dispatch].
Qed.

Lemma keeps_for {A} (xs : list A) (body : A -> M S unit) :
  (forall x, keeps R (body x)) -> keeps R (for_ xs body).
Proof.
  intros Hb. induction xs as [|x xs IH]; simpl.
  - apply keeps_ret.
  - apply keeps_bind; [apply Hb | intros _; exact IH].
Qed.
End Keeps.

End PyFacts.

(** ** health_check.py *)

Module HealthFacts.
Import Health PyFacts.

#[export] Instance same_key_preorder k : PreOrder (same_key k).
Proof.
  split; [now intros s|].
  intros s1 s2 s3 H1 H2. unfold same_key in *. congruence.
Qed.

#[export] Instance same_headers_preorder : PreOrder same_headers.
Proof.
  split; [now intros s|].
  intros s1 s2 s3 H1 H2. unfold same_headers in *. congruence.
Qed.

#[export] Instance same_checks_preorder : PreOrder same_checks.
Proof.
  split; [now intros s|].
  intros s1 s2 s3 H1 H2. unfold same_checks in *. congruence.
Qed.

Lemma headers_snoc l e :
  headers (l ++ [e]) = headers l ++ match e with Header t => [t] | _ => [] end.
Proof. unfold headers. rewrite omap_app. now destruct e. Qed.

Lemma try_bind_Ret {S A B} (m : M S A) (k : A -> M S B) hs s a s1 :
  m s = (Ret a, s1) -> try_ (bind m k) hs s = try_ (k a) hs s1.
Proof. intros H. unfold try_, bind. now rewrite H. Qed.

#[export] Instance same_results_preorder : PreOrder same_results.
Proof.
  split; [now intros s|].
  intros s1 s2 s3 (? & ? & ?) (? & ? & ?). unfold same_results. repeat split; congruence.
Qed.

(** *** Loops of the checker *)

Section KeepsChecker.
Context (R : relation checker) `{!PreOrder R}.

Lemma keeps_when b (m : M checker unit) : keeps R m -> keeps R (when b m).
Proof. intros H. destruct b; simpl; [exact H | now apply keeps_ret]. Qed.

Lemma keeps_loop_break {A} (body : A -> M checker bool) xs fault :
  (forall x, keeps R (body x)) -> keeps R (loop_break body xs fault).
Proof.
  intros Hb. induction xs as [|x xs IH]; simpl.
  - destruct fault; [now apply keeps_raise | now apply keeps_ret].
  - apply keeps_bind; [exact _ | apply Hb |].
    intros [|]; [now apply keeps_ret | exact IH].
Qed.

Lemma keeps_collect_ai xs fault acc : keeps R (collect_ai xs fault acc).
Proof.
  revert acc. induction xs as [|x xs IH]; intros acc; simpl.
  - destruct fault; [now apply keeps_raise | now apply keeps_ret].
  - apply keeps_bind; [exact _ | | intros a; apply IH].
    apply keeps_try; [exact _ | |].
    + unmonad. apply keeps_bind; [exact _ | now apply keeps_call |].
      intros n. now apply keeps_ret.
    + repeat constructor. intros e. now apply keeps_ret.
Qed.
End KeepsChecker.

Lemma quietM_when b (m : M checker unit) : quietM m -> quietM (when b m).
Proof. intros H. destruct b; simpl; [exact H | apply quietM_ret]. Qed.

Lemma quietM_loop_break {A} (body : A -> M checker bool) xs fault :
  (forall x, quietM (body x)) ->
  (forall e, fault = Some e -> is_Exception e = true) ->
  quietM (loop_break body xs fault).
Proof.
  intros Hb Hf. induction xs as [|x xs IH]; simpl.
  - destruct fault; [apply quietM_raise; auto | apply quietM_ret].
  - apply quietM_bind; [apply Hb |].
    intros [|]; [apply quietM_ret | exact IH].
Qed.

Lemma quiet_name_lower p : quiet (name_lower p).
Proof.
  unfold name_lower. destruct (name p); [apply quiet_Ret | now apply quiet_Raise].
Qed.

Lemma quiet_format_proc p : quiet (format_proc p).
Proof.
  unfold format_proc.
  destruct (proc_cpu_percent p), (proc_memory_percent p);
    first [apply quiet_Ret | now apply quiet_Raise].
Qed.

Lemma quiet_div a b : quiet (div a b).
Proof.
  unfold div. destruct (Qeq_bool b 0); [now apply quiet_Raise | apply quiet_Ret].
Qed.

Lemma quiet_psutil {A} E (o : outcome A) : quiet o -> quiet (psutil E o).
Proof. intros H. unfold psutil. destruct (HAS_PSUTIL E); [exact H | now apply quiet_Raise]. Qed.

Lemma quiet_requests {A} E (o : outcome A) : quiet o -> quiet (requests E o).
Proof. intros H. unfold requests. destruct (HAS_REQUESTS E); [exact H | now apply quiet_Raise]. Qed.

Lemma psutil_Ret {A} E (o : outcome A) a : psutil E o = Ret a -> o = Ret a.
Proof. unfold psutil. now destruct (HAS_PSUTIL E). Qed.

Lemma requests_Ret {A} E (o : outcome A) a : requests E o = Ret a -> o = Ret a.
Proof. unfold requests. now destruct (HAS_REQUESTS E). Qed.

Lemma quietM_collect_ai xs fault acc :
  (forall e, fault = Some e -> is_Exception e = true) ->
  quietM (collect_ai xs fault acc).
Proof.
  intros Hf. revert acc. induction xs as [|x xs IH]; intros acc; simpl.
  - destruct fault; [apply quietM_raise; auto | apply quietM_ret].
  - apply quietM_bind; [| intros a; apply IH].
    apply quietM_try.
    + unmonad. apply quietM_bind; [apply quietM_call, quiet_name_lower |].
      intros n. apply quietM_ret.
    + repeat constructor. intros e. apply quietM_ret.
Qed.

(** A call whose continuation may use what the call returned. *)
Lemma quietM_bind_call {S A B} (o : outcome A) (k : A -> M S B) :
  quiet o -> (forall a, o = Ret a -> quietM (k a)) -> quietM (bind (call o) k).
Proof.
  intros Ho Hk s. unfold bind, call. destruct o as [a|e]; simpl.
  - now apply Hk.
  - apply quiet_Raise, (Ho e eq_refl).
Qed.

(** *** Proof automation for the two predicates *)

Ltac keeps_prim :=
  intros ?; simpl;
  first
    [ reflexivity
    | unfold same_key; simpl; rewrite lookup_insert_ne by congruence; reflexivity
    | unfold same_headers; simpl; rewrite headers_snoc, app_nil_r; reflexivity
    | unfold same_results; simpl; auto ].

Ltac keeps_step :=
  lazymatch goal with
  | |- PreOrder _ => exact _
  | |- Forall _ [] => constructor
  | |- Forall _ (_ :: _) => constructor
  | |- forall _, _ => intros ?
  | |- keeps _ ((_, _).2 _) => cbn [snd]
  | |- keeps _ (ret _) => apply keeps_ret
  | |- keeps _ (call _) => apply keeps_call
  | |- keeps _ (raise _) => apply keeps_raise
  | |- keeps _ get => apply keeps_get
  | |- keeps _ (bind _ _) => apply keeps_bind
  | |- keeps _ (try_ _ _) => apply keeps_try
  | |- keeps _ (for_ _ _) => apply keeps_for
  | |- keeps _ (when _ _) => apply keeps_when
  | |- keeps _ (loop_break _ _ _) => apply keeps_loop_break
  | |- keeps _ (collect_ai _ _ _) => apply keeps_collect_ai
  | |- keeps _ (check_ports _) => unfold check_ports; unmonad
  | |- keeps _ (print _) => keeps_prim
  | |- keeps _ (print_header _) => keeps_prim
  | |- keeps _ (print_status _ _) => keeps_prim
  | |- keeps _ (print_colored _ _) => keeps_prim
  | |- keeps _ (set_check _ _) => keeps_prim
  | |- keeps _ (set_system_info _) => keeps_prim
  | |- keeps _ (set_recommendations _) => keeps_prim
  | |- keeps _ (match ?x with _ => _ end) => destruct x
  | |- keeps _ (let '(_, _) := ?x in _) => destruct x
  end.

Ltac keeps_auto := unmonad; repeat keeps_step.

Ltac quiet_env :=
  match goal with
  | H : no_interrupt _ |- _ =>
      first
        [ apply (ni_cpu_count _ H) | apply (ni_cpu_count_logical _ H)
        | apply (ni_cpu_freq _ H) | apply (ni_virtual_memory _ H)
        | apply (ni_disk_usage _ H) | apply (ni_getloadavg _ H)
        | apply (ni_process_iter _ H) | apply (ni_cpu_percent _ H)
        | apply (ni_ollama_health _ H) | apply (ni_ollama_tags _ H)
        | apply (ni_llama_health _ H) | apply (ni_listdir _ H)
        | apply (ni_getsize _ H) | apply (ni_continue_config_models _ H)
        | apply (ni_code_list_extensions _ H) | apply (ni_internet _ H)
        | apply (ni_connect_ex _ H) | apply (ni_write_results _ H)
        | eapply (ni_tags_json _ H); eauto using requests_Ret ]
  end.

Ltac quiet_fault :=
  match goal with
  | H : no_interrupt ?E, Hg : psutil ?E (process_iter ?E ?x) = Ret ?g
    |- forall e, fault ?g = Some e -> _ =>
      intros ?; apply (proj2 (ni_process_iter _ H x) g); apply (psutil_Ret _ _ _ Hg)
  end.

Ltac quiet_step :=
  lazymatch goal with
  | |- Forall _ [] => constructor
  | |- Forall _ (_ :: _) => constructor
  | |- forall e, fault _ = Some e -> _ => quiet_fault
  | |- forall _, _ => intros ?
  | |- quiet (psutil _ _) => apply quiet_psutil
  | |- quiet (requests _ _) => apply quiet_requests
  | |- quiet (name_lower _) => apply quiet_name_lower
  | |- quiet (format_proc _) => apply quiet_format_proc
  | |- quiet (div _ _) => apply quiet_div
  | |- quiet (Ret _) => apply quiet_Ret
  | |- quiet _ => quiet_env
  | |- quietM ((_, _).2 _) => cbn [snd]
  | |- quietM (ret _) => apply quietM_ret
  | |- quietM (call _) => apply quietM_call
  | |- quietM (raise _) => apply quietM_raise; reflexivity
  | |- quietM get => apply quietM_get
  | |- quietM (modify _) => apply quietM_modify
  | |- quietM (bind (call _) _) => apply quietM_bind_call
  | |- quietM (bind _ _) => apply quietM_bind
  | |- quietM (try_ _ _) => apply quietM_try
  | |- quietM (for_ _ _) => apply quietM_for
  | |- quietM (when _ _) => apply quietM_when
  | |- quietM (loop_break _ _ _) => apply quietM_loop_break
  | |- quietM (collect_ai _ _ _) => apply quietM_collect_ai
  | |- quietM (check_ports _) => unfold check_ports; unmonad
  | |- quietM (print _) => apply quietM_modify
  | |- quietM (print_header _) => apply quietM_modify
  | |- quietM (print_status _ _) => apply quietM_modify
  | |- quietM (print_colored _ _) => apply quietM_modify
  | |- quietM (set_check _ _) => apply quietM_modify
  | |- quietM (set_system_info _) => apply quietM_modify
  | |- quietM (set_recommendations _) => apply quietM_modify
  | |- quietM (match ?x with _ => _ end) => destruct x
  | |- quietM (let '(_, _) := ?x in _) => destruct x
  end.

Ltac quiet_auto := unmonad; repeat quiet_step.

(** *** Every category ends normally and prints its header *)

Lemma stage_bind t1 t2 (m1 m2 : M checker unit) :
  stage t1 m1 -> stage t2 m2 -> stage (t1 ++ t2) (bind m1 (fun _ => m2)).
Proof.
  intros H1 H2 s. unfold bind. destruct (H1 s) as [Hr Hh].
  destruct (m1 s) as [[[]|e] s1]; simpl in *; [|discriminate].
  destruct (H2 s1) as [Hr2 Hh2]. split; [exact Hr2|].
  now rewrite Hh2, Hh, app_assoc.
Qed.

Lemma stage_silent (m : M checker unit) :
  (forall s, (m s).1 = Ret tt) -> keeps same_headers m -> stage [] m.
Proof. intros Hr Hk s. split; [apply Hr|]. rewrite app_nil_r. apply Hk. Qed.

Lemma stage_print_header t : stage [t] (print_header t).
Proof. intros s. split; [reflexivity|]. simpl. now rewrite headers_snoc. Qed.

Lemma stage_try_Exception (body : M checker unit) h :
  quietM body -> keeps same_headers body -> (forall e, stage [] (h e)) ->
  stage [] (try_ body [(is_Exception, h)]).
Proof.
  intros Hq Hk Hh. apply stage_silent.
  - intros s. apply try_Exception_returns; [exact Hq|]. intros e s0. apply Hh.
  - apply keeps_try; [exact _ | exact Hk |].
    repeat constructor; simpl. intros e s. specialize (Hh e s) as [_ Hh].
    now rewrite app_nil_r in Hh.
Qed.

Lemma stage_try_anything (body : M checker unit) h :
  keeps same_headers body -> (forall e, stage [] (h e)) ->
  stage [] (try_ body [(is_anything, h)]).
Proof.
  intros Hk Hh. apply stage_silent.
  - intros s. unfold try_. destruct (body s) as [[[]|e] s1]; simpl; [reflexivity|].
    apply Hh.
  - apply keeps_try; [exact _ | exact Hk |].
    repeat constructor; simpl. intros e s. specialize (Hh e s) as [_ Hh].
    now rewrite app_nil_r in Hh.
Qed.

Lemma stage_guarded t (body : M checker unit) h :
  quietM body -> keeps same_headers body -> (forall e, stage [] (h e)) ->
  stage [t] (bind (print_header t) (fun _ => try_ body [(is_Exception, h)])).
Proof.
  intros Hq Hk Hh. apply (stage_bind [t] []);
    [apply stage_print_header | now apply stage_try_Exception].
Qed.

(** A handler that reports and records. *)
Lemma stage_report c st k v :
  stage [] (bind (print_status c st) (fun _ => set_check k v)).
Proof. intros s. split; [reflexivity|]. simpl. now rewrite headers_snoc. Qed.

Ltac stage_category :=
  unmonad; apply stage_guarded;
    [ quiet_auto | keeps_auto | intros ?; apply stage_report ].

Lemma stage_check_system_info E :
  no_interrupt E -> stage ["System Information"] (check_system_info E).
Proof.
  intros HE. unfold check_system_info, system_info_body, system_info_fallback_body.
  destruct (HAS_PSUTIL E); simpl.
  - stage_category.
  - unmonad. apply (stage_bind ["System Information"] []); [apply stage_print_header|].
    apply (stage_bind [] []).
    + apply stage_silent; [reflexivity | keeps_auto].
    + apply stage_try_anything; [keeps_auto | intros ?; apply stage_report].
Qed.

Lemma stage_check_ollama_service E :
  no_interrupt E -> stage ["Ollama Service Check"] (check_ollama_service E).
Proof. intros HE. unfold check_ollama_service, ollama_service_body. stage_category. Qed.

Lemma stage_check_llama_cpp E :
  no_interrupt E -> stage ["llama.cpp Check"] (check_llama_cpp E).
Proof. intros HE. unfold check_llama_cpp, llama_cpp_body. stage_category. Qed.

Lemma stage_check_vscode_integration E :
  no_interrupt E -> stage ["VS Code Integration Check"] (check_vscode_integration E).
Proof. intros HE. unfold check_vscode_integration, vscode_integration_body. stage_category. Qed.

Lemma stage_check_network_connectivity E :
  no_interrupt E -> stage ["Network Connectivity"] (check_network_connectivity E).
Proof. intros HE. unfold check_network_connectivity, network_connectivity_body. stage_category. Qed.

Lemma stage_check_performance_metrics E :
  no_interrupt E -> stage ["Performance Metrics"] (check_performance_metrics E).
Proof. intros HE. unfold check_performance_metrics, performance_metrics_body. stage_category. Qed.

Lemma for_returns {S A} (xs : list A) (body : A -> M S unit) :
  (forall x s, (body x s).1 = Ret tt) -> forall s, (for_ xs body s).1 = Ret tt.
Proof.
  intros Hb. induction xs as [|x xs IH]; intros s; simpl; [reflexivity|].
  unfold bind. specialize (Hb x s). destruct (body x s) as [[[]|e] s1]; simpl in *.
  - apply IH.
  - discriminate.
Qed.

Lemma bind_returns {S A} (m : M S A) (k : A -> M S unit) :
  (forall s, exists a, (m s).1 = Ret a) -> (forall a s, (k a s).1 = Ret tt) ->
  forall s, (bind m k s).1 = Ret tt.
Proof.
  intros Hm Hk s. unfold bind. destruct (Hm s) as [a Ha].
  destruct (m s) as [[a'|e] s1]; simpl in *; [apply Hk | discriminate].
Qed.

Lemma stage_generate_recommendations E :
  stage ["Recommendations"] (generate_recommendations E).
Proof.
  unfold generate_recommendations. unmonad.
  apply (stage_bind ["Recommendations"] []); [apply stage_print_header|].
  apply stage_silent; [|keeps_auto].
  apply bind_returns; [intros s; now exists s|]. intros c.
  apply bind_returns; [|reflexivity].
  intros s. exists tt. destruct (recommend _ _ _); [reflexivity|].
  apply for_returns. now intros [i r] ?.
Qed.

Lemma stage_print_summary : stage ["Summary"] print_summary.
Proof.
  unfold print_summary. unmonad.
  apply (stage_bind ["Summary"] []); [apply stage_print_header|].
  apply stage_silent; [|keeps_auto].
  intros s. unfold bind, get; simpl. now destruct (overall_status _ _).
Qed.

(** The headers of a full run, in the order of the categories. *)
Lemma stage_run_full_check E :
  no_interrupt E ->
  stage ["System Information"; "Ollama Service Check"; "llama.cpp Check";
         "VS Code Integration Check"; "Network Connectivity";
         "Performance Metrics"; "Recommendations"; "Summary"]
        (run_full_check E).
Proof.
  intros HE. unfold run_full_check. unmonad.
  apply (stage_bind [] (_ :: _)); [apply stage_silent; [reflexivity | keeps_auto]|].
  apply (stage_bind [] (_ :: _)); [apply stage_silent; [reflexivity | keeps_auto]|].
  apply (stage_bind [_] (_ :: _)); [now apply stage_check_system_info|].
  apply (stage_bind [_] (_ :: _)); [now apply stage_check_ollama_service|].
  apply (stage_bind [_] (_ :: _)); [now apply stage_check_llama_cpp|].
  apply (stage_bind [_] (_ :: _)); [now apply stage_check_vscode_integration|].
  apply (stage_bind [_] (_ :: _)); [now apply stage_check_network_connectivity|].
  apply (stage_bind [_] (_ :: _)); [now apply stage_check_performance_metrics|].
  apply (stage_bind [_] [_]); [apply stage_generate_recommendations|].
  apply stage_print_summary.
Qed.

(** *** The shape of a full run *)

Lemma bind_stage t (m : M checker unit) {B} (k : unit -> M checker B) s :
  stage t m -> bind m k s = k tt (after m s).
Proof.
  intros H. unfold bind, after. destruct (H s) as [Hr _].
  destruct (m s) as [[[]|e] s1]; simpl in *; [reflexivity | discriminate].
Qed.

(** *** A failing category records its failure *)

Lemma guarded_failure_recorded title (body : M checker unit) c key :
  failure_recorded (print_header title) body
    (bind (print_header title) (fun _ =>
       try_ body [(is_Exception, fun _ =>
                     bind (print_status c ERROR) (fun _ => set_check key ERROR))]))
    key.
Proof.
  intros s e Hb He. unfold after.
  rewrite (bind_stage _ _ _ _ (stage_print_header title)). unfold try_.
  destruct (body (after (print_header title) s)) as [[[]|e'] s1]; cbn [fst] in Hb;
    [discriminate|].
  injection Hb as ->. cbn [dispatch]. rewrite He.
  split; [reflexivity|]. apply lookup_insert_eq.
Qed.

Lemma categories_record_failures E :
  (HAS_PSUTIL E = true ->
   failure_recorded (print_header "System Information") (system_info_body E)
     (check_system_info E) "system_info")
  /\ failure_recorded (print_header "Ollama Service Check") (ollama_service_body E)
       (check_ollama_service E) "ollama_service"
  /\ failure_recorded (print_header "llama.cpp Check") (llama_cpp_body E)
       (check_llama_cpp E) "llama_cpp"
  /\ failure_recorded (print_header "VS Code Integration Check")
       (vscode_integration_body E) (check_vscode_integration E) "vscode_integration"
  /\ failure_recorded (print_header "Network Connectivity")
       (network_connectivity_body E) (check_network_connectivity E) "network"
  /\ failure_recorded (print_header "Performance Metrics")
       (performance_metrics_body E) (check_performance_metrics E) "performance".
Proof.
  repeat apply conj; try apply guarded_failure_recorded.
  intros HP. unfold check_system_info. rewrite HP. simpl negb. cbv iota.
  apply guarded_failure_recorded.
Qed.

Lemma system_info_records_failure E :
  if HAS_PSUTIL E then
    failure_recorded (print_header "System Information") (system_info_body E)
      (check_system_info E) "system_info"
  else
    failure_recorded
      (bind (print_header "System Information")
            (fun _ => print_status "Dependencies" WARNING))
      (system_info_fallback_body E) (check_system_info E) "system_info".
Proof.
  destruct (HAS_PSUTIL E) eqn:HP.
  - now apply categories_record_failures.
  - intros s e Hb He. unfold check_system_info, after in *. rewrite HP.
    simpl negb. cbv iota. unmonad.
    rewrite (bind_stage _ _ _ _ (stage_print_header _)).
    change (bind (print_status "Dependencies" WARNING) ?k ?s0)
      with (k tt (after (print_status "Dependencies" WARNING) s0)).
    cbv beta. unfold try_.
    change (bind (print_header ?t) (fun _ => print_status ?c ?st) s).2
      with (after (print_status c st) (after (print_header t) s)) in Hb.
    destruct (system_info_fallback_body E _) as [[[]|e'] s1]; cbn [fst] in Hb;
      [discriminate|].
    cbn [dispatch]. unfold is_anything. split; [reflexivity|]. apply lookup_insert_eq.
Qed.

Lemma stage_banner : stage [] banner.
Proof. apply stage_silent; [reflexivity | unfold banner; keeps_auto]. Qed.

Lemma run_full_check_eq E s :
  no_interrupt E -> run_full_check E s = print_summary (before_summary E s).
Proof.
  intros HE. unfold run_full_check, before_summary, before_recommendations. unmonad.
  change (bind (print_colored ?a ?b) (fun _ => bind (print_colored ?c ?d) ?k) s)
    with (bind banner k s).
  rewrite (bind_stage _ _ _ _ stage_banner); cbn beta.
  rewrite (bind_stage _ _ _ _ (stage_check_system_info E HE)).
  rewrite (bind_stage _ _ _ _ (stage_check_ollama_service E HE)).
  rewrite (bind_stage _ _ _ _ (stage_check_llama_cpp E HE)).
  rewrite (bind_stage _ _ _ _ (stage_check_vscode_integration E HE)).
  rewrite (bind_stage _ _ _ _ (stage_check_network_connectivity E HE)).
  rewrite (bind_stage _ _ _ _ (stage_check_performance_metrics E HE)).
  rewrite (bind_stage _ _ _ _ (stage_generate_recommendations E)).
  reflexivity.
Qed.

Lemma print_summary_checks s : checks (after print_summary s) = checks s.
Proof.
  unfold after, print_summary, bind, get; unmonad; unfold bind; simpl.
  now destruct (overall_status _ _).
Qed.

Lemma generate_recommendations_checks E s :
  checks (after (generate_recommendations E) s) = checks s.
Proof.
  assert (H : keeps same_checks (generate_recommendations E)).
  { unfold generate_recommendations. keeps_auto. }
  apply H.
Qed.

Lemma generate_recommendations_result E s :
  recommendations (after (generate_recommendations E) s)
  = recommend (sys_platform E) (checks s) (system_info s).
Proof.
  unfold after, generate_recommendations; unmonad; unfold bind, get; simpl.
  match goal with
  | |- context [ (match ?r with [] => ?a | _ :: _ => ?b end) ?s0 ] =>
      set (m := match r with [] => a | _ :: _ => b end)
  end.
  assert (Hk : forall s0, checks (m s0).2 = checks s0 /\ system_info (m s0).2 = system_info s0
                          /\ (m s0).1 = Ret tt).
  { intros s0. subst m. destruct (recommend _ _ _) as [|r rs]; [now simpl|].
    generalize (imap (fun (i : nat) (rec : string) => (S i, rec)) (r :: rs)).
    intros l. revert s0. induction l as [|[i x] l IH]; intros s0; [now simpl|].
    simpl. unfold bind; simpl.
    match goal with
    | |- context [for_ l _ ?s1] => destruct (IH s1) as (H1 & H2 & H3)
    end.
    now rewrite H1, H2, H3. }
  destruct (Hk (print_header "Recommendations" s).2) as (H1 & H2 & H3).
  destruct (m _) as [[[]|e] s1]; simpl in *; [|discriminate].
  reflexivity.
Qed.

(** [count_status] counts nothing exactly when no entry has the status. *)
Lemma count_status_zero st (m : gmap string Status) :
  count_status st m = 0%nat <-> forall k v, m !! k = Some v -> v <> st.
Proof.
  unfold count_status. rewrite length_zero_iff_nil. split.
  - intros H k v Hk ->.
    assert (Hin : (k, st) ∈ filter (fun kv : string * Status => kv.2 = st) (map_to_list m)).
    { apply list_elem_of_filter. split; [reflexivity | now apply elem_of_map_to_list]. }
    rewrite H in Hin. now apply not_elem_of_nil in Hin.
  - intros H.
    destruct (filter _ _) as [|[k v] l] eqn:Hf; [reflexivity|].
    assert (Hin : (k, v) ∈ filter (fun kv : string * Status => kv.2 = st) (map_to_list m)).
    { rewrite Hf. apply list_elem_of_here. }
    apply list_elem_of_filter in Hin as [Hv Hin]. simpl in Hv.
    apply elem_of_map_to_list in Hin. now destruct (H k v Hin).
Qed.

End HealthFacts.

Module HealthProps.
Import Health PyFacts HealthFacts Scenarios.

Lemma graded_if lo hi v :
  graded lo hi v (if Qltb v lo then OK else if Qltb v hi then WARNING else ERROR).
Proof.
  unfold graded.
  destruct (Qltb v lo) eqn:H1; [left; split; [now apply Qltb_lt | reflexivity]|].
  apply Qltb_ge in H1.
  destruct (Qltb v hi) eqn:H2.
  - right; left. apply Qltb_lt in H2. auto.
  - right; right. apply Qltb_ge in H2. auto.
Qed.

Lemma div_nonzero a (b : Z) :
  b <> 0%Z -> div a (inject_Z b) = Ret (a / inject_Z b)%Q.
Proof.
  intros Hb. unfold div.
  destruct (Qeq_bool (inject_Z b) 0) eqn:H; [|reflexivity].
  apply Qeq_bool_iff in H. unfold Qeq in H. simpl in H. lia.
Qed.

Lemma print_summary_verdict (s : checker) :
  last (stdout (after print_summary s))
  = Some (verdict_line (verdict_rule (count_status ERROR (checks s))
                                     (count_status WARNING (checks s)))).
Proof.
  unfold after, print_summary; unmonad; unfold bind, get; simpl.
  set (errors := count_status ERROR (checks s)).
  set (warnings := count_status WARNING (checks s)).
  unfold overall_status, verdict_rule.
  destruct (Nat.eqb_spec errors 0) as [He|He].
  - rewrite decide_True by exact He. simpl. now rewrite last_snoc.
  - rewrite decide_False by exact He.
    destruct (Nat.ltb_spec errors warnings) as [Hlt|Hge].
    + rewrite decide_True by lia. simpl. now rewrite last_snoc.
    + rewrite decide_False by lia. simpl. now rewrite last_snoc.
Qed.

(** C2 -- Whatever the check map, the summary announces the verdict that
    the rule gives for its counts of ERROR and WARNING entries: healthy
    without errors, degraded with errors fewer than warnings, critical
    otherwise, ties included. *)
Theorem overall_verdict_rule (s : checker) :
  let errors := count_status ERROR (checks s) in
  let warnings := count_status WARNING (checks s) in
  last (stdout (after print_summary s)) = Some (verdict_line (verdict_rule errors warnings))
  /\ checks (after print_summary s) = checks s
  /\ overall_status 0 3 = (msg_healthy, "green")
  /\ overall_status 1 3 = (msg_degraded, "yellow")
  /\ overall_status 3 1 = (msg_critical, "red")
  /\ overall_status 2 2 = (msg_critical, "red").
Proof.
  intros errors warnings.
  split; [apply print_summary_verdict|].
  split; [apply print_summary_checks | repeat split].
Qed.

(** A full run ends with that very summary. *)
Lemma run_full_check_verdict E s :
  no_interrupt E ->
  let s' := after (run_full_check E) s in
  (run_full_check E s).1 = Ret tt
  /\ last (stdout s')
     = Some (verdict_line (verdict_rule (count_status ERROR (checks s'))
                                        (count_status WARNING (checks s')))).
Proof.
  intros HE s'. split; [apply (stage_run_full_check E HE)|].
  subst s'. unfold after. rewrite (run_full_check_eq E s HE).
  fold (after print_summary (before_summary E s)).
  rewrite print_summary_checks. apply print_summary_verdict.
Qed.

Lemma try_call_Ret {S A B} (o : outcome A) (k : A -> M S B) hs s a :
  o = Ret a -> try_ (bind (call o) k) hs s = try_ (k a) hs s.
Proof. intros ->. now apply try_bind_Ret. Qed.

Lemma try_print_status {B} c st (k : unit -> M checker B) hs s :
  try_ (bind (print_status c st) k) hs s = try_ (k tt) hs (after (print_status c st) s).
Proof. now apply try_bind_Ret. Qed.

Lemma try_set_check {B} key v (k : unit -> M checker B) hs s :
  try_ (bind (set_check key v) k) hs s = try_ (k tt) hs (after (set_check key v) s).
Proof. now apply try_bind_Ret. Qed.

Lemma checks_print_status c st s : checks (after (print_status c st) s) = checks s.
Proof. reflexivity. Qed.

Lemma checks_set_check key v s :
  checks (after (set_check key v) s) = <[key:=v]> (checks s).
Proof. reflexivity. Qed.

Lemma psutil_present {A} E (o : outcome A) : HAS_PSUTIL E = true -> psutil E o = o.
Proof. intros H. unfold psutil. now rewrite H. Qed.

Lemma requests_present {A} E (o : outcome A) : HAS_REQUESTS E = true -> requests E o = o.
Proof. intros H. unfold requests. now rewrite H. Qed.

(** C3 -- When the three measurements are obtained, the performance check
    records for each of them the grade of its thresholds: CPU 50 and 80,
    memory 70 and 85, disk 80 and 90, the lower bound of each band
    included and the upper one excluded. *)
Theorem performance_thresholds E s (c : Q) (mem : svmem) (disk : sdiskusage) :
  HAS_PSUTIL E = true ->
  cpu_percent E = Ret c ->
  virtual_memory E AtPerformance = Ret mem ->
  disk_usage E AtPerformance = Ret disk ->
  du_total disk <> 0%Z ->
  let s' := after (check_performance_metrics E) s in
  let d := (inject_Z (du_used disk) / inject_Z (du_total disk) * 100)%Q in
  exists sc sm sd,
    checks s' !! "cpu_usage" = Some sc /\ graded 50 80 c sc
    /\ checks s' !! "memory_usage" = Some sm /\ graded 70 85 (vm_percent mem) sm
    /\ checks s' !! "disk_usage" = Some sd /\ graded 80 90 d sd.
Proof.
  intros HP Hc Hm Hd Ht s' d.
  exists (cpu_usage_status c), (memory_usage_status (vm_percent mem)), (disk_usage_status d).
  assert (Hs' : exists (rest : M checker unit) hs s1,
             s' = (try_ rest hs s1).2
             /\ (forall k, k <> "ai_processes" -> k <> "performance" ->
                           keeps (same_key k) (try_ rest hs))
             /\ checks s1 = <["disk_usage" := disk_usage_status d]>
                              (<["memory_usage" := memory_usage_status (vm_percent mem)]>
                                 (<["cpu_usage" := cpu_usage_status c]> (checks s)))).
  { subst s'. unfold after, check_performance_metrics, performance_metrics_body. unmonad.
    rewrite (bind_stage _ _ _ _ (stage_print_header _)).
    rewrite (try_call_Ret _ _ _ _ c) by (now rewrite psutil_present).
    rewrite try_print_status, try_set_check.
    rewrite (try_call_Ret _ _ _ _ mem) by (now rewrite psutil_present).
    rewrite try_print_status, try_set_check.
    rewrite (try_call_Ret _ _ _ _ disk) by (now rewrite psutil_present).
    rewrite (try_call_Ret _ _ _ _ _ (div_nonzero _ _ Ht)).
    rewrite try_print_status, try_set_check.
    eexists _, _, _. split; [reflexivity|]. split.
    - intros k Hk1 Hk2. keeps_auto.
    - now rewrite !checks_set_check, !checks_print_status. }
  destruct Hs' as (rest & hs & s1 & -> & Hk & Hs1).
  repeat split; try apply graded_if.
  - rewrite (Hk "cpu_usage") by discriminate. rewrite Hs1. by simplify_map_eq.
  - rewrite (Hk "memory_usage") by discriminate. rewrite Hs1. by simplify_map_eq.
  - rewrite (Hk "disk_usage") by discriminate. rewrite Hs1. by simplify_map_eq.
Qed.

Lemma performance_thresholds_witness :
  exists sc sm sd,
    checks (after (check_performance_metrics env_no_models) (init env_no_models)) !! "cpu_usage"
      = Some sc /\ graded 50 80 10 sc
    /\ checks (after (check_performance_metrics env_no_models) (init env_no_models)) !! "memory_usage"
      = Some sm /\ graded 70 85 40 sm
    /\ checks (after (check_performance_metrics env_no_models) (init env_no_models)) !! "disk_usage"
      = Some sd /\ graded 80 90 (inject_Z 500 / inject_Z 1000 * 100) sd.
Proof.
  apply (performance_thresholds env_no_models (init env_no_models) 10
           {| vm_total := 17179869184; vm_percent := 40 |}
           {| du_total := 1000; du_used := 500; du_free := 500 |});
    [reflexivity | reflexivity | reflexivity | reflexivity | discriminate].
Defined.

(** The boundary values of the CPU grading. *)
Example cpu_boundaries :
  cpu_usage_status (499 # 10) = OK /\ cpu_usage_status 50 = WARNING
  /\ cpu_usage_status (799 # 10) = WARNING /\ cpu_usage_status 80 = ERROR.
Proof. repeat split; reflexivity. Qed.

Example memory_boundaries :
  memory_usage_status (699 # 10) = OK /\ memory_usage_status 70 = WARNING
  /\ memory_usage_status (849 # 10) = WARNING /\ memory_usage_status 85 = ERROR.
Proof. repeat split; reflexivity. Qed.

Example disk_boundaries :
  disk_usage_status (799 # 10) = OK /\ disk_usage_status 80 = WARNING
  /\ disk_usage_status (899 # 10) = WARNING /\ disk_usage_status 90 = ERROR.
Proof. repeat split; reflexivity. Qed.

(** *** The memory-tier rule *)

Lemma size_recs_app l1 l2 : size_recs (l1 ++ l2) = size_recs l1 ++ size_recs l2.
Proof. unfold size_recs. apply filter_app. Qed.

Lemma size_recs_rule checks k v r :
  r ∉ [rec_large_models; rec_medium_models; rec_small_models] ->
  size_recs (rule checks k v r) = [].
Proof.
  intros Hr. unfold rule, size_recs. case_bool_decide; [|reflexivity].
  rewrite filter_cons. now rewrite decide_False by exact Hr.
Qed.

Lemma size_recs_platform p : size_recs (platform_rule p) = [].
Proof.
  unfold platform_rule.
  destruct (String.eqb _ _); [reflexivity|]. now destruct (startswith _ _).
Qed.

Lemma memory_rule_tier m :
  exists c, in_tier 16 8 m c /\ memory_rule m = [class_rec c].
Proof.
  unfold memory_rule, in_tier.
  destruct (Qle_bool 16 m) eqn:H16.
  - exists Large. apply Qle_bool_iff in H16. split; [left; auto | reflexivity].
  - assert (m < 16)%Q.
    { apply Qnot_le_lt. intros H. apply Qle_bool_iff in H. congruence. }
    destruct (Qle_bool 8 m) eqn:H8.
    + exists Medium. apply Qle_bool_iff in H8. split; [right; left; auto | reflexivity].
    + exists Small. split; [|reflexivity]. right; right. split; [|reflexivity].
      apply Qnot_le_lt. intros H'. apply Qle_bool_iff in H'. congruence.
Qed.

Lemma size_recs_recommend p checks info :
  size_recs (recommend p checks info) = size_recs (memory_rule (memory_gb_of info)).
Proof.
  unfold recommend. rewrite !size_recs_app, size_recs_platform, app_nil_r.
  rewrite !size_recs_rule; [reflexivity|..];
    intros H; apply list_elem_of_In in H; simpl in H; intuition discriminate.
Qed.

(** C6 (as amended) -- Whatever the state, the recommendations contain
    exactly one model-size-class entry, chosen by the tier of the total
    memory for the bounds 16 GB and 8 GB. *)
Theorem memory_tier_rule E s :
  exists c,
    in_tier 16 8 (memory_gb_of (system_info s)) c
    /\ size_recs (recommendations (after (generate_recommendations E) s)) = [class_rec c].
Proof.
  rewrite generate_recommendations_result, size_recs_recommend.
  destruct (memory_rule_tier (memory_gb_of (system_info s))) as (c & Hc & Hr).
  exists c. split; [exact Hc|]. rewrite Hr. now destruct c.
Qed.

(** At 16 GB the larger-model class is recommended, at 8 GB the medium
    one, at 4 GB the small one. *)
Example memory_rule_examples :
  memory_rule 32 = [rec_large_models] /\ memory_rule 16 = [rec_large_models]
  /\ memory_rule 8 = [rec_medium_models] /\ memory_rule 4 = [rec_small_models].
Proof. repeat split; reflexivity. Qed.

(** C6 (as stated) fails: the size class recommended is not determined
    by the tier for the bounds 32 GB and 16 GB, whatever class one
    attaches to each tier.  Machines of 8 GB and of 4 GB are both below
    16 GB and get different recommendations. *)
Lemma memory_tier_32_16_fails :
  ~ (exists pick : size_class -> string,
       forall E s c,
         in_tier 32 16 (memory_gb_of (system_info s)) c ->
         size_recs (recommendations (after (generate_recommendations E) s)) = [pick c]).
Proof.
  intros [pick H].
  assert (H8 : in_tier 32 16 (memory_gb_of (system_info (checker_with_memory 8))) Small).
  { right; right. split; reflexivity. }
  assert (H4 : in_tier 32 16 (memory_gb_of (system_info (checker_with_memory 4))) Small).
  { right; right. split; reflexivity. }
  pose proof (H env_no_models _ _ H8) as E8.
  pose proof (H env_no_models _ _ H4) as E4.
  vm_compute in E8, E4. congruence.
Qed.

(** *** The exit status *)

Lemma save_results_returns E s :
  quiet (write_results E) -> exists s', save_results E s = (Ret tt, s').
Proof.
  intros Hq. unfold save_results, try_; unmonad; unfold bind, call.
  destruct (write_results E) as [[]|e] eqn:Hw; simpl; [eauto|].
  rewrite (Hq e eq_refl). eauto.
Qed.

Lemma main_result E answer :
  no_interrupt E -> user_input E = Ret answer ->
  exists s', main E = (Ret (if (count_status ERROR (checks s') =? 0)%nat then 0 else 1)%Z, s').
Proof.
  intros HE Hin. unfold main, main_body; unmonad.
  rewrite (bind_stage _ _ _ _ (stage_run_full_check E HE)).
  unfold bind at 1. simpl. unfold bind at 1. unfold call at 1. rewrite Hin.
  unfold bind at 1.
  destruct (bool_decide _); simpl.
  - match goal with
    | |- context [save_results E ?s0] =>
        destruct (save_results_returns E s0 (ni_write_results E HE)) as [s' Hs']
    end.
    rewrite Hs'. eexists. reflexivity.
  - eexists. reflexivity.
Qed.

Lemma main_prompt_raises E e :
  no_interrupt E -> user_input E = Raise e -> (main E).1 = Raise e.
Proof.
  intros HE Hin. unfold main, main_body; unmonad.
  rewrite (bind_stage _ _ _ _ (stage_run_full_check E HE)).
  unfold bind at 1. simpl. unfold bind at 1. unfold call at 1. now rewrite Hin.
Qed.

Lemma exit_status_raise e : exit_status (Raise e) <> 0%Z.
Proof. simpl. now destruct (exn_class e). Qed.

(** C9 (as amended) -- When no probe is interrupted, the process exits
    with status 0 exactly when the save prompt was answered and no
    recorded check is ERROR; WARNING entries do not matter. *)
Theorem exit_status_reflects_errors E :
  no_interrupt E ->
  exit_status (main E).1 = 0%Z
  <-> returns (user_input E)
      /\ forall k v, checks (main E).2 !! k = Some v -> v <> ERROR.
Proof.
  intros HE. destruct (user_input E) as [answer|e] eqn:Hin.
  - destruct (main_result E answer HE Hin) as [s' ->]. simpl.
    rewrite <- count_status_zero.
    destruct (Nat.eqb_spec (count_status ERROR (checks s')) 0) as [H0|H0]; split.
    + intros _. split; [now exists answer | exact H0].
    + reflexivity.
    + discriminate.
    + intros [_ H]. now destruct H0.
  - rewrite (main_prompt_raises E e HE Hin). split.
    + intros H. now destruct (exit_status_raise e).
    + intros [[a Ha] _]. discriminate.
Qed.

Lemma env_no_models_quiet : no_interrupt env_no_models.
Proof.
  constructor; simpl; try intros ?; try apply quiet_Ret; try (now apply quiet_Raise).
  - split; [apply quiet_Ret|]. intros g e [= <-]. discriminate.
  - intros [= <-]. apply quiet_Ret.
Qed.

Lemma exit_status_reflects_errors_witness :
  exit_status (main env_no_models).1 = 0%Z
  <-> returns (user_input env_no_models)
      /\ forall k v, checks (main env_no_models).2 !! k = Some v -> v <> ERROR.
Proof.
  apply (exit_status_reflects_errors env_no_models env_no_models_quiet).
Defined.

Lemma env_stdin_closed_quiet : no_interrupt env_stdin_closed.
Proof.
  constructor; simpl; try intros ?; try apply quiet_Ret; try (now apply quiet_Raise).
  - split; [apply quiet_Ret|]. intros g e [= <-]. discriminate.
  - intros [= <-]. apply quiet_Ret.
Qed.

(** C9 (as stated) fails: with the standard input closed, the prompt that
    follows the run raises EOFError, which nothing catches.  No probe is
    interrupted and no recorded check is ERROR, yet the process exits
    with status 1. *)
Lemma exit_status_stdin_closed :
  no_interrupt env_stdin_closed
  /\ (forall k v, checks (main env_stdin_closed).2 !! k = Some v -> v <> ERROR)
  /\ (main env_stdin_closed).1 = Raise (Exn EOFError "EOF when reading a line")
  /\ exit_status (main env_stdin_closed).1 = 1%Z
  /\ ~ (exit_status (main env_stdin_closed).1 = 0%Z
        <-> forall k v, checks (main env_stdin_closed).2 !! k = Some v -> v <> ERROR).
Proof.
  assert (Hno : forall k v, checks (main env_stdin_closed).2 !! k = Some v -> v <> ERROR).
  { apply count_status_zero. vm_compute. reflexivity. }
  assert (Hm : (main env_stdin_closed).1 = Raise (Exn EOFError "EOF when reading a line"))
    by (apply (main_prompt_raises _ _ env_stdin_closed_quiet); reflexivity).
  split; [exact env_stdin_closed_quiet|]. split; [exact Hno|]. split; [exact Hm|].
  rewrite Hm. split; [reflexivity|]. intros [_ H]. now specialize (H Hno).
Qed.

(** *** Which checks leave an entry *)

Lemma loop_break_first_hit {A} (test : A -> outcome bool) (body : A -> M checker bool)
    xs fault :
  (forall x s, exists s', body x s = (test x, s') /\ checks s' = checks s) ->
  forall s, exists s',
    loop_break body xs fault s = (first_hit test xs fault, s') /\ checks s' = checks s.
Proof.
  intros Hb. induction xs as [|x xs IH]; intros s; simpl.
  - destruct fault; eexists; split; reflexivity.
  - unfold bind. destruct (Hb x s) as (s1 & -> & H1).
    destruct (test x) as [[|]|e].
    + eexists; split; [reflexivity | exact H1].
    + destruct (IH s1) as (s2 & -> & H2). eexists; split; [reflexivity | congruence].
    + eexists; split; [reflexivity | exact H1].
Qed.

Lemma dispatch_Exception_key (k k' : string) c v e s :
  k' <> k ->
  checks (dispatch [(is_Exception, fun _ : exn =>
            bind (print_status c ERROR) (fun _ => set_check k' v))] e s).2 !! k
  = checks s !! k.
Proof.
  intros Hk. simpl. destruct (is_Exception e); simpl; [|reflexivity].
  now rewrite lookup_insert_ne.
Qed.

Lemma try_when_false {S B} (m : M S unit) (k : unit -> M S B) hs s :
  try_ (bind (when false m) k) hs s = try_ (k tt) hs s.
Proof. now apply try_bind_Ret. Qed.

Lemma try_when_true {S B} (m : M S unit) (k : unit -> M S B) hs s s' :
  m s = (Ret tt, s') -> try_ (bind (when true m) k) hs s = try_ (k tt) hs s'.
Proof. intros H. now apply try_bind_Ret. Qed.

Lemma ollama_process_entry E s :
  checks (after (check_ollama_service E) s) !! "ollama_process"
  = match ollama_process_found E with
    | Ret false => Some WARNING
    | _ => checks s !! "ollama_process"
    end.
Proof.
  unfold after, check_ollama_service, ollama_service_body, ollama_process_found. unmonad.
  rewrite (bind_stage _ _ _ _ (stage_print_header _)).
  destruct (psutil E (process_iter E AtOllama)) as [g|e] eqn:Hg.
  - rewrite (try_call_Ret _ _ _ _ g eq_refl).
    match goal with
    | |- context [loop_break ?body (items g) (fault g)] =>
        destruct (loop_break_first_hit ollama_test body (items g) (fault g)) with
          (s := after (print_header "Ollama Service Check") s) as (s1 & Hl & H1)
    end.
    { intros p s0. unfold ollama_test, bind, call.
      destruct (name_lower p) as [n|e]; simpl; [|eauto].
      destruct (contains "ollama" n); simpl; eauto. }
    destruct (first_hit ollama_test (items g) (fault g)) as [[|]|e].
    + rewrite (try_bind_Ret _ _ _ _ _ _ Hl). change (negb true) with false.
      rewrite try_when_false.
      match goal with
      | |- checks (try_ ?m ?hs s1).2 !! _ = _ =>
          assert (Hk : keeps (same_key "ollama_process") (try_ m hs)) by keeps_auto
      end.
      rewrite Hk. now rewrite H1.
    + rewrite (try_bind_Ret _ _ _ _ _ _ Hl). change (negb false) with true.
      erewrite try_when_true; [|reflexivity].
      match goal with
      | |- checks (try_ ?m ?hs ?s2).2 !! _ = _ =>
          assert (Hk : keeps (same_key "ollama_process") (try_ m hs)) by keeps_auto
      end.
      rewrite Hk. simpl. by simplify_map_eq.
    + unfold try_ at 1, bind at 1. rewrite Hl.
      rewrite dispatch_Exception_key by discriminate. now rewrite H1.
  - unfold try_ at 1, bind at 1, call at 1.
    now rewrite dispatch_Exception_key by discriminate.
Qed.

Lemma llama_server_entry E s :
  checks (after (check_llama_cpp E) s) !! "llama_cpp_server"
  = match llama_server_found E with
    | Ret false => Some WARNING
    | _ => checks s !! "llama_cpp_server"
    end.
Proof.
  unfold after, check_llama_cpp, llama_cpp_body, llama_server_found. unmonad.
  rewrite (bind_stage _ _ _ _ (stage_print_header _)).
  destruct (psutil E (process_iter E AtLlamaCpp)) as [g|e] eqn:Hg.
  - rewrite (try_call_Ret _ _ _ _ g eq_refl).
    match goal with
    | |- context [loop_break ?body (items g) (fault g)] =>
        destruct (loop_break_first_hit server_test body (items g) (fault g)) with
          (s := after (print_header "llama.cpp Check") s) as (s1 & Hl & H1)
    end.
    { intros p s0. unfold server_test, try_, bind.
      destruct (is_server_cmdline p); simpl; eauto. }
    destruct (first_hit server_test (items g) (fault g)) as [[|]|e].
    + rewrite (try_bind_Ret _ _ _ _ _ _ Hl). change (negb true) with false.
      rewrite try_when_false.
      match goal with
      | |- checks (try_ ?m ?hs s1).2 !! _ = _ =>
          assert (Hk : keeps (same_key "llama_cpp_server") (try_ m hs)) by keeps_auto
      end.
      rewrite Hk. now rewrite H1.
    + rewrite (try_bind_Ret _ _ _ _ _ _ Hl). change (negb false) with true.
      erewrite try_when_true; [|reflexivity].
      match goal with
      | |- checks (try_ ?m ?hs ?s2).2 !! _ = _ =>
          assert (Hk : keeps (same_key "llama_cpp_server") (try_ m hs)) by keeps_auto
      end.
      rewrite Hk. simpl. by simplify_map_eq.
    + unfold try_ at 1, bind at 1. rewrite Hl.
      rewrite dispatch_Exception_key by discriminate. now rewrite H1.
  - unfold try_ at 1, bind at 1, call at 1.
    now rewrite dispatch_Exception_key by discriminate.
Qed.

Lemma check_ports_results E s : same_results s (after (check_ports E) s).
Proof.
  assert (H : keeps same_results (check_ports E)) by keeps_auto.
  apply H.
Qed.

Lemma check_network_keys E s k :
  k <> "internet" -> k <> "network" ->
  checks (after (check_network_connectivity E) s) !! k = checks s !! k.
Proof.
  intros H1 H2.
  assert (H : keeps (same_key k) (check_network_connectivity E)).
  { unfold check_network_connectivity, network_connectivity_body. keeps_auto. }
  apply H.
Qed.

(** C10 -- The daemon-process check and the server-process check write
    their entry only in the not-running branch, with WARNING; when the
    process is found (or the search fails) the entry is left as it was.
    The port probes change nothing but the terminal, whatever they
    answer: check map, system information and recommendations stay as
    they were; and the whole network category touches no key other than
    "internet" and "network". *)
Theorem passing_checks_leave_no_entry E s :
  checks (after (check_ollama_service E) s) !! "ollama_process"
    = match ollama_process_found E with
      | Ret false => Some WARNING
      | _ => checks s !! "ollama_process"
      end
  /\ checks (after (check_llama_cpp E) s) !! "llama_cpp_server"
    = match llama_server_found E with
      | Ret false => Some WARNING
      | _ => checks s !! "llama_cpp_server"
      end
  /\ same_results s (after (check_ports E) s)
  /\ delete "internet" (delete "network" (checks (after (check_network_connectivity E) s)))
     = delete "internet" (delete "network" (checks s)).
Proof.
  split; [apply ollama_process_entry|].
  split; [apply llama_server_entry|].
  split; [apply check_ports_results|].
  apply map_eq. intros k.
  destruct (decide (k = "internet")) as [->|H1]; [now rewrite !lookup_delete_eq|].
  rewrite !(lookup_delete_ne _ "internet") by congruence.
  destruct (decide (k = "network")) as [->|H2]; [now rewrite !lookup_delete_eq|].
  rewrite !(lookup_delete_ne _ "network") by congruence.
  now apply check_network_keys.
Qed.

(** *** An empty model list *)

Lemma api_check_returns E s :
  api_check_completes (requests E (ollama_health E)) = true ->
  exists s',
    try_ (bind (call (requests E (ollama_health E))) (fun status_code =>
            if (status_code =? 200)%Z
            then bind (print_status "Ollama API" OK) (fun _ => set_check "ollama_api" OK)
            else bind (print_status "Ollama API" WARNING)
                      (fun _ => set_check "ollama_api" WARNING)))
         [(is_requests_ConnectionError, fun _ =>
             bind (print_status "Ollama API" ERROR) (fun _ => set_check "ollama_api" ERROR));
          (is_requests_Timeout, fun _ =>
             bind (print_status "Ollama API" WARNING)
                  (fun _ => set_check "ollama_api" WARNING))] s
    = (Ret tt, s').
Proof.
  intros H. unfold try_, bind, call.
  destruct (requests E (ollama_health E)) as [code|e]; simpl in *.
  - destruct (code =? 200)%Z; eauto.
  - destruct (is_requests_ConnectionError e); simpl in *; [eauto|].
    rewrite H. eauto.
Qed.

(** With an empty model list the model check prints a WARNING line and
    records OK. *)
Lemma empty_model_list_recorded_ok E s g b r md :
  HAS_REQUESTS E = true ->
  psutil E (process_iter E AtOllama) = Ret g ->
  first_hit ollama_test (items g) (fault g) = Ret b ->
  api_check_completes (requests E (ollama_health E)) = true ->
  ollama_tags E = Ret r -> tags_status r = 200%Z -> tags_json r = Ret md ->
  default [] md = [] ->
  checks (after (check_ollama_service E) s) !! "ollama_models" = Some OK
  /\ last (stdout (after (check_ollama_service E) s)) = Some (StatusLine "Models" WARNING).
Proof.
  intros HR Hg Hb Hapi Ht H200 Hj Hm.
  unfold after, check_ollama_service, ollama_service_body. unmonad.
  rewrite (bind_stage _ _ _ _ (stage_print_header _)).
  rewrite (try_call_Ret _ _ _ _ g Hg).
  match goal with
  | |- context [loop_break ?body (items g) (fault g)] =>
      destruct (loop_break_first_hit ollama_test body (items g) (fault g)) with
        (s := after (print_header "Ollama Service Check") s) as (s1 & Hl & H1)
  end.
  { intros p s0. unfold ollama_test, bind, call.
    destruct (name_lower p) as [n|e]; simpl; [|eauto].
    destruct (contains "ollama" n); simpl; eauto. }
  rewrite Hb in Hl. rewrite (try_bind_Ret _ _ _ _ _ _ Hl).
  assert (Hw : exists s2, when (negb b)
            (bind (print_status "Ollama Process" WARNING)
                  (fun _ => set_check "ollama_process" WARNING)) s1 = (Ret tt, s2)).
  { destruct b; simpl; eauto. }
  destruct Hw as [s2 Hw]. rewrite (try_bind_Ret _ _ _ _ _ _ Hw).
  destruct (api_check_returns E s2 Hapi) as [s3 Hs3].
  rewrite (try_bind_Ret _ _ _ _ _ _ Hs3).
  unfold try_, bind, call. rewrite (requests_present _ _ HR), Ht, H200, Hj, Hm.
  simpl. rewrite last_snoc. split; [by simplify_map_eq | reflexivity].
Qed.

Lemma not_elem_of_rule checks k v r x : x <> r -> x ∉ rule checks k v r.
Proof.
  intros H. unfold rule. case_bool_decide; [|apply not_elem_of_nil].
  intros Hin. apply list_elem_of_singleton in Hin. contradiction.
Qed.

Lemma pull_not_recommended p checks info :
  checks !! "ollama_models" = Some OK -> rec_pull_models ∉ recommend p checks info.
Proof.
  intros H. unfold recommend. rewrite !elem_of_app.
  intros [Hin|[Hin|[Hin|[Hin|[Hin|[Hin|[Hin|[Hin|Hin]]]]]]]];
    try (revert Hin; by apply not_elem_of_rule).
  - unfold rule in Hin. rewrite H in Hin.
    rewrite bool_decide_eq_false_2 in Hin by discriminate.
    now apply not_elem_of_nil in Hin.
  - unfold memory_rule in Hin.
    destruct (Qle_bool 16 _); [|destruct (Qle_bool 8 _)];
      apply list_elem_of_singleton in Hin; discriminate.
  - unfold platform_rule in Hin.
    destruct (String.eqb _ _); [|destruct (startswith _ _)];
      first [apply list_elem_of_singleton in Hin; discriminate
            | now apply not_elem_of_nil in Hin].
Qed.

Lemma print_summary_recommendations s :
  recommendations (after print_summary s) = recommendations s.
Proof.
  unfold after, print_summary, bind, get; unmonad; unfold bind; simpl.
  now destruct (overall_status _ _).
Qed.

(** C7 -- what the code does: when the daemon answers the model listing
    with an empty list, the run records "ollama_models" as OK and its
    recommendations do not contain the pull suggestion. *)
Theorem empty_model_list_gives_no_pull E s g b r md :
  no_interrupt E ->
  HAS_REQUESTS E = true ->
  psutil E (process_iter E AtOllama) = Ret g ->
  first_hit ollama_test (items g) (fault g) = Ret b ->
  api_check_completes (requests E (ollama_health E)) = true ->
  ollama_tags E = Ret r -> tags_status r = 200%Z -> tags_json r = Ret md ->
  default [] md = [] ->
  checks (after (run_full_check E) s) !! "ollama_models" = Some OK
  /\ rec_pull_models ∉ recommendations (after (run_full_check E) s).
Proof.
  intros HE HR Hg Hb Hapi Ht H200 Hj Hm.
  unfold after. rewrite (run_full_check_eq E s HE).
  fold (after print_summary (before_summary E s)).
  rewrite print_summary_checks, print_summary_recommendations.
  unfold before_summary.
  rewrite generate_recommendations_checks, generate_recommendations_result.
  assert (Hk : checks (before_recommendations E s) !! "ollama_models" = Some OK).
  { unfold before_recommendations.
    assert (K1 : keeps (same_key "ollama_models") (check_performance_metrics E))
      by (unfold check_performance_metrics, performance_metrics_body; keeps_auto).
    assert (K2 : keeps (same_key "ollama_models") (check_network_connectivity E))
      by (unfold check_network_connectivity, network_connectivity_body; keeps_auto).
    assert (K3 : keeps (same_key "ollama_models") (check_vscode_integration E))
      by (unfold check_vscode_integration, vscode_integration_body; keeps_auto).
    assert (K4 : keeps (same_key "ollama_models") (check_llama_cpp E))
      by (unfold check_llama_cpp, llama_cpp_body; keeps_auto).
    unfold after at 1. rewrite K1. unfold after at 1. rewrite K2.
    unfold after at 1. rewrite K3. unfold after at 1. rewrite K4.
    eapply empty_model_list_recorded_ok; eauto. }
  split; [exact Hk | now apply pull_not_recommended].
Qed.

Lemma empty_model_list_gives_no_pull_witness :
  checks (after (run_full_check env_no_models) (init env_no_models)) !! "ollama_models" = Some OK
  /\ rec_pull_models ∉ recommendations (after (run_full_check env_no_models) (init env_no_models)).
Proof.
  apply (empty_model_list_gives_no_pull env_no_models (init env_no_models)
           (Gen [proc "systemd"; proc "Ollama"] None) true
           {| tags_status := 200; tags_json := Ret (Some []) |} (Some []));
    first [exact env_no_models_quiet | reflexivity].
Defined.

End HealthProps.

(** ** benchmark.py *)

Module BenchFacts.
Import Bench PyFacts Scenarios.

(** *** The timeout path *)

(** C5 -- When the inference command runs longer than the 120 seconds it
    is given, the benchmark of that case returns the failure record with
    response time 120.0, no tokens, zero throughput and the error
    "timeout". *)
Theorem timeout_result W model_name test_prompt s duration rc out :
  subprocess W (calls s) (probe_cmd model_name test_prompt) = Runs duration rc out ->
  runs_longer_than duration 120 = true ->
  (benchmark_model W model_name test_prompt s).1
  = Ret {| model := model_name; success := false; response_time := 120;
           tokens_generated := 0; tokens_per_second := 0; response_length := 0;
           error := Some "timeout" |}.
Proof.
  intros Hp Hd. unfold benchmark_model, run_command, probe_cmd in *. unmonad.
  unfold bind, try_, call, next_call, print_status, print, modify; simpl.
  rewrite Hp. unfold subprocess_run. rewrite Hd. reflexivity.
Qed.

Lemma timeout_result_witness :
  (benchmark_model world_hanging "llama3" "hello" (State 0 [])).1
  = Ret {| model := "llama3"; success := false; response_time := 120;
           tokens_generated := 0; tokens_per_second := 0; response_length := 0;
           error := Some "timeout" |}.
Proof.
  apply (timeout_result world_hanging "llama3" "hello" (State 0 []) None 0 "");
    reflexivity.
Defined.

(** *** The summary of one model *)

Lemma fdiv_count a k :
  (1 <= k <= 5)%nat -> fdiv a (Qnat k) = Ret (b64 (b64 a / b64 (Qnat k))).
Proof.
  intros Hk. unfold fdiv.
  assert (H : Qeq_bool (b64 (Qnat k)) 0 = false).
  { assert (Hc : k = 1%nat \/ k = 2%nat \/ k = 3%nat \/ k = 4%nat \/ k = 5%nat) by lia.
    destruct Hc as [->|[->|[->|[->| ->]]]]; vm_compute; reflexivity. }
  now rewrite H.
Qed.

(** A rate over five tests is exact in floating point. *)
Lemma rate_exact k :
  (1 <= k <= 5)%nat ->
  (fround (fmul (b64 (b64 (Qnat k) / b64 (Qnat 5))) 100) 1 == Qnat k / Qnat 5 * 100)%Q.
Proof.
  intros Hk.
  assert (Hc : k = 1%nat \/ k = 2%nat \/ k = 3%nat \/ k = 4%nat \/ k = 5%nat) by lia.
  destruct Hc as [->|[->|[->|[->| ->]]]]; vm_compute; reflexivity.
Qed.

Lemma summarize_spec (model_results : list BenchmarkResult) :
  length model_results = length get_test_prompts ->
  let ok := filter (fun r => success r = true) model_results in
  exists s,
    summarize model_results get_test_prompts = Ret s
    /\ total_tests s = length model_results
    /\ successful_tests s = length ok
    /\ (success_rate s == Qnat (length ok) / Qnat (length model_results) * 100)%Q
    /\ match ok with
       | [] => average_response_time s = 0%Q
               /\ average_tokens_per_second s = 0%Q
               /\ success_rate s = 0%Q
       | _ :: _ =>
           average_response_time s = fround (fmean (response_time <$> ok)) 2
           /\ average_tokens_per_second s = fround (fmean (tokens_per_second <$> ok)) 2
       end.
Proof.
  intros Hlen ok.
  assert (Hok : (length ok <= 5)%nat).
  { subst ok. etransitivity; [apply length_filter|]. now rewrite Hlen. }
  unfold summarize. fold ok. rewrite Hlen.
  destruct ok as [|r ok'] eqn:Hk.
  - eexists. split; [reflexivity|]. cbn. repeat split; reflexivity.
  - change (length get_test_prompts) with 5%nat.
    assert (Hn : (1 <= length (r :: ok') <= 5)%nat) by (cbn [length] in *; lia).
    rewrite !(fdiv_count _ _ Hn), (fdiv_count _ 5) by lia.
    eexists. split; [reflexivity|]. cbn [total_tests successful_tests success_rate
      average_response_time average_tokens_per_second].
    split; [reflexivity|]. split; [reflexivity|].
    split; [now apply rate_exact|].
    unfold fmean. rewrite !length_fmap. split; reflexivity.
Qed.

(** C4 -- For the results of one model (one per prompt): the summary is
    always computed, no division fails; without any successful result
    its two averages and its success rate are zero; otherwise the
    averages are the means over the successful results only, computed in
    floating point as the source does ([sum] over the successes divided
    by their number, rounded to two decimals), and the success rate is
    successful / total * 100. *)
Theorem summary_of_results (model_results : list BenchmarkResult) :
  length model_results = length get_test_prompts ->
  let ok := filter (fun r => success r = true) model_results in
  exists s,
    summarize model_results get_test_prompts = Ret s
    /\ total_tests s = length model_results
    /\ successful_tests s = length ok
    /\ (success_rate s == Qnat (length ok) / Qnat (length model_results) * 100)%Q
    /\ match ok with
       | [] => average_response_time s = 0%Q
               /\ average_tokens_per_second s = 0%Q
               /\ success_rate s = 0%Q
       | _ :: _ =>
           average_response_time s = fround (fmean (response_time <$> ok)) 2
           /\ average_tokens_per_second s = fround (fmean (tokens_per_second <$> ok)) 2
       end.
Proof. apply summarize_spec. Qed.

Lemma summary_of_results_witness :
  exists s,
    summarize five_results get_test_prompts = Ret s
    /\ total_tests s = 5%nat
    /\ successful_tests s = 2%nat
    /\ (success_rate s == Qnat 2 / Qnat 5 * 100)%Q
    /\ average_response_time s = fround (fmean [114 # 100; 115 # 100]) 2
    /\ average_tokens_per_second s = fround (fmean [10%Q; 20%Q]) 2.
Proof.
  apply (summary_of_results five_results). reflexivity.
Defined.

(** The means are those of floating point: 1.14 and 1.15 average to
    1.15 (the float nearest to 1.145 lies above it), where exact
    arithmetic and rounding to even would give 1.14. *)
Example summary_of_five :
  summarize five_results get_test_prompts
  = Ret {| average_response_time := 23 # 20; average_tokens_per_second := 15;
           success_rate := 40; total_tests := 5; successful_tests := 2 |}
  /\ (23 # 20 == 115 # 100)%Q
  /\ (round (((114 # 100) + (115 # 100)) / 2) 2 == 114 # 100)%Q.
Proof. repeat split; vm_compute; reflexivity. Qed.

Example summary_of_failures :
  summarize [result_of false 120 0; result_of false 3 0] get_test_prompts
  = Ret {| average_response_time := 0; average_tokens_per_second := 0;
           success_rate := 0; total_tests := 5; successful_tests := 0 |}.
Proof. reflexivity. Qed.

(** *** The ranking *)

Section SortedDesc.
Context {A : Type} (key : A -> Q).

#[local] Abbreviation desc := (desc key).
#[local] Abbreviation with_key := (with_key key).

Lemma insert_desc_perm x l : insert_desc key x l ≡ₚ x :: l.
Proof.
  induction l as [|y l IH]; simpl; [reflexivity|].
  destruct (Qltb (key x) (key y)); [|reflexivity].
  rewrite IH. apply Permutation_swap.
Qed.

Lemma sorted_desc_perm l : sorted_desc key l ≡ₚ l.
Proof.
  induction l as [|x l IH]; simpl; [reflexivity|].
  rewrite insert_desc_perm. now rewrite IH.
Qed.

Lemma insert_desc_HdRel a x l :
  desc a x -> HdRel desc a l -> HdRel desc a (insert_desc key x l).
Proof.
  intros Hax Hl. destruct l as [|y l]; simpl; [now constructor|].
  destruct (Qltb (key x) (key y)); constructor; [|exact Hax].
  now inversion Hl.
Qed.

Lemma insert_desc_sorted x l : Sorted desc l -> Sorted desc (insert_desc key x l).
Proof.
  induction 1 as [|y l Hl IH Hy]; simpl; [repeat constructor|].
  destruct (Qltb (key x) (key y)) eqn:Hxy.
  - constructor; [exact IH|]. apply insert_desc_HdRel; [|exact Hy].
    apply Qltb_lt in Hxy. now apply Qlt_le_weak.
  - constructor; [now constructor|]. constructor.
    unfold desc. unfold Qltb in Hxy. apply negb_false_iff in Hxy.
    now apply Qle_bool_iff in Hxy.
Qed.

Lemma sorted_desc_sorted l : Sorted desc (sorted_desc key l).
Proof.
  induction l as [|x l IH]; simpl; [constructor|]. now apply insert_desc_sorted.
Qed.

Lemma with_key_insert_desc q x l :
  with_key q (insert_desc key x l) = with_key q (x :: l).
Proof.
  unfold with_key. induction l as [|y l IH]; simpl; [reflexivity|].
  destruct (Qltb (key x) (key y)) eqn:Hxy; [|reflexivity].
  rewrite (filter_cons _ y), IH, !(filter_cons _ x), !(filter_cons _ y).
  destruct (decide (Qeq_bool (key y) q = true)) as [Hy|Hy];
    destruct (decide (Qeq_bool (key x) q = true)) as [Hx|Hx]; try reflexivity.
  apply Qltb_lt in Hxy. apply Qeq_bool_iff in Hx, Hy.
  rewrite Hx, Hy in Hxy. now apply Qlt_irrefl in Hxy.
Qed.

(** Stability: elements with equal keys keep their order. *)
Lemma sorted_desc_stable q l : with_key q (sorted_desc key l) = with_key q l.
Proof.
  induction l as [|x l IH]; simpl; [reflexivity|].
  rewrite with_key_insert_desc. unfold with_key in *.
  now rewrite !(filter_cons _ x), IH.
Qed.
End SortedDesc.

Lemma rows_snoc l e :
  rows (l ++ [e]) = rows l ++ match e with Row m _ _ _ => [m] | _ => [] end.
Proof. unfold rows. rewrite omap_app. now destruct e. Qed.

Lemma print_rows (l : list (string * Report)) s :
  exists s',
    for_ l (fun '(model, data) =>
          print (Row model (average_response_time (summary data))
                           (average_tokens_per_second (summary data))
                           (success_rate (summary data)))) s = (Ret tt, s')
    /\ rows (stdout s') = rows (stdout s) ++ l.*1.
Proof.
  revert s. induction l as [|[m d] l IH]; intros s; simpl.
  - eexists. split; [reflexivity|]. now rewrite app_nil_r.
  - unfold bind; simpl.
    match goal with |- context [for_ l _ ?s0] => destruct (IH s0) as (s' & -> & Hr) end.
    eexists. split; [reflexivity|]. rewrite Hr. simpl.
    rewrite rows_snoc. now rewrite <- app_assoc.
Qed.

(** C8 -- The models are displayed in the order of a stable sort by
    decreasing average tokens per second: the rows printed are a
    permutation of the results, in non-increasing order of the key, and
    results of equal key keep their insertion order; for A = 12.0,
    B = 12.0, C = 30.0 the order is C, A, B. *)
Theorem ranking_is_stable_descending (results : list (string * Report)) (s : state) :
  rows (stdout (print_results_summary results s).2) = rows (stdout s) ++ ranking results
  /\ sorted_models results ≡ₚ results
  /\ Sorted (desc sort_key) (sorted_models results)
  /\ (forall q, with_key sort_key q (sorted_models results) = with_key sort_key q results)
  /\ ranking results_ABC = ["C"; "A"; "B"].
Proof.
  split; [|split; [apply sorted_desc_perm | split; [apply sorted_desc_sorted | split]]].
  - unfold print_results_summary, ranking. unmonad.
    destruct results as [|r results]; [simpl; now rewrite app_nil_r|].
    unfold bind; simpl.
    match goal with
    | |- context [for_ ?l _ ?s0] => destruct (print_rows l s0) as (s' & -> & Hr)
    end.
    simpl. rewrite rows_snoc, Hr. simpl. now rewrite !rows_snoc, !app_nil_r.
  - intros q. apply sorted_desc_stable.
  - reflexivity.
Qed.

(** *** Every case yields a result *)

Lemma fdiv_positive a b : Qltb 0 (b64 b) = true -> fdiv a b = Ret (b64 (b64 a / b64 b)).
Proof.
  intros Hb. unfold fdiv. destruct (Qeq_bool (b64 b) 0) eqn:H; [|reflexivity].
  apply Qeq_bool_iff in H. apply Qltb_lt in Hb. rewrite H in Hb.
  now apply Qlt_irrefl in Hb.
Qed.

Lemma bind_print {B} e (k : unit -> M state B) s : bind (print e) k s = k tt (print e s).2.
Proof. reflexivity. Qed.

Lemma bind_eq {S A B} (m : M S A) (k : A -> M S B) s a s1 :
  m s = (Ret a, s1) -> bind m k s = k a s1.
Proof. intros H. unfold bind. now rewrite H. Qed.

(** What a probe returns depends on the number of its command only, not
    on what was printed before. *)
Lemma benchmark_model_probe W model_name test_prompt s :
  exists s',
    benchmark_model W model_name test_prompt s
    = (probe W (calls s) model_name test_prompt, s')
    /\ calls s' = S (calls s).
Proof.
  unfold probe, benchmark_model, run_command. unmonad.
  unfold bind, try_, call, next_call, print_status, print_error, print, modify; simpl.
  destruct (subprocess_run (subprocess W (calls s) _) 120 true) as [r|e]; simpl.
  - destruct (Qltb 0 (b64 (elapsed W (calls s)))); simpl.
    + destruct (fdiv _ _) as [x|e]; simpl; [eexists; split; reflexivity|].
      destruct (is_TimeoutExpired e); simpl; [eexists; split; reflexivity|].
      destruct (is_Exception e); simpl; eexists; split; reflexivity.
    + eexists; split; reflexivity.
  - destruct (is_TimeoutExpired e) eqn:H1; simpl.
    + rewrite H1. simpl. eexists; split; reflexivity.
    + destruct (is_CalledProcessError e); simpl; rewrite H1; simpl;
        destruct (is_Exception e); simpl; eexists; split; reflexivity.
Qed.

(** One probe: whatever the command does, short of an interrupt, the
    probe returns a record; it is a success exactly when the command
    completed in time with return code 0, and a failure carries its
    error. *)
Lemma probe_spec W n model_name test_prompt :
  world_quiet W ->
  exists r,
    probe W n model_name test_prompt = Ret r
    /\ model r = model_name
    /\ (success r = true <-> completes W n (probe_cmd model_name test_prompt) 120)
    /\ (success r = true -> error r = None)
    /\ (success r = false -> is_Some (error r)).
Proof.
  intros HW. unfold probe, benchmark_model, run_command, probe_cmd, completes, returns.
  unmonad.
  unfold bind, try_, call, next_call, print_status, print_error, print, modify; simpl.
  destruct (subprocess W n _) as [e|d rc out] eqn:Hp; simpl.
  - pose proof (HW _ _ _ Hp) as He.
    destruct (is_TimeoutExpired e) eqn:H1; simpl.
    + rewrite H1. simpl. eexists. split; [reflexivity|]. split; [reflexivity|].
      split; [split; [discriminate | intros [a Ha]; discriminate]|].
      split; [discriminate | intros _; eexists; reflexivity].
    + destruct (is_CalledProcessError e) eqn:H2; simpl; rewrite H1, He; simpl;
        (eexists; split; [reflexivity|]; split; [reflexivity|];
         split; [split; [discriminate | intros [a Ha]; discriminate]|];
         split; [discriminate | intros _; eexists; reflexivity]).
  - destruct (runs_longer_than d 120); simpl.
    + eexists. split; [reflexivity|]. split; [reflexivity|].
      split; [split; [discriminate | intros [a Ha]; discriminate]|].
      split; [discriminate | intros _; eexists; reflexivity].
    + destruct (rc =? 0)%Z; simpl.
      * destruct (Qltb 0 (b64 (elapsed W n))) eqn:Ht; simpl.
        -- rewrite (fdiv_positive _ _ Ht). simpl.
           eexists. split; [reflexivity|]. split; [reflexivity|].
           split; [split; eauto|]. split; [reflexivity | discriminate].
        -- eexists. split; [reflexivity|]. split; [reflexivity|].
           split; [split; eauto|]. split; [reflexivity | discriminate].
      * eexists. split; [reflexivity|]. split; [reflexivity|].
        split; [split; [discriminate | intros [a Ha]; discriminate]|].
        split; [discriminate | intros _; eexists; reflexivity].
Qed.

Lemma benchmark_model_returns W model_name test_prompt s :
  world_quiet W ->
  exists r s',
    benchmark_model W model_name test_prompt s = (Ret r, s')
    /\ calls s' = S (calls s)
    /\ probe W (calls s) model_name test_prompt = Ret r.
Proof.
  intros HW.
  destruct (benchmark_model_probe W model_name test_prompt s) as (s' & Hb & Hc).
  destruct (probe_spec W (calls s) model_name test_prompt HW) as (r & Hr & _).
  exists r, s'. rewrite Hb, Hr. repeat split; assumption.
Qed.

Lemma length_probes W n model_name prompts :
  length (probes W n model_name prompts) = length prompts.
Proof.
  revert n. induction prompts as [|p prompts IH]; intros n; [reflexivity|].
  cbn [probes length]. now rewrite IH.
Qed.

(** The inner loop: one probe per prompt, one command each, in order. *)
Lemma run_tests_spec W model_name prompts :
  world_quiet W ->
  forall acc s, exists rs s',
    run_tests W model_name prompts acc s = (Ret (acc ++ rs), s')
    /\ calls s' = (calls s + length prompts)%nat
    /\ Ret <$> rs = probes W (calls s) model_name prompts.
Proof.
  intros HW. induction prompts as [|p prompts IH]; intros acc s; cbn [run_tests].
  - exists [], s. rewrite app_nil_r. repeat split. cbn. lia.
  - unmonad. unfold bind at 1 2 3. simpl.
    match goal with
    | |- context [benchmark_model W model_name p ?s0] =>
        destruct (benchmark_model_returns W model_name p s0 HW)
          as (r & s1 & -> & Hc & Hr)
    end.
    unfold bind at 1.
    assert (Hp : exists s2,
               (if success r then print_success model_name
                else print_error ("Failed: " +:+ default "None" (error r))) s1
               = (Ret tt, s2) /\ calls s2 = calls s1).
    { destruct (success r); eexists; split; reflexivity. }
    destruct Hp as (s2 & -> & Hc2). simpl.
    destruct (IH (acc ++ [r]) s2) as (rs & s' & -> & Hc' & Hrs).
    exists (r :: rs), s'. rewrite <- app_assoc. split; [reflexivity|]. split.
    + rewrite Hc', Hc2, Hc. simpl. lia.
    + cbn [probes]. rewrite fmap_cons. rewrite Hc2, Hc in Hrs. simpl in Hr, Hrs.
      now rewrite Hr, Hrs.
Qed.

Lemma dict_get_set_eq {V} k (v : V) d : dict_get k (dict_set k v d) = Some v.
Proof.
  induction d as [|[k' v'] d IH]; simpl.
  - now rewrite String.eqb_refl.
  - destruct (String.eqb k k') eqn:H; simpl; rewrite ?String.eqb_refl, ?H; auto.
Qed.

Lemma dict_get_set_ne {V} k k' (v : V) d :
  k <> k' -> dict_get k (dict_set k' v d) = dict_get k d.
Proof.
  intros Hk. apply String.eqb_neq in Hk.
  induction d as [|[k0 v0] d IH]; simpl.
  - now rewrite Hk.
  - destruct (String.eqb k' k0) eqn:H; simpl.
    + apply String.eqb_eq in H. subst k0. now rewrite Hk.
    + destruct (String.eqb k k0); auto.
Qed.

Lemma keys_dict_set {V} k (v : V) d :
  keys (dict_set k v d) = if bool_decide (k ∈ keys d) then keys d else keys d ++ [k].
Proof.
  unfold keys. induction d as [|[k' v'] d IH]; [reflexivity|].
  cbn [dict_set]. destruct (String.eqb k k') eqn:Hk.
  - apply String.eqb_eq in Hk. subst k'. cbn [fmap list_fmap fst].
    rewrite bool_decide_eq_true_2 by apply list_elem_of_here. reflexivity.
  - apply String.eqb_neq in Hk.
    change (((k', v') :: dict_set k v d).*1) with (k' :: (dict_set k v d).*1).
    change (((k', v') :: d).*1) with (k' :: d.*1).
    rewrite IH. destruct (bool_decide (k ∈ d.*1)) eqn:Hd.
    + apply bool_decide_eq_true in Hd.
      rewrite bool_decide_eq_true_2 by now apply list_elem_of_further. reflexivity.
    + apply bool_decide_eq_false in Hd.
      rewrite bool_decide_eq_false_2; [reflexivity|].
      intros [?|?]%elem_of_cons; contradiction.
Qed.

Lemma first_occurrences_ext seen seen' l :
  (forall x, x ∈ seen <-> x ∈ seen') ->
  first_occurrences seen l = first_occurrences seen' l.
Proof.
  revert seen seen'. induction l as [|x l IH]; intros seen seen' H; [reflexivity|].
  cbn [first_occurrences]. rewrite (bool_decide_ext _ _ (H x)).
  destruct (bool_decide (x ∈ seen')); [now apply IH|].
  f_equal. apply IH. intros y. rewrite !elem_of_cons, H. reflexivity.
Qed.

Lemma first_occurrences_spec seen l :
  NoDup (first_occurrences seen l)
  /\ forall x, x ∈ first_occurrences seen l <-> x ∈ l /\ x ∉ seen.
Proof.
  revert seen. induction l as [|y l IH]; intros seen; cbn [first_occurrences].
  - split; [constructor|]. intros x. rewrite elem_of_nil. tauto.
  - destruct (bool_decide (y ∈ seen)) eqn:Hy.
    + apply bool_decide_eq_true in Hy. destruct (IH seen) as [Hn Hm].
      split; [exact Hn|]. intros x. rewrite Hm, elem_of_cons.
      split; [tauto|]. intros [[->|Hx] Hs]; [contradiction | tauto].
    + apply bool_decide_eq_false in Hy. destruct (IH (y :: seen)) as [Hn Hm].
      split.
      * constructor; [|exact Hn]. rewrite Hm, elem_of_cons. tauto.
      * intros x. rewrite !elem_of_cons, Hm, elem_of_cons.
        destruct (decide (x = y)) as [->|Hne]; tauto.
Qed.

Lemma first_occurrences_NoDup seen l :
  NoDup l -> (forall x, x ∈ l -> x ∉ seen) -> first_occurrences seen l = l.
Proof.
  intros Hn. revert seen. induction Hn as [|y l Hy Hn IH]; intros seen Hs; [reflexivity|].
  cbn [first_occurrences].
  rewrite bool_decide_eq_false_2 by (apply Hs; apply list_elem_of_here).
  f_equal. apply IH. intros x Hx. rewrite elem_of_cons.
  intros [->|Hx']; [contradiction|]. apply (Hs x); [now apply list_elem_of_further | exact Hx'].
Qed.

(** One round of the loop over the models: five probes, then the
    report is stored under the model's name. *)
Lemma run_models_step W m models results s :
  world_quiet W ->
  exists rep s1,
    run_models W (m :: models) results s = run_models W models (dict_set m rep results) s1
    /\ calls s1 = (calls s + 5)%nat
    /\ Ret <$> individual_tests rep = probes W (calls s) m get_test_prompts
    /\ summarize (individual_tests rep) get_test_prompts = Ret (summary rep).
Proof.
  intros HW. cbn [run_models]. unmonad. unfold bind at 1. rewrite !bind_print.
  match goal with
  | |- context [bind (run_tests W m get_test_prompts []) _ ?s0] =>
      destruct (run_tests_spec W m get_test_prompts HW [] s0)
        as (rs & s1 & Hrt & Hc & Hrs)
  end.
  assert (Hl : length rs = length get_test_prompts).
  { rewrite <- (length_fmap Ret rs), Hrs. apply length_probes. }
  destruct (summarize_spec rs Hl) as (sm & Hsm & _).
  exists {| individual_tests := rs; summary := sm |}, s1.
  rewrite (bind_eq _ _ _ _ _ Hrt). cbn [app].
  rewrite (bind_eq (call (summarize rs get_test_prompts)) _ s1 sm s1)
    by (unfold call; now rewrite Hsm).
  split; [reflexivity|]. split; [exact Hc|]. split; [exact Hrs | exact Hsm].
Qed.

(** The outer loop: five commands per model, in order; the results hold
    one entry per distinct model, and for each model the report of the
    last round run for it. *)
Lemma run_models_spec W models :
  world_quiet W ->
  forall results s, exists results' s',
    run_models W models results s = (Ret results', s')
    /\ calls s' = (calls s + 5 * length models)%nat
    /\ keys results' = keys results ++ first_occurrences (keys results) models
    /\ (forall j k, last_place models j k -> round_report W (calls s + 5 * j) k results')
    /\ (forall k, k ∉ models -> dict_get k results' = dict_get k results).
Proof.
  intros HW. induction models as [|m models IH]; intros results s.
  - exists results, s. split; [reflexivity|]. split; [cbn; lia|].
    split; [cbn; now rewrite app_nil_r|]. split; [|reflexivity].
    intros j k [Hj _]. now rewrite lookup_nil in Hj.
  - destruct (run_models_step W m models results s HW) as (rep & s1 & -> & Hc & Hrs & Hsm).
    destruct (IH (dict_set m rep results) s1)
      as (results' & s' & -> & Hc' & Hk & Hlast & Hkeep).
    exists results', s'. split; [reflexivity|]. split; [|split; [|split]].
    + rewrite Hc', Hc. cbn [length]. lia.
    + rewrite Hk, keys_dict_set. cbn [first_occurrences].
      destruct (bool_decide (m ∈ keys results)); [reflexivity|].
      rewrite <- app_assoc. cbn [app]. do 2 f_equal.
      apply first_occurrences_ext. intros x. rewrite elem_of_app, !elem_of_cons, elem_of_nil.
      tauto.
    + intros j k [Hj Hlater]. destruct j as [|j].
      * cbn in Hj. injection Hj as <-.
        assert (Hnot : m ∉ models).
        { intros Hin. apply list_elem_of_lookup_1 in Hin as [j' Hj'].
          apply (Hlater (S j')); [lia | exact Hj']. }
        exists rep. rewrite (Hkeep m Hnot), dict_get_set_eq.
        replace (calls s + 5 * 0)%nat with (calls s) by lia. now split.
      * replace (calls s + 5 * S j)%nat with (calls s1 + 5 * j)%nat by lia.
        apply Hlast. split; [exact Hj|].
        intros j' Hlt. apply (Hlater (S j')). lia.
    + intros k Hk'. apply not_elem_of_cons in Hk' as [Hne Hk'].
      rewrite (Hkeep k Hk'). now apply dict_get_set_ne.
Qed.

(** [get_system_info] never raises and spawns one command, or two. *)
Lemma get_system_info_spec W s :
  exists s',
    get_system_info W s = (Ret tt, s')
    /\ calls s' = (calls s + system_info_calls W (calls s))%nat
    /\ rows (stdout s') = rows (stdout s).
Proof.
  unfold get_system_info, system_info_calls, run_command. unmonad.
  unfold bind, try_, call, next_call, print_error, print, modify, rows; simpl.
  destruct (String.eqb (sys_platform W) "darwin").
  - destruct (subprocess_run (subprocess W (calls s) _) 30 true) as [r|e]; simpl.
    + destruct (int _ _) as [z|e]; simpl.
      * destruct (subprocess_run (subprocess W (S (calls s)) _) 30 true) as [r2|e2]; simpl.
        -- destruct (int _ _) as [z2|e2]; simpl;
             (eexists; split; [reflexivity|]; split; [simpl; lia | reflexivity]).
        -- destruct (is_TimeoutExpired e2); simpl;
             [|destruct (is_CalledProcessError e2); simpl];
             (eexists; split; [reflexivity|]; split; [simpl; lia|]);
             simpl; rewrite ?omap_app, ?app_nil_r; reflexivity.
      * eexists; split; [reflexivity|]; split; [simpl; lia | reflexivity].
    + destruct (is_TimeoutExpired e); simpl;
        [|destruct (is_CalledProcessError e); simpl];
        (eexists; split; [reflexivity|]; split; [simpl; lia|]);
        simpl; rewrite ?omap_app, ?app_nil_r; reflexivity.
  - destruct (subprocess_run (subprocess W (calls s) _) 30 true) as [r|e]; simpl.
    + destruct (int _ _) as [z|e]; simpl.
      * destruct (meminfo W); simpl;
          (eexists; split; [reflexivity|]; split; [simpl; lia | reflexivity]).
      * eexists; split; [reflexivity|]; split; [simpl; lia | reflexivity].
    + destruct (is_TimeoutExpired e); simpl;
        [|destruct (is_CalledProcessError e); simpl];
        (eexists; split; [reflexivity|]; split; [simpl; lia|]);
        simpl; rewrite ?omap_app, ?app_nil_r; reflexivity.
Qed.

(** The whole benchmark, when the report, if one is asked for, can be
    written. *)
Lemma run_comprehensive_benchmark_spec W models output_file s :
  world_quiet W -> report_writable W output_file ->
  exists results s',
    run_comprehensive_benchmark W models output_file s = (Ret results, s')
    /\ calls s'
       = (calls s + 5 * length models
          + report_calls W models output_file (calls s + 5 * length models))%nat
    /\ keys results = first_occurrences [] models
    /\ (forall j k, last_place models j k -> round_report W (calls s + 5 * j) k results).
Proof.
  intros HW Hw. unfold run_comprehensive_benchmark, report_calls.
  destruct models as [|m models].
  - eexists _, _. split; [reflexivity|]. cbn. split; [lia|]. split; [reflexivity|].
    intros j k [Hj _]. now rewrite lookup_nil in Hj.
  - unmonad. unfold print_status. rewrite !bind_print.
    match goal with
    | |- context [bind (run_models W ?ms ?r0) _ ?s0] =>
        destruct (run_models_spec W ms HW r0 s0)
          as (results & s' & Hrm & Hc & Hk & Hlast & _)
    end.
    rewrite (bind_eq _ _ _ _ _ Hrm). cbn [snd print modify calls] in Hc, Hlast.
    exists results.
    destruct output_file as [[|c f]|].
    + exists s'. split; [reflexivity|]. split; [lia|]. split; [exact Hk | exact Hlast].
    + destruct Hw as [[[] Ho] [[] Hd]]. rewrite Ho.
      rewrite (bind_eq (call (Ret tt)) _ s' tt s') by reflexivity.
      destruct (get_system_info_spec W s') as (s2 & Hg & Hc2 & _).
      rewrite (bind_eq _ _ _ _ _ Hg).
      rewrite (bind_eq (call (dump_report W)) _ s2 tt s2) by (unfold call; now rewrite Hd).
      unfold print_success. rewrite bind_print.
      eexists. split; [reflexivity|]. split; [|split; [exact Hk | exact Hlast]].
      cbn [snd print modify calls]. rewrite Hc2, Hc. reflexivity.
    + exists s'. split; [reflexivity|]. split; [lia|]. split; [exact Hk | exact Hlast].
Qed.

Lemma world_hanging_quiet : Bench.world_quiet Scenarios.world_hanging.
Proof. intros n cmd e H. discriminate. Qed.

End BenchFacts.

(** ** Batch isolation *)

Module BatchIsolation.
Import PyFacts HealthFacts.

(** The last category records its first measurement. *)
Lemma cpu_usage_recorded E s c :
  Health.HAS_PSUTIL E = true ->
  Health.cpu_percent E = Ret c ->
  Health.checks (Health.after (Health.check_performance_metrics E) s) !! "cpu_usage"
  = Some (Health.cpu_usage_status c).
Proof.
  intros HP Hc.
  unfold Health.after, Health.check_performance_metrics, Health.performance_metrics_body.
  unmonad.
  rewrite (HealthFacts.bind_stage _ _ _ _ (HealthFacts.stage_print_header _)).
  rewrite (HealthProps.try_call_Ret _ _ _ _ c) by (now rewrite HealthProps.psutil_present).
  rewrite HealthProps.try_print_status, HealthProps.try_set_check.
  match goal with
  | |- Health.checks (try_ ?m ?hs ?s1).2 !! _ = _ =>
      assert (Hk : forall k, k <> "ai_processes" -> k <> "performance" ->
                     k <> "memory_usage" -> k <> "disk_usage" ->
                     keeps (Health.same_key k) (try_ m hs))
        by (intros k H1 H2 H3 H4; HealthFacts.keeps_auto);
      rewrite (Hk "cpu_usage") by discriminate
  end.
  rewrite HealthProps.checks_set_check. apply lookup_insert_eq.
Qed.

Lemma run_checks E hs :
  Health.no_interrupt E ->
  Health.checks (Health.after (Health.run_full_check E) hs)
  = Health.checks (Health.before_recommendations E hs).
Proof.
  intros HE. unfold Health.after at 1. rewrite (HealthFacts.run_full_check_eq E hs HE).
  fold (Health.after Health.print_summary (Health.before_summary E hs)).
  rewrite HealthFacts.print_summary_checks. unfold Health.before_summary.
  apply HealthFacts.generate_recommendations_checks.
Qed.

(** The entry of the daemon's process search at the end of a run. *)
Lemma ollama_process_at_end E hs :
  Health.no_interrupt E ->
  Health.checks (Health.after (Health.run_full_check E) hs) !! "ollama_process"
  = match Health.ollama_process_found E with
    | Ret false => Some Health.WARNING
    | _ => Health.checks hs !! "ollama_process"
    end.
Proof.
  intros HE. rewrite (run_checks E hs HE). unfold Health.before_recommendations.
  assert (K : forall k,
                k <> "ai_processes" -> k <> "continue_config" -> k <> "continue_extension" ->
                k <> "cpu_usage" -> k <> "disk_usage" -> k <> "internet" ->
                k <> "llama_cpp" -> k <> "llama_cpp_api" -> k <> "llama_cpp_models" ->
                k <> "llama_cpp_server" -> k <> "memory_usage" -> k <> "network" ->
                k <> "performance" -> k <> "system_info" -> k <> "vscode" ->
                k <> "vscode_integration" ->
                keeps (Health.same_key k) (Health.check_performance_metrics E)
                /\ keeps (Health.same_key k) (Health.check_network_connectivity E)
                /\ keeps (Health.same_key k) (Health.check_vscode_integration E)
                /\ keeps (Health.same_key k) (Health.check_llama_cpp E)
                /\ keeps (Health.same_key k) (Health.check_system_info E)
                /\ keeps (Health.same_key k) Health.banner).
  { intros k. intros.
    split; [unfold Health.check_performance_metrics, Health.performance_metrics_body;
            HealthFacts.keeps_auto|].
    split; [unfold Health.check_network_connectivity, Health.network_connectivity_body;
            HealthFacts.keeps_auto|].
    split; [unfold Health.check_vscode_integration, Health.vscode_integration_body;
            HealthFacts.keeps_auto|].
    split; [unfold Health.check_llama_cpp, Health.llama_cpp_body;
            HealthFacts.keeps_auto|].
    split; [unfold Health.check_system_info, Health.system_info_body,
              Health.system_info_fallback_body; HealthFacts.keeps_auto|].
    unfold Health.banner; HealthFacts.keeps_auto. }
  destruct (K "ollama_process") as (K6 & K5 & K4 & K3 & K1 & K0); try discriminate.
  unfold Health.after at 1. rewrite K6. unfold Health.after at 1. rewrite K5.
  unfold Health.after at 1. rewrite K4. unfold Health.after at 1. rewrite K3.
  rewrite HealthProps.ollama_process_entry.
  unfold Health.after.
  destruct (Health.ollama_process_found E) as [[|]|e]; [| reflexivity |];
    now rewrite K1, K0.
Qed.

Lemma probes_lookup W n k prompts i p :
  prompts !! i = Some p ->
  Bench.probes W n k prompts !! i = Some (Bench.probe W (n + i) k p).
Proof.
  revert n i. induction prompts as [|q prompts IH]; intros n i H; [discriminate|].
  destruct i as [|i]; cbn [Bench.probes].
  - injection H as ->. now rewrite Nat.add_0_r.
  - rewrite lookup_cons_ne_0 by lia. cbn [Nat.pred]. rewrite (IH (S n) i H).
    now rewrite Nat.add_succ_comm.
Qed.

(** Every model named has a last place in the list. *)
Lemma last_place_exists (models : list string) k :
  k ∈ models -> exists j, Bench.last_place models j k.
Proof.
  induction models as [|m models IH]; intros Hk; [now apply elem_of_nil in Hk|].
  destruct (decide (k ∈ models)) as [Hin|Hnot].
  - destruct (IH Hin) as (j & Hj & Hlater). exists (S j). split; [exact Hj|].
    intros [|j'] Hlt; [lia|]. apply (Hlater j'). lia.
  - apply elem_of_cons in Hk as [->|Hk]; [|contradiction].
    exists 0%nat. split; [reflexivity|].
    intros [|j'] Hlt; [lia|]. cbn. intros Hj'. apply Hnot.
    now apply list_elem_of_lookup_2 in Hj'.
Qed.

(** A round whose report is recorded holds a classified result for every
    probe. *)
Lemma round_report_recorded W n k results :
  Bench.world_quiet W ->
  Bench.round_report W n k results -> Bench.round_recorded W n k results.
Proof.
  intros HW (rep & Hg & Hrs & _). exists rep. split; [exact Hg|]. split.
  { rewrite <- (length_fmap Ret), Hrs. apply BenchFacts.length_probes. }
  intros i p Hp.
  pose proof (probes_lookup W n k _ i p Hp) as Hl. rewrite <- Hrs in Hl.
  rewrite list_lookup_fmap in Hl.
  destruct (Bench.individual_tests rep !! i) as [r|]; [|discriminate].
  injection Hl as Hl. exists r. split; [reflexivity|].
  destruct (BenchFacts.probe_spec W (n + i) k p HW) as (r' & Hr' & _ & Hs & _ & Hf).
  assert (r' = r) as -> by congruence.
  split; [exact Hr'|]. split; [exact Hs | exact Hf].
Qed.

(** C1 -- As long as no probe is interrupted (whatever a probe raises is
    an [Exception]) and the report, if one is asked for, can be written:

    a full health run ends normally and has gone through every category,
    in order: its final state is that of the six categories run one
    after the other, each on the state the one before left, followed by
    the recommendations and the summary; each category ends normally
    from every state; a category whose guarded block fails records ERROR
    under its own key; and the categories behind a failure do run: the
    second category's process search and the last category's first
    measurement are recorded at the end of the run, whatever failed
    before them.

    A comprehensive benchmark ends normally; it has spawned five
    commands per model named, one after the other (and those of the
    system information, if a report is saved); the result recorded for a
    probe is a success exactly when its command completed in time with
    return code 0, and a failure with its error otherwise; and the
    results hold, for every model, the five results of the last round
    run for it. *)
Theorem batch_isolation (E : Health.env) (hs : Health.checker)
    (W : Bench.world) (models : list string) (output_file : option string)
    (bs : Bench.state) :
  Health.no_interrupt E ->
  Bench.world_quiet W ->
  Bench.report_writable W output_file ->
  ((Health.run_full_check E hs).1 = Ret tt
   /\ Health.headers (Health.stdout (Health.after (Health.run_full_check E) hs))
      = Health.headers (Health.stdout hs)
        ++ ["System Information"; "Ollama Service Check"; "llama.cpp Check";
            "VS Code Integration Check"; "Network Connectivity";
            "Performance Metrics"; "Recommendations"; "Summary"]
   /\ Health.after (Health.run_full_check E) hs
      = Health.after Health.print_summary
          (Health.after (Health.generate_recommendations E)
             (Health.after (Health.check_performance_metrics E)
                (Health.after (Health.check_network_connectivity E)
                   (Health.after (Health.check_vscode_integration E)
                      (Health.after (Health.check_llama_cpp E)
                         (Health.after (Health.check_ollama_service E)
                            (Health.after (Health.check_system_info E)
                               (Health.after Health.banner hs))))))))
   /\ (forall s,
         (Health.check_system_info E s).1 = Ret tt
         /\ (Health.check_ollama_service E s).1 = Ret tt
         /\ (Health.check_llama_cpp E s).1 = Ret tt
         /\ (Health.check_vscode_integration E s).1 = Ret tt
         /\ (Health.check_network_connectivity E s).1 = Ret tt
         /\ (Health.check_performance_metrics E s).1 = Ret tt)
   /\ Health.checks (Health.after (Health.run_full_check E) hs) !! "ollama_process"
      = match Health.ollama_process_found E with
        | Ret false => Some Health.WARNING
        | _ => Health.checks hs !! "ollama_process"
        end
   /\ (forall c, Health.HAS_PSUTIL E = true -> Health.cpu_percent E = Ret c ->
         Health.checks (Health.after (Health.run_full_check E) hs) !! "cpu_usage"
         = Some (Health.cpu_usage_status c)))
  /\ (if Health.HAS_PSUTIL E then
        Health.failure_recorded (Health.print_header "System Information")
          (Health.system_info_body E) (Health.check_system_info E) "system_info"
      else
        Health.failure_recorded
          (bind (Health.print_header "System Information")
                (fun _ => Health.print_status "Dependencies" Health.WARNING))
          (Health.system_info_fallback_body E) (Health.check_system_info E)
          "system_info")
  /\ (Health.failure_recorded (Health.print_header "Ollama Service Check")
        (Health.ollama_service_body E) (Health.check_ollama_service E) "ollama_service"
      /\ Health.failure_recorded (Health.print_header "llama.cpp Check")
           (Health.llama_cpp_body E) (Health.check_llama_cpp E) "llama_cpp"
      /\ Health.failure_recorded (Health.print_header "VS Code Integration Check")
           (Health.vscode_integration_body E) (Health.check_vscode_integration E)
           "vscode_integration"
      /\ Health.failure_recorded (Health.print_header "Network Connectivity")
           (Health.network_connectivity_body E) (Health.check_network_connectivity E)
           "network"
      /\ Health.failure_recorded (Health.print_header "Performance Metrics")
           (Health.performance_metrics_body E) (Health.check_performance_metrics E)
           "performance")
  /\ exists results bs',
      Bench.run_comprehensive_benchmark W models output_file bs = (Ret results, bs')
      /\ Bench.calls bs'
         = (Bench.calls bs + 5 * length models
            + Bench.report_calls W models output_file
                (Bench.calls bs + 5 * length models))%nat
      /\ (forall j k i p,
            models !! j = Some k -> Bench.get_test_prompts !! i = Some p ->
            exists r, Bench.classified_probe W (Bench.calls bs + 5 * j + i) k p r)
      /\ (forall j k, Bench.last_place models j k ->
            Bench.round_recorded W (Bench.calls bs + 5 * j) k results)
      /\ (forall k, k ∈ models ->
            exists j, Bench.last_place models j k
                      /\ Bench.round_recorded W (Bench.calls bs + 5 * j) k results).
Proof.
  intros HE HW Hw. split; [|split; [|split]].
  - split; [apply (HealthFacts.stage_run_full_check E HE hs)|].
    split; [apply (HealthFacts.stage_run_full_check E HE hs)|].
    split.
    { unfold Health.after at 1. now rewrite (HealthFacts.run_full_check_eq E hs HE). }
    split.
    { intros s.
      split; [apply (HealthFacts.stage_check_system_info E HE s)|].
      split; [apply (HealthFacts.stage_check_ollama_service E HE s)|].
      split; [apply (HealthFacts.stage_check_llama_cpp E HE s)|].
      split; [apply (HealthFacts.stage_check_vscode_integration E HE s)|].
      split; [apply (HealthFacts.stage_check_network_connectivity E HE s)|].
      apply (HealthFacts.stage_check_performance_metrics E HE s). }
    split; [now apply ollama_process_at_end|].
    intros c HP Hc. rewrite (run_checks E hs HE). unfold Health.before_recommendations.
    now apply cpu_usage_recorded.
  - apply (HealthFacts.system_info_records_failure E).
  - apply (HealthFacts.categories_record_failures E).
  - destruct (BenchFacts.run_comprehensive_benchmark_spec W models output_file bs HW Hw)
      as (results & bs' & Hr & Hc & _ & Hlast).
    exists results, bs'. split; [exact Hr|]. split; [exact Hc|]. split.
    + intros j k i p _ _.
      destruct (BenchFacts.probe_spec W (Bench.calls bs + 5 * j + i) k p HW)
        as (r & Hr' & _ & Hs & _ & Hf).
      exists r. split; [exact Hr'|]. split; [exact Hs | exact Hf].
    + assert (Hrec : forall j k, Bench.last_place models j k ->
                Bench.round_recorded W (Bench.calls bs + 5 * j) k results).
      { intros j k Hjk. apply round_report_recorded; [exact HW|]. now apply Hlast. }
      split; [exact Hrec|]. intros k Hk.
      destruct (last_place_exists models k Hk) as [j Hj].
      exists j. split; [exact Hj | now apply Hrec].
Qed.

Lemma batch_isolation_witness :
  (Health.run_full_check Scenarios.env_no_models (Health.init Scenarios.env_no_models)).1
  = Ret tt
  /\ Health.checks (Health.after (Health.run_full_check Scenarios.env_no_models)
                      (Health.init Scenarios.env_no_models)) !! "cpu_usage"
     = Some Health.OK
  /\ exists results bs',
      Bench.run_comprehensive_benchmark Scenarios.world_hanging ["llama3"; "phi3"]
        (Some "out") (Bench.State 0 []) = (Ret results, bs')
      /\ Bench.calls bs' = 11%nat
      /\ Bench.round_recorded Scenarios.world_hanging 0 "llama3" results
      /\ Bench.round_recorded Scenarios.world_hanging 5 "phi3" results.
Proof.
  destruct (batch_isolation Scenarios.env_no_models (Health.init Scenarios.env_no_models)
              Scenarios.world_hanging ["llama3"; "phi3"] (Some "out") (Bench.State 0 []))
    as ((Hrun & _ & _ & _ & _ & Hcpu) & _ & _ & results & bs' & Hr & Hc & _ & Hlast & _).
  - exact HealthProps.env_no_models_quiet.
  - exact BenchFacts.world_hanging_quiet.
  - split; now exists tt.
  - split; [exact Hrun|]. split; [exact (Hcpu 10%Q eq_refl eq_refl)|].
    exists results, bs'. split; [exact Hr|]. split; [exact Hc|]. split.
    + apply (Hlast 0%nat "llama3"). split; [reflexivity|].
      intros [|[|j']] Hlt; [lia | discriminate | discriminate].
    + apply (Hlast 1%nat "phi3"). split; [reflexivity|].
      intros [|[|j']] Hlt; [lia | lia | discriminate].
Defined.

End BatchIsolation.

(** ** More of health_check.py *)

Module HealthMore.
Import Health PyFacts HealthFacts HealthProps Scenarios.

#[export] Instance keeps_no_info_preorder : PreOrder keeps_no_info.
Proof. split; [now intros s | intros s1 s2 s3 H1 H2 H; auto]. Qed.

#[export] Instance within_known_keys_preorder : PreOrder within_known_keys.
Proof.
  split; [intros s x Hx; apply elem_of_union; now left|].
  intros s1 s2 s3 H1 H2 x Hx. apply H2, elem_of_union in Hx as [Hx|Hx].
  - now apply H1.
  - apply elem_of_union. now right.
Qed.

#[export] Instance same_system_info_preorder : PreOrder same_system_info.
Proof.
  split; [now intros s|].
  intros s1 s2 s3 H1 H2. unfold same_system_info in *. congruence.
Qed.

(** *** The recommendations *)

Lemma print_numbered (l : list (nat * string)) s :
  for_ l (fun '(i, rec) => print_colored ("  " ++ pretty i ++ ". " ++ rec) "blue") s
  = (Ret tt,
     Checker (timestamp s) (checks s) (system_info s) (recommendations s)
       (stdout s
        ++ fmap (fun '(i, rec) => Colored ("  " ++ pretty i ++ ". " ++ rec) "blue") l)).
Proof.
  revert s. induction l as [|[i r] l IH]; intros s; simpl.
  - rewrite app_nil_r. now destruct s.
  - unfold bind. simpl. rewrite IH. simpl. now rewrite <- app_assoc.
Qed.

Lemma recommend_nonempty p checks info : recommend p checks info <> [].
Proof.
  unfold recommend. intros H.
  do 7 (apply app_eq_nil in H as [_ H]).
  apply app_eq_nil in H as [H _]. revert H. unfold memory_rule.
  destruct (Qle_bool 16 _); [|destruct (Qle_bool 8 _)]; discriminate.
Qed.

(** X1 -- The list of recommendations is never empty (the memory rule
    always contributes one), so what is printed under the header is the
    list itself, numbered from 1 in order; the line "No issues detected"
    is never reached. *)
Theorem recommendations_never_empty E s :
  let recs := recommendations (after (generate_recommendations E) s) in
  recs <> []
  /\ recs = recommend (sys_platform E) (checks s) (system_info s)
  /\ stdout (after (generate_recommendations E) s)
     = stdout s ++ Header "Recommendations" :: numbered recs.
Proof.
  intros recs. subst recs. rewrite generate_recommendations_result.
  split; [apply recommend_nonempty|]. split; [reflexivity|].
  unfold after, generate_recommendations; unmonad; unfold bind, get; simpl.
  destruct (recommend (sys_platform E) (checks s) (system_info s)) as [|r rs] eqn:Hr.
  { now apply recommend_nonempty in Hr. }
  rewrite print_numbered. simpl. rewrite <- app_assoc. simpl. f_equal. f_equal.
  unfold numbered. simpl. f_equal.
  rewrite fmap_imap. apply imap_ext. now intros.
Qed.

Lemma rule_sublist checks k v r : rule checks k v r `sublist_of` [r].
Proof. unfold rule. case_bool_decide; [reflexivity | apply sublist_nil_l]. Qed.

Lemma memory_rule_sublist m :
  memory_rule m `sublist_of` [rec_large_models; rec_medium_models; rec_small_models].
Proof.
  unfold memory_rule. destruct (Qle_bool 16 m); [|destruct (Qle_bool 8 m)].
  - apply sublist_skip, sublist_nil_l.
  - apply sublist_cons, sublist_skip, sublist_nil_l.
  - apply sublist_cons, sublist_cons. reflexivity.
Qed.

Lemma platform_rule_sublist p : platform_rule p `sublist_of` [rec_metal; rec_cuda].
Proof.
  unfold platform_rule. destruct (String.eqb p "darwin"); [|destruct (startswith p "linux")].
  - apply sublist_skip, sublist_nil_l.
  - apply sublist_cons. reflexivity.
  - apply sublist_nil_l.
Qed.

Lemma priority_order_NoDup : NoDup priority_order.
Proof.
  unfold priority_order.
  repeat (apply NoDup_cons; split;
          [intros H; apply list_elem_of_In in H; simpl in H; intuition discriminate|]).
  apply NoDup_nil_2.
Qed.

(** X2 -- The recommendations come out in the fixed order of the rules:
    they form a subsequence of the twelve possible recommendations in
    rule order, hence without repetition. *)
Theorem recommendations_follow_rule_order E s :
  recommendations (after (generate_recommendations E) s) `sublist_of` priority_order
  /\ NoDup (recommendations (after (generate_recommendations E) s)).
Proof.
  assert (H : recommendations (after (generate_recommendations E) s)
              `sublist_of` priority_order).
  { rewrite generate_recommendations_result. unfold recommend, priority_order.
    do 7 (apply (sublist_app _ [_]); [apply rule_sublist|]).
    apply (sublist_app _ [_; _; _]);
      [apply memory_rule_sublist | apply platform_rule_sublist]. }
  split; [exact H|]. eapply sublist_NoDup; [apply priority_order_NoDup | exact H].
Qed.

(** *** What a run records *)

Lemma usage_status_not_info :
  (forall c, cpu_usage_status c <> INFO)
  /\ (forall c, memory_usage_status c <> INFO)
  /\ (forall c, disk_usage_status c <> INFO).
Proof.
  unfold cpu_usage_status, memory_usage_status, disk_usage_status.
  repeat split; intros c; repeat case_match; discriminate.
Qed.

Lemma known_key_dom (k : string) (m : gmap string Status) v x :
  k ∈ known_keys -> x ∈ dom (<[k:=v]> m) -> x ∈ dom m ∪ known_keys.
Proof.
  intros Hk Hx. rewrite dom_insert in Hx. apply elem_of_union in Hx as [Hx|Hx].
  - apply elem_of_singleton in Hx as ->. apply elem_of_union. now right.
  - apply elem_of_union. now left.
Qed.

Ltac known_key :=
  unfold known_keys; apply elem_of_list_to_set;
  repeat first [apply list_elem_of_here | apply list_elem_of_further].

Ltac keeps_prim ::=
  intros ?; simpl;
  first
    [ reflexivity
    | progress unfold same_key; simpl; rewrite lookup_insert_ne by congruence; reflexivity
    | progress unfold same_headers; simpl; rewrite headers_snoc, app_nil_r; reflexivity
    | progress unfold same_system_info; simpl; reflexivity
    | progress unfold within_known_keys; simpl; intros ? ?;
      first [ apply elem_of_union; left; assumption
            | match goal with
              | H : _ ∈ dom (<[?k:=_]> _) |- _ =>
                  refine (known_key_dom k _ _ _ _ H); known_key
              end ]
    | progress unfold keeps_no_info, no_info; simpl;
      let H := fresh in let Hl := fresh in
      intros H ? ? Hl;
      first [ exact (H _ _ Hl)
            | apply lookup_insert_Some in Hl as [[_ <-]|[_ Hl]];
              [ first [ discriminate
                      | apply usage_status_not_info ]
              | exact (H _ _ Hl) ] ]
    | progress unfold same_results; simpl; auto ].

Ltac unfold_run :=
  unfold run_full_check, check_system_info, system_info_body, system_info_fallback_body,
    check_ollama_service, ollama_service_body, check_llama_cpp, llama_cpp_body,
    check_vscode_integration, vscode_integration_body,
    check_network_connectivity, network_connectivity_body,
    check_performance_metrics, performance_metrics_body,
    generate_recommendations, print_summary.

Lemma run_keeps_no_info E : keeps keeps_no_info (run_full_check E).
Proof. unfold_run. keeps_auto. Qed.

Lemma run_within_known_keys E : keeps within_known_keys (run_full_check E).
Proof. unfold_run. keeps_auto. Qed.

Lemma counts_partition (l : list (string * Status)) :
  Forall (fun kv => kv.2 <> INFO) l ->
  (length (filter (fun kv : string * Status => kv.2 = OK) l)
   + length (filter (fun kv : string * Status => kv.2 = WARNING) l)
   + length (filter (fun kv : string * Status => kv.2 = ERROR) l))%nat
  = length l.
Proof.
  induction 1 as [|[k v] l Hv _ IH]; [reflexivity|].
  rewrite !filter_cons. simpl in *.
  destruct v; try congruence; repeat case_decide; try congruence; simpl; lia.
Qed.

(** X3 -- In a run started from a fresh checker, every status recorded is
    OK, WARNING or ERROR, never INFO, however the run ends; so the three
    counts of the summary add up to the total number of checks. *)
Theorem summary_counts_add_up E :
  let c := checks (after (run_full_check E) (init E)) in
  no_info c
  /\ (count_status OK c + count_status WARNING c + count_status ERROR c)%nat = size c.
Proof.
  intros c.
  assert (Hc : no_info c).
  { apply (run_keeps_no_info E (init E)). intros k v Hk. simpl in Hk.
    now rewrite lookup_empty in Hk. }
  split; [exact Hc|]. unfold count_status. rewrite <- length_map_to_list.
  apply counts_partition. apply Forall_forall. intros [k v] Hin. simpl.
  apply elem_of_map_to_list in Hin. now apply (Hc k).
Qed.

(** X4 -- A run records statuses under twenty fixed keys only: whatever
    the probes answer, no other key enters the check map (in particular
    none for a port or for a process that was found), and the map of a
    fresh run holds at most twenty entries. *)
Theorem recorded_keys_are_known E :
  dom (checks (after (run_full_check E) (init E))) ⊆ known_keys
  /\ (size (checks (after (run_full_check E) (init E))) <= 20)%nat.
Proof.
  assert (H : dom (checks (after (run_full_check E) (init E))) ⊆ known_keys).
  { intros x Hx. apply (run_within_known_keys E (init E)) in Hx.
    apply elem_of_union in Hx as [Hx|Hx]; [|exact Hx].
    simpl in Hx. rewrite dom_empty in Hx. now apply not_elem_of_empty in Hx. }
  split; [exact H|]. rewrite <- size_dom.
  etransitivity; [apply subseteq_size, H|]. reflexivity.
Qed.

(** *** A missing dependency *)

Lemma bind_Ret_inv {A B} (m : M checker A) (k : A -> M checker B) s b :
  (bind m k s).1 = Ret b ->
  exists a, (m s).1 = Ret a /\ bind m k s = k a (after m s).
Proof.
  unfold bind, after. destruct (m s) as [[a|e] s1]; simpl; [eauto | discriminate].
Qed.

Ltac bind_inv H :=
  let a := fresh "a" in
  let Hm := fresh "Hm" in
  let He := fresh "He" in
  destruct (bind_Ret_inv _ _ _ _ H) as (a & Hm & He);
  rewrite He in H |- *; clear He; try destruct a.

(** A run that ends normally has gone through every stage. *)
Lemma run_full_check_Ret E s :
  (run_full_check E s).1 = Ret tt ->
  run_full_check E s = print_summary (before_summary E s)
  /\ (check_ollama_service E (after (check_system_info E) (after banner s))).1 = Ret tt.
Proof.
  intros H. unfold before_summary, before_recommendations.
  unfold run_full_check in *. unmonad.
  change (bind (print_colored ?a ?b) (fun _ => bind (print_colored ?c ?d) ?k) s)
    with (bind banner k s) in *.
  do 8 bind_inv H.
  split; [reflexivity | assumption].
Qed.

Lemma ollama_body_raises E s :
  HAS_PSUTIL E = false \/ HAS_REQUESTS E = false ->
  exists e, (ollama_service_body E s).1 = Raise e.
Proof.
  intros [HP|HR]; unfold ollama_service_body; unmonad.
  - unfold bind at 1, call at 1, psutil. rewrite HP. simpl. eauto.
  - unfold bind at 1, call at 1.
    destruct (psutil E (process_iter E AtOllama)) as [g|e]; [|simpl; eauto].
    unfold bind at 1.
    destruct (loop_break _ (items g) (fault g) s) as [[b|e] s1]; [|simpl; eauto].
    unfold bind at 1.
    assert (Hw : exists s2, when (negb b)
              (bind (print_status "Ollama Process" WARNING)
                    (fun _ => set_check "ollama_process" WARNING)) s1 = (Ret tt, s2)).
    { destruct b; simpl; eauto. }
    destruct Hw as [s2 ->].
    unfold bind at 1, try_ at 1, bind at 1, call at 1, requests. rewrite HR.
    simpl. eauto.
Qed.

Lemma dependency_error_recorded E s :
  HAS_PSUTIL E = false \/ HAS_REQUESTS E = false ->
  (check_ollama_service E s).1 = Ret tt ->
  checks (after (check_ollama_service E) s) !! "ollama_service" = Some ERROR.
Proof.
  intros Hdep Hr.
  destruct (ollama_body_raises E (after (print_header "Ollama Service Check") s) Hdep)
    as [e He].
  destruct (is_Exception e) eqn:Hx.
  - now apply (categories_record_failures E) with (e := e).
  - exfalso. revert Hr. unfold check_ollama_service. unmonad.
    rewrite (bind_stage _ _ _ _ (stage_print_header _)). unfold try_.
    destruct (ollama_service_body E _) as [[[]|e'] s1]; cbn [fst] in He; [discriminate|].
    injection He as ->. cbn [dispatch]. rewrite Hx. discriminate.
Qed.

Lemma save_results_checks E s : checks (after (save_results E) s) = checks s.
Proof.
  assert (H : keeps same_checks (save_results E)).
  { unfold save_results. keeps_auto. }
  apply H.
Qed.

(** What [main] hands to [sys.exit] when it gets that far. *)
Lemma main_Ret E code :
  (main E).1 = Ret code ->
  (run_full_check E (init E)).1 = Ret tt
  /\ code = (if (count_status ERROR (checks (after (run_full_check E) (init E))) =? 0)%nat
             then 0 else 1)%Z.
Proof.
  unfold main, main_body. unmonad. intros H.
  destruct (bind_Ret_inv _ _ _ _ H) as ([] & Hrun & He). rewrite He in H. clear He.
  split; [exact Hrun|].
  set (s1 := after (run_full_check E) (init E)) in *.
  destruct (bind_Ret_inv _ _ _ _ H) as ([] & _ & He). rewrite He in H. clear He.
  assert (Hc : checks (after (print (Plain (newline ++ string_times "=" 50))) s1) = checks s1)
    by reflexivity.
  set (s2 := after (print (Plain (newline ++ string_times "=" 50))) s1) in *.
  destruct (bind_Ret_inv _ _ _ _ H) as (answer & _ & He). rewrite He in H. clear He.
  change (after (call (user_input E)) s2) with s2 in H.
  destruct (bind_Ret_inv _ _ _ _ H) as ([] & _ & He). rewrite He in H. clear He.
  match type of H with
  | context [after (when ?b ?m) s2] =>
      assert (Hw : checks (after (when b m) s2) = checks s2)
        by (destruct b; [apply save_results_checks | reflexivity]);
      set (s3 := after (when b m) s2) in *
  end.
  unfold bind, get in H. simpl in H. injection H as <-. now rewrite Hw, Hc.
Qed.

(** X5 -- The two optional imports are not optional for the exit status:
    when psutil or requests is missing, the daemon check fails on the
    unbound name and records "ollama_service" as ERROR, so the process
    never exits with status 0. *)
Theorem missing_dependency_exits_nonzero E :
  HAS_PSUTIL E = false \/ HAS_REQUESTS E = false ->
  exit_status (main E).1 <> 0%Z.
Proof.
  intros Hdep. destruct (main E).1 as [code|e] eqn:Hmain; simpl.
  - destruct (main_Ret E code Hmain) as [Hrun ->].
    destruct (run_full_check_Ret E (init E) Hrun) as [Heq Ho].
    assert (Herr : checks (after (run_full_check E) (init E)) !! "ollama_service"
                   = Some ERROR).
    { unfold after at 1. rewrite Heq. fold (after print_summary (before_summary E (init E))).
      rewrite print_summary_checks. unfold before_summary.
      rewrite generate_recommendations_checks. unfold before_recommendations.
      assert (K1 : keeps (same_key "ollama_service") (check_performance_metrics E))
        by (unfold check_performance_metrics, performance_metrics_body; keeps_auto).
      assert (K2 : keeps (same_key "ollama_service") (check_network_connectivity E))
        by (unfold check_network_connectivity, network_connectivity_body; keeps_auto).
      assert (K3 : keeps (same_key "ollama_service") (check_vscode_integration E))
        by (unfold check_vscode_integration, vscode_integration_body; keeps_auto).
      assert (K4 : keeps (same_key "ollama_service") (check_llama_cpp E))
        by (unfold check_llama_cpp, llama_cpp_body; keeps_auto).
      unfold after at 1. rewrite K1. unfold after at 1. rewrite K2.
      unfold after at 1. rewrite K3. unfold after at 1. rewrite K4.
      now apply dependency_error_recorded. }
    destruct (Nat.eqb_spec (count_status ERROR (checks (after (run_full_check E) (init E)))) 0)
      as [H0|H0]; [|discriminate].
    exfalso. apply (proj1 (count_status_zero ERROR _) H0 _ _ Herr). reflexivity.
  - destruct (exn_class e); discriminate.
Qed.

Lemma missing_dependency_exits_nonzero_witness :
  exit_status (main env_without_psutil).1 <> 0%Z.
Proof. apply (missing_dependency_exits_nonzero env_without_psutil). left. reflexivity. Defined.

(** *** Edge cases of the performance check *)

Lemma div_zero a : div a (inject_Z 0) = Raise (Exn ZeroDivisionError "division by zero").
Proof. reflexivity. Qed.

(** X6 -- A disk that reports a total of zero bytes makes the percentage
    a division by zero: the check still ends normally, records
    "performance" as ERROR, keeps the CPU and memory grades it had
    already recorded, and records neither "disk_usage" nor
    "ai_processes". *)
Theorem zero_disk_total E s (c : Q) (mem : svmem) (disk : sdiskusage) :
  HAS_PSUTIL E = true ->
  cpu_percent E = Ret c ->
  virtual_memory E AtPerformance = Ret mem ->
  disk_usage E AtPerformance = Ret disk ->
  du_total disk = 0%Z ->
  let s' := after (check_performance_metrics E) s in
  (check_performance_metrics E s).1 = Ret tt
  /\ checks s' !! "performance" = Some ERROR
  /\ checks s' !! "cpu_usage" = Some (cpu_usage_status c)
  /\ checks s' !! "memory_usage" = Some (memory_usage_status (vm_percent mem))
  /\ checks s' !! "disk_usage" = checks s !! "disk_usage"
  /\ checks s' !! "ai_processes" = checks s !! "ai_processes".
Proof.
  intros HP Hc Hm Hd Ht s'. subst s'.
  unfold after, check_performance_metrics, performance_metrics_body. unmonad.
  rewrite (bind_stage _ _ _ _ (stage_print_header _)).
  rewrite (try_call_Ret _ _ _ _ c) by (now rewrite psutil_present).
  rewrite try_print_status, try_set_check.
  rewrite (try_call_Ret _ _ _ _ mem) by (now rewrite psutil_present).
  rewrite try_print_status, try_set_check.
  rewrite (try_call_Ret _ _ _ _ disk) by (now rewrite psutil_present).
  rewrite Ht, div_zero. unfold try_ at 1 2, bind at 1 2, call at 1 2. cbn [dispatch].
  simpl. repeat split; by simplify_map_eq.
Qed.

Lemma zero_disk_total_witness :
  (check_performance_metrics env_zero_disk (init env_zero_disk)).1 = Ret tt
  /\ checks (after (check_performance_metrics env_zero_disk) (init env_zero_disk))
       !! "performance" = Some ERROR
  /\ checks (after (check_performance_metrics env_zero_disk) (init env_zero_disk))
       !! "cpu_usage" = Some (cpu_usage_status 10)
  /\ checks (after (check_performance_metrics env_zero_disk) (init env_zero_disk))
       !! "memory_usage" = Some (memory_usage_status 40)
  /\ checks (after (check_performance_metrics env_zero_disk) (init env_zero_disk))
       !! "disk_usage" = None
  /\ checks (after (check_performance_metrics env_zero_disk) (init env_zero_disk))
       !! "ai_processes" = None.
Proof.
  apply (zero_disk_total env_zero_disk (init env_zero_disk) 10
           {| vm_total := 68719476736; vm_percent := 40 |}
           {| du_total := 0; du_used := 0; du_free := 0 |}); reflexivity.
Defined.

(** *** The API checks *)

(** What an API block does to its key, for every outcome of the
    endpoint. *)
Lemma api_block_result (o : outcome Z) (c k : string) (conn : Status) s :
  let block :=
    try_ (bind (call o) (fun status_code =>
            if (status_code =? 200)%Z
            then bind (print_status c OK) (fun _ => set_check k OK)
            else bind (print_status c WARNING) (fun _ => set_check k WARNING)))
         [(is_requests_ConnectionError, fun _ =>
             bind (print_status c conn) (fun _ => set_check k conn));
          (is_requests_Timeout, fun _ =>
             bind (print_status c WARNING) (fun _ => set_check k WARNING))] in
  match api_status conn o with
  | Some st => exists s', block s = (Ret tt, s') /\ checks s' = <[k:=st]> (checks s)
  | None => exists e, block s = (Raise e, s)
  end.
Proof.
  unfold api_status, try_, bind, call. destruct o as [code|e]; simpl.
  - destruct (code =? 200)%Z; eauto.
  - destruct (is_requests_ConnectionError e); simpl; [eauto|].
    destruct (is_requests_Timeout e); simpl; eauto.
Qed.

(** X7 -- Once the process search has ended, the daemon's API check
    records "ollama_api" by what the health endpoint does: OK for status
    200, WARNING for another status or a read timeout, ERROR for a
    refused connection and for a connect timeout (which is a connection
    error first); any other failure leaves the entry untouched. *)
Theorem ollama_api_classification E s b :
  ollama_process_found E = Ret b ->
  checks (after (check_ollama_service E) s) !! "ollama_api"
  = match api_status ERROR (requests E (ollama_health E)) with
    | Some st => Some st
    | None => checks s !! "ollama_api"
    end.
Proof.
  unfold ollama_process_found. intros Hb.
  destruct (psutil E (process_iter E AtOllama)) as [g|e] eqn:Hg; [|discriminate].
  unfold after, check_ollama_service, ollama_service_body. unmonad.
  rewrite (bind_stage _ _ _ _ (stage_print_header _)).
  rewrite (try_call_Ret _ _ _ _ g Hg).
  match goal with
  | |- context [loop_break ?body (items g) (fault g)] =>
      destruct (loop_break_first_hit ollama_test body (items g) (fault g)) with
        (s := after (print_header "Ollama Service Check") s) as (s1 & Hl & H1)
  end.
  { intros p s0. unfold ollama_test, bind, call.
    destruct (name_lower p) as [n|e]; simpl; [|eauto].
    destruct (contains "ollama" n); simpl; eauto. }
  rewrite Hb in Hl. rewrite (try_bind_Ret _ _ _ _ _ _ Hl).
  assert (Hw : exists s2, when (negb b)
            (bind (print_status "Ollama Process" WARNING)
                  (fun _ => set_check "ollama_process" WARNING)) s1 = (Ret tt, s2)
            /\ checks s2 !! "ollama_api" = checks s !! "ollama_api").
  { destruct b; simpl; eexists; (split; [reflexivity|]); simpl.
    - now rewrite H1.
    - rewrite lookup_insert_ne by discriminate. now rewrite H1. }
  destruct Hw as (s2 & Hw & H2). rewrite (try_bind_Ret _ _ _ _ _ _ Hw).
  pose proof (api_block_result (requests E (ollama_health E)) "Ollama API" "ollama_api"
                ERROR s2) as Hapi.
  cbv zeta in Hapi.
  destruct (api_status ERROR (requests E (ollama_health E))) as [st|].
  - destruct Hapi as (s3 & Hs3 & H3). rewrite (try_bind_Ret _ _ _ _ _ _ Hs3).
    match goal with
    | |- checks (try_ ?m ?hs s3).2 !! _ = _ =>
        assert (Hk : keeps (same_key "ollama_api") (try_ m hs)) by keeps_auto
    end.
    rewrite Hk, H3. apply lookup_insert_eq.
  - destruct Hapi as (e & He). unfold try_ at 1, bind at 1. rewrite He.
    rewrite dispatch_Exception_key by discriminate. exact H2.
Qed.

Lemma ollama_api_classification_witness :
  checks (after (check_ollama_service env_no_models) (init env_no_models)) !! "ollama_api"
  = Some OK.
Proof.
  apply (ollama_api_classification env_no_models (init env_no_models) true). reflexivity.
Defined.

Example connect_timeout_is_an_error :
  api_status ERROR (Raise (Exn ConnectTimeout "timed out")) = Some ERROR
  /\ api_status ERROR (Raise (Exn ReadTimeout "timed out")) = Some WARNING
  /\ api_status ERROR (Raise (Exn ConnectionError "refused")) = Some ERROR
  /\ api_status ERROR (Ret 503%Z) = Some WARNING.
Proof. repeat split; reflexivity. Qed.

(** The start of [check_llama_cpp], up to the end of the process
    search. *)
Lemma llama_search_step s g b {B} (k : unit -> M checker B) hs :
  first_hit server_test (items g) (fault g) = Ret b ->
  exists s2,
    try_ (bind (loop_break (fun proc =>
                  try_ (if is_server_cmdline proc
                        then bind (print_status "llama.cpp Server" OK) (fun _ => ret true)
                        else ret false)
                       [(is_psutil_gone, fun _ => ret false)]) (items g) (fault g))
               (fun llama_running =>
                  bind (when (negb llama_running)
                          (bind (print_status "llama.cpp Server" WARNING)
                                (fun _ => set_check "llama_cpp_server" WARNING)))
                       k)) hs s
    = try_ (k tt) hs s2
    /\ forall key, key <> "llama_cpp_server" -> checks s2 !! key = checks s !! key.
Proof.
  intros Hb.
  match goal with
  | |- context [loop_break ?body (items g) (fault g)] =>
      destruct (loop_break_first_hit server_test body (items g) (fault g)) with
        (s := s) as (s1 & Hl & H1)
  end.
  { intros p s0. unfold server_test, try_, bind.
    destruct (is_server_cmdline p); simpl; eauto. }
  rewrite Hb in Hl. rewrite (try_bind_Ret _ _ _ _ _ _ Hl).
  destruct b.
  - change (negb true) with false. rewrite try_when_false.
    exists s1. split; [reflexivity|]. intros key _. now rewrite H1.
  - change (negb false) with true. erewrite try_when_true; [|reflexivity].
    eexists. split; [reflexivity|]. intros key Hk. simpl.
    rewrite lookup_insert_ne by congruence. now rewrite H1.
Qed.

(** X8 -- The inference server's API check never records ERROR: once the
    process search has ended, "llama_cpp_api" is OK for status 200 and
    WARNING for another status, a refused connection or a timeout; any
    other failure leaves the entry untouched. *)
Theorem llama_api_classification E s b :
  llama_server_found E = Ret b ->
  checks (after (check_llama_cpp E) s) !! "llama_cpp_api"
  = match api_status WARNING (requests E (llama_health E)) with
    | Some st => Some st
    | None => checks s !! "llama_cpp_api"
    end
  /\ api_status WARNING (requests E (llama_health E)) <> Some ERROR.
Proof.
  unfold llama_server_found. intros Hb.
  split; [|unfold api_status; repeat case_match; discriminate].
  destruct (psutil E (process_iter E AtLlamaCpp)) as [g|e] eqn:Hg; [|discriminate].
  unfold after, check_llama_cpp, llama_cpp_body. unmonad.
  rewrite (bind_stage _ _ _ _ (stage_print_header _)).
  rewrite (try_call_Ret _ _ _ _ g Hg).
  match goal with
  | |- context [try_ (bind (loop_break _ _ _) (fun r => bind _ ?k)) ?hs ?s0] =>
      destruct (llama_search_step s0 g b k hs Hb) as (s2 & -> & H2)
  end.
  pose proof (api_block_result (requests E (llama_health E)) "llama.cpp API" "llama_cpp_api"
                WARNING s2) as Hapi.
  cbv zeta in Hapi.
  destruct (api_status WARNING (requests E (llama_health E))) as [st|].
  - destruct Hapi as (s3 & Hs3 & H3). rewrite (try_bind_Ret _ _ _ _ _ _ Hs3).
    match goal with
    | |- checks (try_ ?m ?hs s3).2 !! _ = _ =>
        assert (Hk : keeps (same_key "llama_cpp_api") (try_ m hs)) by keeps_auto
    end.
    rewrite Hk, H3. apply lookup_insert_eq.
  - destruct Hapi as (e & He). unfold try_ at 1, bind at 1. rewrite He.
    rewrite dispatch_Exception_key by discriminate. now apply H2.
Qed.

Lemma llama_api_classification_witness :
  checks (after (check_llama_cpp env_no_models) (init env_no_models)) !! "llama_cpp_api"
  = Some WARNING
  /\ api_status WARNING (Raise (Exn ConnectionError "connection refused")) <> Some ERROR.
Proof.
  apply (llama_api_classification env_no_models (init env_no_models) false). reflexivity.
Defined.

Lemma show_models E (models : list string) s :
  Forall (fun f => returns (getsize E f)) models ->
  exists s',
    for_ models (fun model =>
      bind (call (getsize E model)) (fun _ => print_status ("  - " ++ model) INFO)) s
    = (Ret tt, s')
    /\ checks s' = checks s.
Proof.
  intros H. revert s. induction H as [|f l [z Hz] _ IH]; intros s; cbn [for_].
  - eauto.
  - rewrite (BenchFacts.bind_eq _ _ s tt (after (print_status ("  - " ++ f) INFO) s))
      by (unfold bind, call; now rewrite Hz).
    destruct (IH (after (print_status ("  - " ++ f) INFO) s)) as (s' & -> & Hs').
    eauto.
Qed.

(** X9 -- When the process search has ended and the API check completes,
    "llama_cpp_models" tells only whether the model directory exists:
    WARNING when it is missing, OK when it is there, also when it holds
    no model file at all (the WARNING line "No GGUF models found" is then
    printed, and OK recorded). *)
Theorem llama_models_entry E s b :
  llama_server_found E = Ret b ->
  api_status WARNING (requests E (llama_health E)) <> None ->
  models_dir_readable E ->
  checks (after (check_llama_cpp E) s) !! "llama_cpp_models"
  = Some (if models_dir_exists E then OK else WARNING).
Proof.
  unfold llama_server_found. intros Hb Hapi0 Hdir.
  destruct (psutil E (process_iter E AtLlamaCpp)) as [g|e] eqn:Hg; [|discriminate].
  unfold after, check_llama_cpp, llama_cpp_body. unmonad.
  rewrite (bind_stage _ _ _ _ (stage_print_header _)).
  rewrite (try_call_Ret _ _ _ _ g Hg).
  match goal with
  | |- context [try_ (bind (loop_break _ _ _) (fun r => bind _ ?k)) ?hs ?s0] =>
      destruct (llama_search_step s0 g b k hs Hb) as (s2 & -> & H2)
  end.
  pose proof (api_block_result (requests E (llama_health E)) "llama.cpp API" "llama_cpp_api"
                WARNING s2) as Hapi.
  cbv zeta in Hapi.
  destruct (api_status WARNING (requests E (llama_health E))) as [st|]; [|congruence].
  destruct Hapi as (s3 & Hs3 & H3). rewrite (try_bind_Ret _ _ _ _ _ _ Hs3).
  unfold try_ at 1.
  destruct Hdir as [Hno|(files & Hls & Hsz)].
  - rewrite Hno. simpl. apply lookup_insert_eq.
  - destruct (models_dir_exists E); [|simpl; apply lookup_insert_eq].
    unfold bind at 1, call at 1. rewrite Hls.
    fold (gguf_files files). unfold bind at 1.
    destruct (gguf_files files) as [|f fs] eqn:Hf.
    + simpl. apply lookup_insert_eq.
    + unfold bind at 1. unfold print_status at 1, print at 1, modify at 1.
      unfold bind at 1.
      match goal with
      | |- context [for_ (take 3 (f :: fs)) _ ?s0] =>
          destruct (show_models E (take 3 (f :: fs)) s0 Hsz) as (s4 & -> & H4)
      end.
      destruct (3 <? length (f :: fs))%nat; simpl; apply lookup_insert_eq.
Qed.

Lemma llama_models_entry_witness :
  checks (after (check_llama_cpp env_slow_internet) (init env_slow_internet))
    !! "llama_cpp_models"
  = Some OK.
Proof.
  apply (llama_models_entry env_slow_internet (init env_slow_internet) false).
  - reflexivity.
  - discriminate.
  - right. exists ["notes.txt"]. split; [reflexivity | constructor].
Defined.

(** *** The system information *)

(** X10 -- When psutil answers, the check records "system_info" as OK and
    stores the figures with the sizes in GiB rounded to one decimal; a
    platform without load average (AttributeError) is tolerated and
    stored as no load average. *)
Theorem system_info_stored E s cc cl cf mem disk :
  HAS_PSUTIL E = true ->
  cpu_count E = Ret cc ->
  cpu_count_logical E = Ret cl ->
  cpu_freq E = Ret cf ->
  virtual_memory E AtSystemInfo = Ret mem ->
  disk_usage E AtSystemInfo = Ret disk ->
  (forall e, getloadavg E = Raise e -> is_AttributeError e = true) ->
  let s' := after (check_system_info E) s in
  checks s' !! "system_info" = Some OK
  /\ system_info s'
     = Some {| cpu_cores := cc;
               cpu_cores_logical := cl;
               cpu_frequency := cf;
               memory_total_gb := round (inject_Z (vm_total mem) / GiB) 1;
               memory_used_percent := vm_percent mem;
               disk_total_gb := round (inject_Z (du_total disk) / GiB) 1;
               disk_free_gb := round (inject_Z (du_free disk) / GiB) 1;
               load_average := match getloadavg E with
                               | Ret l => Some l
                               | Raise _ => None
                               end |}.
Proof.
  intros HP Hcc Hcl Hcf Hm Hd Hl s'. subst s'.
  unfold after, check_system_info, system_info_body. rewrite HP. simpl negb. cbv iota.
  unmonad.
  rewrite (bind_stage _ _ _ _ (stage_print_header _)).
  rewrite (try_call_Ret _ _ _ _ cc) by (now rewrite psutil_present).
  rewrite (try_call_Ret _ _ _ _ cl) by (now rewrite psutil_present).
  rewrite (try_call_Ret _ _ _ _ cf) by (now rewrite psutil_present).
  rewrite (try_call_Ret _ _ _ _ mem) by (now rewrite psutil_present).
  rewrite (try_call_Ret _ _ _ _ disk) by (now rewrite psutil_present).
  unfold try_, bind, call.
  destruct (getloadavg E) as [l|e] eqn:Hg; simpl.
  - destruct cf; simpl; split; [apply lookup_insert_eq | reflexivity
                               | apply lookup_insert_eq | reflexivity].
  - rewrite (Hl e eq_refl). simpl.
    destruct cf; simpl; split; [apply lookup_insert_eq | reflexivity
                               | apply lookup_insert_eq | reflexivity].
Qed.

Lemma system_info_stored_witness :
  checks (after (check_system_info env_no_loadavg) (init env_no_loadavg)) !! "system_info"
  = Some OK
  /\ system_info (after (check_system_info env_no_loadavg) (init env_no_loadavg))
     = Some {| cpu_cores := Some 8%Z;
               cpu_cores_logical := Some 16%Z;
               cpu_frequency := None;
               memory_total_gb := round (inject_Z 68719476736 / GiB) 1;
               memory_used_percent := 40;
               disk_total_gb := round (inject_Z 1000 / GiB) 1;
               disk_free_gb := round (inject_Z 500 / GiB) 1;
               load_average := None |}.
Proof.
  apply (system_info_stored env_no_loadavg (init env_no_loadavg) (Some 8%Z) (Some 16%Z) None
           {| vm_total := 68719476736; vm_percent := 40 |} half_full_disk);
    try reflexivity.
  intros e [= <-]. reflexivity.
Defined.

(** Only the main block of [check_system_info] writes the system
    information. *)
Lemma system_info_untouched E s :
  HAS_PSUTIL E = false ->
  system_info (before_recommendations E s) = system_info s.
Proof.
  intros HP. unfold before_recommendations.
  assert (K0 : keeps same_system_info banner) by (unfold banner; keeps_auto).
  assert (K1 : keeps same_system_info (check_system_info E)).
  { unfold check_system_info, system_info_fallback_body. rewrite HP. simpl negb. cbv iota.
    keeps_auto. }
  assert (K2 : keeps same_system_info (check_ollama_service E))
    by (unfold check_ollama_service, ollama_service_body; keeps_auto).
  assert (K3 : keeps same_system_info (check_llama_cpp E))
    by (unfold check_llama_cpp, llama_cpp_body; keeps_auto).
  assert (K4 : keeps same_system_info (check_vscode_integration E))
    by (unfold check_vscode_integration, vscode_integration_body; keeps_auto).
  assert (K5 : keeps same_system_info (check_network_connectivity E))
    by (unfold check_network_connectivity, network_connectivity_body; keeps_auto).
  assert (K6 : keeps same_system_info (check_performance_metrics E))
    by (unfold check_performance_metrics, performance_metrics_body; keeps_auto).
  unfold after at 1. rewrite K6. unfold after at 1. rewrite K5.
  unfold after at 1. rewrite K4. unfold after at 1. rewrite K3.
  unfold after at 1. rewrite K2. unfold after at 1. rewrite K1.
  unfold after. now rewrite K0.
Qed.

(** X11 -- Without psutil a completed run never learns the memory size:
    the system information stays empty, the memory rule reads it as 0 GB
    and the one size-class recommendation is the small-model one,
    whatever the machine has. *)
Theorem without_psutil_small_models E :
  HAS_PSUTIL E = false ->
  (run_full_check E (init E)).1 = Ret tt ->
  system_info (after (run_full_check E) (init E)) = None
  /\ size_recs (recommendations (after (run_full_check E) (init E))) = [rec_small_models].
Proof.
  intros HP Hrun. destruct (run_full_check_Ret E (init E) Hrun) as [Heq _].
  unfold after. rewrite Heq. fold (after print_summary (before_summary E (init E))).
  assert (Hsi : system_info (before_recommendations E (init E)) = None)
    by now rewrite system_info_untouched.
  split.
  - assert (K : keeps same_system_info print_summary) by (unfold print_summary; keeps_auto).
    unfold after at 1. rewrite K. unfold before_summary.
    assert (K' : keeps same_system_info (generate_recommendations E))
      by (unfold generate_recommendations; keeps_auto).
    unfold after at 1. now rewrite K'.
  - rewrite print_summary_recommendations. unfold before_summary.
    rewrite generate_recommendations_result, size_recs_recommend, Hsi. reflexivity.
Qed.

Lemma without_psutil_small_models_witness :
  system_info (after (run_full_check env_without_psutil) (init env_without_psutil)) = None
  /\ size_recs (recommendations
                  (after (run_full_check env_without_psutil) (init env_without_psutil)))
     = [rec_small_models].
Proof.
  apply (without_psutil_small_models env_without_psutil); reflexivity.
Defined.

(** *** The internet probe *)

(** X12 -- Only a connection error is handled at the internet probe: any
    other [Exception], a read timeout for one, fails the whole network
    category: "network" is ERROR, "internet" is not recorded, and no port
    is probed. *)
Theorem internet_failure_skips_ports E s e :
  requests E (internet E) = Raise e ->
  is_requests_ConnectionError e = false ->
  is_Exception e = true ->
  let s' := after (check_network_connectivity E) s in
  checks s' = <["network" := ERROR]> (checks s)
  /\ stdout s'
     = stdout s ++ [Header "Network Connectivity"; StatusLine "Network Check" ERROR].
Proof.
  intros Ho Hc He s'. subst s'.
  unfold after, check_network_connectivity, network_connectivity_body. unmonad.
  unfold bind, try_, call, print_header, print_status, print, set_check, modify.
  rewrite Ho. cbn [dispatch]. rewrite Hc. cbn [dispatch]. unfold raise. rewrite He.
  simpl. split; [reflexivity|]. now rewrite <- app_assoc.
Qed.

Lemma internet_failure_skips_ports_witness :
  checks (after (check_network_connectivity env_slow_internet) (init env_slow_internet))
  = <["network" := ERROR]> ∅
  /\ stdout (after (check_network_connectivity env_slow_internet) (init env_slow_internet))
     = [Header "Network Connectivity"; StatusLine "Network Check" ERROR].
Proof.
  apply (internet_failure_skips_ports env_slow_internet (init env_slow_internet)
           (Exn ReadTimeout "read timed out")); reflexivity.
Defined.

(** *** The editor integration *)

(** X29 -- When the Continue.dev configuration is absent or readable,
    "continue_config" is OK or WARNING by the presence of the file alone,
    and the extension check never records ERROR: with the output of
    [code --list-extensions] it records "continue_extension" as OK or
    WARNING by the extension's name, and a [code] command that is missing
    or times out gives WARNING under "vscode" and no entry for the
    extension. *)
Theorem vscode_entries E s :
  (continue_config_exists E = true -> returns (continue_config_models E)) ->
  let s' := after (check_vscode_integration E) s in
  checks s' !! "continue_config"
  = Some (if continue_config_exists E then OK else WARNING)
  /\ match code_list_extensions E with
     | Ret out =>
         checks s' !! "continue_extension"
         = Some (if contains "continue.continue" out then OK else WARNING)
         /\ checks s' !! "vscode" = checks s !! "vscode"
         /\ checks s' !! "vscode_integration" = checks s !! "vscode_integration"
     | Raise e =>
         is_subprocess_or_missing e = true ->
         checks s' !! "vscode" = Some WARNING
         /\ checks s' !! "continue_extension" = checks s !! "continue_extension"
         /\ checks s' !! "vscode_integration" = checks s !! "vscode_integration"
     end.
Proof.
  intros Hcfg s'. subst s'.
  unfold after, check_vscode_integration, vscode_integration_body. unmonad.
  unfold bind, try_, call, print_header, print_status, print_colored, print, set_check,
    modify.
  destruct (continue_config_exists E).
  - destruct (Hcfg eq_refl) as [n ->]. cbn [fst snd].
    destruct (code_list_extensions E) as [out|e]; cbn [fst snd].
    + destruct (contains "continue.continue" out); cbn [fst snd checks];
        repeat split; by simplify_map_eq.
    + unfold dispatch, raise.
      destruct (is_subprocess_or_missing e); [|destruct (is_Exception e)];
        cbn [fst snd checks]; (split; [by simplify_map_eq|]);
        intros Hs; try discriminate; repeat split; by simplify_map_eq.
  - cbn [fst snd].
    destruct (code_list_extensions E) as [out|e]; cbn [fst snd].
    + destruct (contains "continue.continue" out); cbn [fst snd checks];
        repeat split; by simplify_map_eq.
    + unfold dispatch, raise.
      destruct (is_subprocess_or_missing e); [|destruct (is_Exception e)];
        cbn [fst snd checks]; (split; [by simplify_map_eq|]);
        intros Hs; try discriminate; repeat split; by simplify_map_eq.
Qed.

Lemma vscode_entries_witness :
  checks (after (check_vscode_integration env_no_models) (init env_no_models))
    !! "continue_config" = Some OK
  /\ checks (after (check_vscode_integration env_no_models) (init env_no_models))
       !! "continue_extension" = Some OK
  /\ checks (after (check_vscode_integration env_no_models) (init env_no_models))
       !! "vscode" = None
  /\ checks (after (check_vscode_integration env_no_models) (init env_no_models))
       !! "vscode_integration" = None.
Proof.
  apply (vscode_entries env_no_models (init env_no_models)).
  intros _. now exists 2%nat.
Defined.

End HealthMore.

(** ** Splitting text *)

Module StringFacts.
Import Bench.

Lemma split_words s : Forall word (split s).
Proof.
  induction s as [|c s IH]; simpl; [constructor|].
  destruct (is_space c) eqn:Hc; [exact IH|].
  destruct s as [|c' s'].
  - constructor; [|constructor]. split; [discriminate | simpl; now rewrite Hc].
  - destruct (is_space c') eqn:Hc'.
    + constructor; [|exact IH]. split; [discriminate | simpl; now rewrite Hc].
    + destruct (split (String c' s')) as [|w ws]; simpl.
      * constructor; [|constructor]. split; [discriminate | simpl; now rewrite Hc].
      * apply Forall_cons_1 in IH as [[_ Hw] Hws].
        constructor; [|exact Hws]. split; [discriminate | simpl; now rewrite Hc, Hw].
Qed.

(** [len(s.split())] is the number of words. *)
Lemma length_split_count s :
  word_count s = length (split s)
  /\ match s with
     | String c _ => is_space c = false -> S (count_words true s) = length (split s)
     | EmptyString => True
     end.
Proof.
  unfold word_count. induction s as [|c s [IH1 IH2]]; [now split|].
  assert (H : is_space c = false ->
              S (count_words true s) = length (split (String c s))).
  { intros Hc. cbn [split]. rewrite Hc. destruct s as [|c' s']; [reflexivity|].
    destruct (is_space c') eqn:Hc'.
    - cbn [length]. f_equal. rewrite <- IH1. cbn [count_words]. now rewrite Hc'.
    - specialize (IH2 eq_refl).
      destruct (split (String c' s')) as [|w ws]; [discriminate IH2 | exact IH2]. }
  split.
  - destruct (is_space c) eqn:Hc.
    + cbn [count_words split]. rewrite Hc. exact IH1.
    + cbn [count_words]. rewrite Hc. apply (H eq_refl).
  - intros Hc. cbn [count_words]. rewrite Hc. now apply H.
Qed.

Lemma length_split s : length (split s) = word_count s.
Proof. symmetry. apply length_split_count. Qed.

Lemma split_on_nonempty sep s : split_on sep s <> [].
Proof.
  destruct s as [|c s]; simpl; [discriminate|].
  destruct (Ascii.eqb c sep); [discriminate|].
  now destruct (split_on sep s).
Qed.

Lemma first_word_word line w : first_word line = Some w -> word w.
Proof.
  unfold first_word. destruct (strip line); [discriminate|].
  pose proof (split_words line) as H.
  destruct (split line) as [|p ps]; [discriminate|].
  intros [= <-]. now apply Forall_cons_1 in H as [H _].
Qed.

Lemma parse_models_words out : Forall word (parse_models out).
Proof.
  unfold parse_models. apply Forall_forall. intros w Hw.
  apply list_elem_of_omap in Hw as (line & _ & Hl). now apply first_word_word in Hl.
Qed.

Lemma length_omap_le {A B} (f : A -> option B) l : (length (omap f l) <= length l)%nat.
Proof.
  induction l as [|x l IH]; [reflexivity|].
  change (omap f (x :: l)) with (match f x with Some y => y :: omap f l | None => omap f l end).
  destruct (f x); simpl; lia.
Qed.

Lemma parse_models_length out :
  (length (parse_models out) < length (split_on (ascii_of_nat 10) (strip out)))%nat.
Proof.
  unfold parse_models.
  pose proof (split_on_nonempty (ascii_of_nat 10) (strip out)) as Hne.
  destruct (split_on (ascii_of_nat 10) (strip out)) as [|l ls]; [congruence|].
  simpl drop. rewrite drop_0. simpl length.
  apply Nat.lt_succ_r. apply length_omap_le.
Qed.

(** *** Stripping and reversing *)

Lemma append_cons c (s t : string) : (String c s ++ t)%string = String c (s ++ t)%string.
Proof. reflexivity. Qed.

Lemma string_rev_onto_twice s acc acc' :
  string_rev_onto (string_rev_onto s acc) acc' = string_rev_onto acc (s ++ acc').
Proof.
  revert acc acc'. induction s as [|c s IH]; intros acc acc'; [reflexivity|].
  cbn [string_rev_onto]. now rewrite IH, append_cons.
Qed.

Lemma append_empty_r (s : string) : (s ++ "")%string = s.
Proof. induction s as [|c s IH]; [reflexivity|]. now rewrite append_cons, IH. Qed.

Lemma string_rev_involutive s : string_rev (string_rev s) = s.
Proof. unfold string_rev. rewrite string_rev_onto_twice. cbn. apply append_empty_r. Qed.

Lemma blank_free_rev_onto s acc :
  blank_free (string_rev_onto s acc) = blank_free s && blank_free acc.
Proof.
  revert acc. induction s as [|c s IH]; intros acc; [reflexivity|].
  cbn [string_rev_onto blank_free]. rewrite IH. cbn [blank_free].
  destruct (is_space c), (blank_free s); reflexivity.
Qed.

Lemma lstrip_blank_free w : blank_free w = true -> lstrip w = w.
Proof.
  destruct w as [|c w]; [reflexivity|]. cbn.
  destruct (is_space c); [discriminate | reflexivity].
Qed.

Lemma strip_blank_free w : blank_free w = true -> strip w = w.
Proof.
  intros H. unfold strip. rewrite (lstrip_blank_free w H).
  rewrite lstrip_blank_free; [apply string_rev_involutive|].
  unfold string_rev. rewrite blank_free_rev_onto, H. reflexivity.
Qed.

Lemma blank_free_app w w' : blank_free (w ++ w') = blank_free w && blank_free w'.
Proof.
  induction w as [|c w IH]; [reflexivity|]. rewrite append_cons. cbn [blank_free].
  rewrite IH. now destruct (is_space c).
Qed.

(** *** Splitting what was joined *)

Lemma split_on_free sep w : free_of sep w = true -> split_on sep w = [w].
Proof.
  induction w as [|c w IH]; [reflexivity|]. cbn.
  destruct (Ascii.eqb c sep); [discriminate|]. cbn. intros H. now rewrite (IH H).
Qed.

Lemma split_on_app sep w rest :
  free_of sep w = true ->
  split_on sep (w ++ String sep rest) = w :: split_on sep rest.
Proof.
  induction w as [|c w IH].
  - intros _. change ("" ++ String sep rest)%string with (String sep rest).
    cbn [split_on]. now rewrite Ascii.eqb_refl.
  - rewrite append_cons. cbn [free_of split_on].
    destruct (Ascii.eqb c sep); [discriminate|]. cbn. intros H. now rewrite (IH H).
Qed.

Lemma split_on_join sep w ws :
  Forall (fun x => free_of sep x = true) (w :: ws) ->
  split_on sep (join (String sep "") (w :: ws)) = w :: ws.
Proof.
  revert w. induction ws as [|w' ws IH]; intros w H.
  - cbn. apply split_on_free. now apply Forall_cons_1 in H as [H _].
  - apply Forall_cons_1 in H as [Hw H].
    change (join (String sep "") (w :: w' :: ws))
      with (w ++ String sep (join (String sep "") (w' :: ws)))%string.
    rewrite (split_on_app _ _ _ Hw). f_equal. now apply IH.
Qed.

(** *** Decimal numerals *)

Lemma is_digit_char d : is_digit (pretty_N_char d) = true.
Proof. unfold pretty_N_char. repeat case_match; reflexivity. Qed.

Lemma value_char d :
  (d < 10)%N -> (Z.of_nat (nat_of_ascii (pretty_N_char d)) - 48)%Z = Z.of_N d.
Proof.
  intros H.
  assert (Hd : (d = 0 \/ d = 1 \/ d = 2 \/ d = 3 \/ d = 4 \/ d = 5 \/ d = 6 \/ d = 7
                \/ d = 8 \/ d = 9)%N) by lia.
  destruct Hd as [->|[->|[->|[->|[->|[->|[->|[->|[->| ->]]]]]]]]]; reflexivity.
Qed.

Lemma all_digits_go x s : all_digits s = true -> all_digits (pretty_N_go x s) = true.
Proof.
  revert s. induction (N.lt_wf_0 x) as [x _ IH]; intros s Hs.
  destruct (decide (x = 0)%N) as [->|Hx]; [exact Hs|].
  rewrite pretty_N_go_step by lia.
  apply IH; [apply N.div_lt; lia|]. cbn [all_digits]. now rewrite is_digit_char.
Qed.

Lemma nonempty_go x s : s <> EmptyString -> pretty_N_go x s <> EmptyString.
Proof.
  revert s. induction (N.lt_wf_0 x) as [x _ IH]; intros s Hs.
  destruct (decide (x = 0)%N) as [->|Hx]; [exact Hs|].
  rewrite pretty_N_go_step by lia.
  apply IH; [apply N.div_lt; lia | discriminate].
Qed.

Lemma int_onto_go x s : int_onto 0 (pretty_N_go x s) = int_onto (Z.of_N x) s.
Proof.
  revert s. induction (N.lt_wf_0 x) as [x _ IH]; intros s.
  destruct (decide (x = 0)%N) as [->|Hx]; [reflexivity|].
  rewrite pretty_N_go_step by lia.
  rewrite IH by (apply N.div_lt; lia). cbn [int_onto].
  rewrite value_char by (apply N.mod_lt; lia). f_equal.
  rewrite N2Z.inj_div, N2Z.inj_mod. change (Z.of_N 10) with 10%Z.
  symmetry. apply Z.div_mod. discriminate.
Qed.

Lemma numeral_digits n :
  all_digits (numeral n) = true /\ numeral n <> EmptyString
  /\ int_digits (numeral n) = Z.of_nat n.
Proof.
  unfold numeral, pretty, pretty_nat, pretty, pretty_N, int_digits.
  destruct (decide (N.of_nat n = 0)%N) as [H0|Hn].
  - split; [reflexivity|]. split; [discriminate|].
    assert (n = 0%nat) as -> by lia. reflexivity.
  - split; [now apply all_digits_go|]. split.
    + rewrite pretty_N_go_step by lia. apply nonempty_go. discriminate.
    + rewrite int_onto_go. cbn [int_onto]. lia.
Qed.

Lemma digit_plain c :
  is_digit c = true ->
  is_space c = false /\ Ascii.eqb c "," = false /\ Ascii.eqb (lower_ascii c) "a" = false.
Proof.
  destruct c as [[] [] [] [] [] [] [] []]; try discriminate; intros _; repeat split.
Qed.

Lemma all_digits_plain w :
  all_digits w = true -> blank_free w = true /\ free_of "," w = true.
Proof.
  induction w as [|c w IH]; [now split|]. cbn.
  intros [Hc Hw]%andb_true_iff. destruct (digit_plain c Hc) as (-> & -> & _).
  cbn. now apply IH.
Qed.

Lemma isdigit_all_digits w : all_digits w = true -> w <> EmptyString -> isdigit w = true.
Proof. destruct w; [congruence | auto]. Qed.

(** *** [int] on a string of digits *)

Lemma all_digits_rev_onto s acc :
  all_digits (string_rev_onto s acc) = all_digits s && all_digits acc.
Proof.
  revert acc. induction s as [|c s IH]; intros acc; [reflexivity|].
  cbn [string_rev_onto all_digits]. rewrite IH. cbn [all_digits].
  destruct (is_digit c), (all_digits s), (all_digits acc); reflexivity.
Qed.

Lemma digit_not_cspace c : is_digit c = true -> is_cspace c = false.
Proof. destruct c as [[] [] [] [] [] [] [] []]; try discriminate; reflexivity. Qed.

Lemma lstrip_c_digits w : all_digits w = true -> lstrip_c w = w.
Proof.
  destruct w as [|c w]; [reflexivity|]. cbn [all_digits lstrip_c].
  intros [Hc _]%andb_true_iff. now rewrite (digit_not_cspace c Hc).
Qed.

Lemma strip_c_digits w : all_digits w = true -> strip_c w = w.
Proof.
  intros Hw. unfold strip_c. rewrite (lstrip_c_digits w Hw).
  rewrite lstrip_c_digits; [apply string_rev_involutive|].
  unfold string_rev. now rewrite all_digits_rev_onto, Hw.
Qed.

Lemma literal_digits_all b w :
  all_digits w = true -> w <> EmptyString \/ b = true -> literal_digits b w = Some w.
Proof.
  revert b. induction w as [|c w IH]; intros b Hw Hb.
  - destruct Hb as [Hb| ->]; [congruence | reflexivity].
  - cbn [all_digits] in Hw. apply andb_true_iff in Hw as [Hc Hw].
    cbn [literal_digits]. rewrite Hc, (IH true Hw) by now right. reflexivity.
Qed.

(** On a string of digits, [int] fails only for its length. *)
Lemma int_of_digits limit w :
  isdigit w = true ->
  int limit w
  = if negb (limit =? 0)%nat && (limit <? String.length w)%nat
    then Raise (Exn ValueError "Exceeds the limit for integer string conversion")
    else Ret (int_digits w).
Proof.
  intros Hw. destruct w as [|c w]; [discriminate|]. cbn [isdigit] in Hw.
  unfold int. rewrite (strip_c_digits _ Hw).
  assert (Hl : literal_digits false (String c w) = Some (String c w))
    by (apply literal_digits_all; [exact Hw | left; discriminate]).
  cbn [all_digits] in Hw. apply andb_true_iff in Hw as [Hc _].
  destruct c as [[] [] [] [] [] [] [] []]; try discriminate Hc;
    cbv beta iota; rewrite Hl; reflexivity.
Qed.

End StringFacts.

(** ** benchmark.py: the listing, one probe, the command line *)

Module BenchMore.
Import Bench PyFacts BenchFacts StringFacts Scenarios.

(** *** The installed models *)

Lemma get_installed_models_spec W s :
  exists l s',
    get_installed_models W s = (Ret l, s')
    /\ calls s' = S (calls s)
    /\ Forall word l
    /\ match subprocess_run (subprocess W (calls s) ["ollama"; "list"]) 30 true with
       | Ret r =>
           l = parse_models (proc_stdout r)
           /\ (length l < length (split_on (ascii_of_nat 10) (strip (proc_stdout r))))%nat
       | Raise _ => l = []
       end.
Proof.
  unfold get_installed_models, run_command. unmonad.
  unfold bind, try_, call, next_call, print_error, print, modify; simpl.
  destruct (subprocess_run (subprocess W (calls s) ["ollama"; "list"]) 30 true)
    as [r|e] eqn:Hr; simpl.
  - eexists _, _. split; [reflexivity|]. split; [reflexivity|].
    split; [apply parse_models_words|]. split; [reflexivity | apply parse_models_length].
  - destruct (is_TimeoutExpired e); simpl;
      [|destruct (is_CalledProcessError e); simpl];
      (eexists _, _; split; [reflexivity|]; split; [reflexivity|];
       split; [constructor | reflexivity]).
Qed.

(** X13 -- [get_installed_models] spawns one command and always returns
    a list, whatever the command does (an interrupt included): the empty
    list when the command fails, else the names parsed from its output.
    Every name is a non-empty word without blanks, and the header line
    never counts as a model. *)
Theorem installed_models_total W s :
  exists l s',
    get_installed_models W s = (Ret l, s')
    /\ calls s' = S (calls s)
    /\ Forall word l
    /\ match subprocess_run (subprocess W (calls s) ["ollama"; "list"]) 30 true with
       | Ret r =>
           l = parse_models (proc_stdout r)
           /\ (length l < length (split_on (ascii_of_nat 10) (strip (proc_stdout r))))%nat
       | Raise _ => l = []
       end.
Proof. apply get_installed_models_spec. Qed.

Lemma check_ollama_spec W s :
  exists b s',
    check_ollama W s = (Ret b, s')
    /\ calls s' = S (calls s)
    /\ (b = true <-> completes W (calls s) ["ollama"; "list"] 10)
    /\ (b = true -> stdout s' = stdout s)
    /\ (b = false ->
        exists l, stdout s'
                  = stdout s ++ l ++ [LogError "Ollama is not running or not accessible";
                                      LogInfo "Please start Ollama: ollama serve"]).
Proof.
  unfold check_ollama, run_command, completes, returns. unmonad.
  unfold bind, try_, call, next_call, print_error, print_status, print, modify; simpl.
  destruct (subprocess_run (subprocess W (calls s) ["ollama"; "list"]) 10 true)
    as [r|e] eqn:Hr; simpl.
  - eexists _, _. split; [reflexivity|]. split; [reflexivity|].
    split; [split; eauto|]. split; [reflexivity | discriminate].
  - destruct (is_TimeoutExpired e); simpl;
      [|destruct (is_CalledProcessError e); simpl];
      (eexists _, _; split; [reflexivity|]; split; [reflexivity|];
       split; [split; [discriminate | intros [a Ha]; discriminate]|];
       split; [discriminate | intros _]).
    + eexists [_]. now rewrite <- !app_assoc.
    + eexists [_]. now rewrite <- !app_assoc.
    + exists []. now rewrite <- !app_assoc.
Qed.

(** X14 -- [check_ollama] spawns one command and always returns a
    boolean, whatever the command does (an interrupt included): [True]
    exactly when [ollama list] ends within 10 seconds with return code 0,
    and then it prints nothing; otherwise its last two lines are the
    error and the hint to start the daemon. *)
Theorem check_ollama_total W s :
  exists b s',
    check_ollama W s = (Ret b, s')
    /\ calls s' = S (calls s)
    /\ (b = true <-> completes W (calls s) ["ollama"; "list"] 10)
    /\ (b = true -> stdout s' = stdout s)
    /\ (b = false ->
        exists l, stdout s'
                  = stdout s ++ l ++ [LogError "Ollama is not running or not accessible";
                                      LogInfo "Please start Ollama: ollama serve"]).
Proof. apply check_ollama_spec. Qed.

(** *** One probe *)

(** X15 -- When the inference command ends in time with a non-zero
    return code, the probe reports the failed command and returns a
    failure record whose error is the text of the exception and whose
    response time is the measured time as it is, not rounded. *)
Theorem failed_command_result W model_name test_prompt s d rc out :
  subprocess W (calls s) (probe_cmd model_name test_prompt) = Runs d rc out ->
  runs_longer_than d 120 = false ->
  rc <> 0%Z ->
  exists e,
    subprocess_run (subprocess W (calls s) (probe_cmd model_name test_prompt)) 120 true
    = Raise e
    /\ exn_class e = CalledProcessError
    /\ benchmark_model W model_name test_prompt s
       = (Ret {| model := model_name; success := false;
                 response_time := elapsed W (calls s);
                 tokens_generated := 0; tokens_per_second := 0; response_length := 0;
                 error := Some (exn_str e) |},
          State (S (calls s))
                (stdout s ++ [LogInfo ("Benchmarking " ++ model_name ++ "...");
                              LogError ("Command failed: ollama run " ++ model_name
                                        ++ " " ++ test_prompt)])).
Proof.
  intros Hp Hd Hrc. apply Z.eqb_neq in Hrc.
  unfold benchmark_model, run_command, probe_cmd in *. unmonad.
  unfold bind, try_, call, next_call, print_status, print_error, print, modify; simpl.
  rewrite Hp. unfold subprocess_run. rewrite Hd, Hrc. simpl.
  eexists. split; [reflexivity|]. split; [reflexivity|].
  now rewrite <- app_assoc.
Qed.

Lemma failed_command_result_witness :
  exists e,
    subprocess_run (subprocess world_two_models 3 (probe_cmd "phi3" "hello")) 120 true
    = Raise e
    /\ exn_class e = CalledProcessError
    /\ benchmark_model world_two_models "phi3" "hello" (State 3 [])
       = (Ret {| model := "phi3"; success := false;
                 response_time := elapsed world_two_models 3;
                 tokens_generated := 0; tokens_per_second := 0; response_length := 0;
                 error := Some (exn_str e) |},
          State 4 [LogInfo "Benchmarking phi3..."; LogError "Command failed: ollama run phi3 hello"]).
Proof.
  apply (failed_command_result world_two_models "phi3" "hello" (State 3 []) (Some 3%Q) 1 "");
    [reflexivity | reflexivity | discriminate].
Defined.

(** X16 -- When the inference command ends in time with return code 0,
    the probe returns a success record, computed on floats: the length
    is that of the stripped output, the tokens are 1.3 per word of it,
    rounded, and the throughput is tokens over time rounded to two
    decimals, or 0 when the clock did not advance; no division fails. *)
Theorem completed_command_result W model_name test_prompt s d out :
  subprocess W (calls s) (probe_cmd model_name test_prompt) = Runs d 0 out ->
  runs_longer_than d 120 = false ->
  let tokens := fmul (Qnat (length (split (strip out)))) (13 # 10) in
  let t := elapsed W (calls s) in
  exists r,
    (benchmark_model W model_name test_prompt s).1 = Ret r
    /\ success r = true
    /\ error r = None
    /\ response_time r = fround t 2
    /\ response_length r = String.length (strip out)
    /\ tokens_generated r = fround0 tokens
    /\ tokens_per_second r
       = if Qltb 0 (b64 t) then fround (b64 (b64 tokens / b64 t)) 2 else 0%Q.
Proof.
  intros Hp Hd tokens t. subst tokens t. rewrite length_split.
  unfold benchmark_model, run_command, probe_cmd in *. unmonad.
  unfold bind, try_, call, next_call, print_status, print_error, print, modify; simpl.
  rewrite Hp. unfold subprocess_run. rewrite Hd. simpl.
  destruct (Qltb 0 (b64 (elapsed W (calls s)))) eqn:Ht; simpl.
  - rewrite (fdiv_positive _ _ Ht). simpl. eexists. repeat split.
  - eexists. repeat split.
Qed.

Lemma completed_command_result_witness :
  exists r,
    (benchmark_model world_four_seconds "phi3" "hello" (State 2 [])).1 = Ret r
    /\ success r = true
    /\ error r = None
    /\ response_time r = 4%Q
    /\ response_length r = 5%nat
    /\ tokens_generated r = 1%Z
    /\ tokens_per_second r = (33 # 100)%Q.
Proof.
  apply (completed_command_result world_four_seconds "phi3" "hello" (State 2 [])
           (Some 4%Q) "hello"); reflexivity.
Defined.

(** One word in 4.0 seconds: the float 1.3 is above 13/10, so that the
    quotient is above 0.325 and rounds to 0.33; the exact quotient would
    round to 0.32.  On a clock that does not advance the throughput is
    0. *)
Example throughput_of_one_word :
  (exists r, probe world_four_seconds 0 "phi3" "hello" = Ret r
             /\ tokens_per_second r = (33 # 100)%Q)
  /\ round ((13 # 10) / 4) 2 == 32 # 100
  /\ (exists r, probe world_two_models 2 "phi3" "hello" = Ret r
                /\ tokens_per_second r = 0%Q).
Proof.
  split; [eexists; split; vm_compute; reflexivity|].
  split; [reflexivity|]. eexists; split; vm_compute; reflexivity.
Qed.

(** *** The keys of the results *)

#[export] Instance same_rows_preorder : PreOrder same_rows.
Proof.
  split; [now intros s|].
  intros s1 s2 s3 H1 H2. unfold same_rows in *. congruence.
Qed.

#[export] Instance same_calls_preorder : PreOrder same_calls.
Proof.
  split; [now intros s|].
  intros s1 s2 s3 H1 H2. unfold same_calls in *. congruence.
Qed.

Lemma world_two_models_quiet : world_quiet world_two_models.
Proof.
  intros n cmd e. unfold world_two_models. cbn [subprocess].
  destruct (bool_decide _); [discriminate|]. destruct (Nat.even n); discriminate.
Qed.

(** X17 -- The results of a comprehensive benchmark hold one entry per
    distinct model, in the order in which the models were first named: a
    model named twice is probed twice, and its later report replaces the
    earlier one under the same key, so that the entry of a model is the
    report of the last round run for it.  Five commands are spawned per
    model named, and then those of the system information if a report is
    saved. *)
Theorem results_have_one_entry_per_model W models output_file s :
  world_quiet W -> report_writable W output_file ->
  exists results s',
    run_comprehensive_benchmark W models output_file s = (Ret results, s')
    /\ calls s'
       = (calls s + 5 * length models
          + report_calls W models output_file (calls s + 5 * length models))%nat
    /\ keys results = first_occurrences [] models
    /\ NoDup (keys results)
    /\ (forall m, m ∈ keys results <-> m ∈ models)
    /\ (NoDup models -> keys results = models)
    /\ (forall j k, last_place models j k -> round_report W (calls s + 5 * j) k results).
Proof.
  intros HW Hw.
  destruct (run_comprehensive_benchmark_spec W models output_file s HW Hw)
    as (results & s' & Hr & Hc & Hk & Hlast).
  exists results, s'. split; [exact Hr|]. split; [exact Hc|]. split; [exact Hk|].
  rewrite Hk. destruct (first_occurrences_spec [] models) as [Hn Hm].
  split; [exact Hn|]. split; [|split; [|exact Hlast]].
  - intros m. rewrite Hm, elem_of_nil. tauto.
  - intros Hnd. apply first_occurrences_NoDup; [exact Hnd|].
    intros x _. apply not_elem_of_nil.
Qed.

Lemma results_have_one_entry_per_model_witness :
  exists results s',
    run_comprehensive_benchmark world_hanging ["phi3"; "llama3"; "phi3"] (Some "out")
      (State 0 [])
    = (Ret results, s')
    /\ calls s' = 16%nat
    /\ keys results = ["phi3"; "llama3"]
    /\ NoDup (keys results)
    /\ (forall m, m ∈ keys results <-> m ∈ ["phi3"; "llama3"; "phi3"])
    /\ (NoDup ["phi3"; "llama3"; "phi3"] -> keys results = ["phi3"; "llama3"; "phi3"])
    /\ (forall j k, last_place ["phi3"; "llama3"; "phi3"] j k ->
          round_report world_hanging (0 + 5 * j) k results).
Proof.
  apply (results_have_one_entry_per_model world_hanging ["phi3"; "llama3"; "phi3"]
           (Some "out") (State 0 [])).
  - exact BenchFacts.world_hanging_quiet.
  - split; now exists tt.
Defined.

(** The model named first and last is probed by the commands 0 to 4 and
    10 to 14; its entry is the report of the second of these rounds. *)
Example later_report_replaces_earlier :
  last_place ["phi3"; "llama3"; "phi3"] 2 "phi3"
  /\ ~ last_place ["phi3"; "llama3"; "phi3"] 0 "phi3".
Proof.
  split.
  - split; [reflexivity|]. intros [|[|[|j']]] Hlt; try lia; discriminate.
  - intros [_ H]. now apply (H 2%nat); [lia|].
Qed.

(** *** What is left alone *)

Lemma keeps_rows_print e : rows [e] = [] -> keeps same_rows (print e).
Proof.
  intros H s. unfold same_rows, print, modify, rows in *. cbn [snd stdout].
  now rewrite omap_app, H, app_nil_r.
Qed.

Lemma keeps_calls_print e : keeps same_calls (print e).
Proof. intros s. reflexivity. Qed.

Lemma keeps_rows_next_call : keeps same_rows next_call.
Proof. intros s. reflexivity. Qed.

Ltac bench_keeps_step :=
  lazymatch goal with
  | |- PreOrder _ => exact _
  | |- Forall _ [] => constructor
  | |- Forall _ (_ :: _) => constructor
  | |- forall _, _ => intros ?
  | |- keeps _ ((_, _).2 _) => cbn [snd]
  | |- keeps _ (let _ := _ in _) => cbv zeta
  | |- keeps _ (ret _) => apply keeps_ret
  | |- keeps _ (call _) => apply keeps_call
  | |- keeps _ (raise _) => apply keeps_raise
  | |- keeps _ (bind _ _) => apply keeps_bind
  | |- keeps _ (try_ _ _) => apply keeps_try
  | |- keeps _ (for_ _ _) => apply keeps_for
  | |- keeps same_rows next_call => apply keeps_rows_next_call
  | |- keeps same_rows (print _) => apply keeps_rows_print; reflexivity
  | |- keeps same_calls (print _) => apply keeps_calls_print
  | |- keeps _ (print_status _) => unfold print_status
  | |- keeps _ (print_success _) => unfold print_success
  | |- keeps _ (print_error _) => unfold print_error
  | |- keeps _ (match ?x with _ => _ end) => destruct x
  end.

Ltac bench_keeps := unmonad; repeat bench_keeps_step.

Lemma keeps_rows_benchmark_model W model_name test_prompt :
  keeps same_rows (benchmark_model W model_name test_prompt).
Proof. unfold benchmark_model, run_command. bench_keeps. Qed.

Lemma keeps_rows_run_tests W model_name prompts acc :
  keeps same_rows (run_tests W model_name prompts acc).
Proof.
  revert acc. induction prompts as [|p prompts IH]; intros acc; cbn [run_tests].
  - apply keeps_ret. exact _.
  - apply keeps_bind; [exact _ | | intros r; apply IH].
    pose proof (keeps_rows_benchmark_model W model_name p) as Hb.
    unmonad. apply keeps_bind; [exact _ | bench_keeps |]. intros _.
    apply keeps_bind; [exact _ | exact Hb |]. intros r.
    bench_keeps.
Qed.

Lemma keeps_rows_run_models W models results :
  keeps same_rows (run_models W models results).
Proof.
  revert results. induction models as [|m models IH]; intros results; cbn [run_models].
  - apply keeps_ret. exact _.
  - apply keeps_bind; [exact _ | | intros r; apply IH].
    pose proof (keeps_rows_run_tests W m get_test_prompts []) as Ht.
    unmonad. apply keeps_bind; [exact _ | bench_keeps |]. intros _.
    apply keeps_bind; [exact _ | bench_keeps |]. intros _.
    apply keeps_bind; [exact _ | exact Ht |]. intros rs.
    bench_keeps.
Qed.

Lemma keeps_rows_get_system_info W : keeps same_rows (get_system_info W).
Proof. unfold get_system_info, run_command. bench_keeps. Qed.

Lemma keeps_rows_run_comprehensive_benchmark W models output_file :
  keeps same_rows (run_comprehensive_benchmark W models output_file).
Proof.
  unfold run_comprehensive_benchmark. destruct models as [|m models]; [bench_keeps|].
  pose proof (keeps_rows_run_models W (m :: models) []) as Hm.
  unmonad. apply keeps_bind; [exact _ | bench_keeps |]. intros _.
  apply keeps_bind; [exact _ | bench_keeps |]. intros _.
  apply keeps_bind; [exact _ | exact Hm |]. intros rs.
  destruct output_file as [[|c f]|]; [bench_keeps | | bench_keeps].
  apply keeps_bind; [exact _ | bench_keeps |]. intros _.
  apply keeps_bind; [exact _ | apply keeps_rows_get_system_info |]. intros _.
  bench_keeps.
Qed.

Lemma keeps_rows_check_ollama W : keeps same_rows (check_ollama W).
Proof. unfold check_ollama, run_command. bench_keeps. Qed.

Lemma keeps_rows_get_installed_models W : keeps same_rows (get_installed_models W).
Proof. unfold get_installed_models, run_command. bench_keeps. Qed.

Lemma keeps_rows_models_to_benchmark W a typed :
  keeps same_rows (models_to_benchmark W a typed).
Proof.
  pose proof (keeps_rows_get_installed_models W) as Hg.
  unfold models_to_benchmark. destruct (arg_models a); [|bench_keeps].
  destruct (arg_all a); unmonad.
  - apply keeps_bind; [exact _ | exact Hg |]. bench_keeps.
  - apply keeps_bind; [exact _ | exact Hg |]. bench_keeps.
Qed.

Lemma keeps_rows_run_quick W models : keeps same_rows (run_quick W models).
Proof.
  unfold run_quick. unmonad. apply keeps_bind; [exact _ | bench_keeps |]. intros _.
  apply keeps_for; [exact _|]. intros m.
  apply keeps_bind; [exact _ | apply keeps_rows_benchmark_model |]. bench_keeps.
Qed.

(** *** The command line *)

Lemma rows_after_banner s : rows (stdout (after_banner s)) = rows (stdout s).
Proof. unfold after_banner, rows. cbn [stdout]. now rewrite !omap_app, !app_nil_r. Qed.

Lemma main_unfold W a typed s :
  main W a typed s
  = bind (check_ollama W) (fun ok =>
      if negb ok then ret 1%Z
      else bind (models_to_benchmark W a typed) (fun selection =>
        match selection with
        | None => ret 1%Z
        | Some models =>
            bind (if arg_quick a then run_quick W models
                  else bind (run_comprehensive_benchmark W models (arg_output a))
                            (fun results => print_results_summary results))
                 (fun _ => ret 0%Z)
        end)) (after_banner s).
Proof. unfold main. unmonad. rewrite !bind_print. reflexivity. Qed.

Lemma print_list_returns (l : list string) s :
  exists s', for_ l (fun model => print (Plain model)) s = (Ret tt, s')
             /\ calls s' = calls s.
Proof.
  revert s. induction l as [|m l IH]; intros s; cbn [for_].
  - exists s. split; reflexivity.
  - rewrite bind_print. destruct (IH (print (Plain m) s).2) as (s' & -> & Hc).
    exists s'. split; [reflexivity | exact Hc].
Qed.

Lemma installed_at_spec W s :
  exists s', get_installed_models W s = (Ret (installed_at W (calls s)), s')
             /\ calls s' = S (calls s).
Proof.
  destruct (get_installed_models_spec W s) as (l & s' & Hg & Hc & _ & Hl).
  exists s'. split; [|exact Hc]. rewrite Hg. unfold installed_at.
  destruct (subprocess_run _ _ _) as [r|e]; [destruct Hl as [-> _] | subst l]; reflexivity.
Qed.

Lemma prompt_spec W installed typed s :
  exists s',
    try_ (bind (call typed) (fun answer =>
            bind (call (chosen (int_max_str_digits W) installed answer)) (fun models =>
              match models with
              | [] => bind (print_error "No valid models selected") (fun _ => ret None)
              | _ :: _ => ret (Some models)
              end)))
         [(is_ValueError_or_KeyboardInterrupt,
           fun _ => bind (print_error "Invalid input") (fun _ => ret None))] s
    = (prompted (int_max_str_digits W) installed typed, s')
    /\ calls s' = calls s.
Proof.
  unfold prompted, try_, bind, call, print_error, print, modify.
  destruct typed as [answer|e]; simpl.
  - destruct (chosen (int_max_str_digits W) installed answer) as [[|c cs]|e]; simpl.
    + eexists. split; reflexivity.
    + eexists. split; reflexivity.
    + destruct (is_ValueError_or_KeyboardInterrupt e); simpl; eexists; split; reflexivity.
  - destruct (is_ValueError_or_KeyboardInterrupt e); simpl; eexists; split; reflexivity.
Qed.

Lemma models_to_benchmark_spec W a typed s :
  exists s',
    models_to_benchmark W a typed s
    = (selection W a (installed_at W (calls s)) typed, s')
    /\ calls s' = match arg_models a with [] => S (calls s) | _ :: _ => calls s end.
Proof.
  unfold models_to_benchmark, selection. destruct (arg_models a) as [|m ms].
  2: { exists s. split; reflexivity. }
  destruct (installed_at_spec W s) as (s1 & Hg & Hc). unmonad.
  destruct (arg_all a); rewrite (bind_eq _ _ _ _ _ Hg);
    destruct (installed_at W (calls s)) as [|i rest] eqn:Hi.
  - unfold print_error, print_status. rewrite !bind_print.
    eexists. split; [reflexivity | exact Hc].
  - exists s1. split; [reflexivity | exact Hc].
  - unfold print_error. rewrite !bind_print. eexists. split; [reflexivity | exact Hc].
  - unfold print_status. rewrite bind_print.
    destruct (print_list_returns (i :: rest) (print (LogInfo "Installed models:") s1).2)
      as (s2 & Hp & Hc2).
    rewrite (bind_eq _ _ _ _ _ Hp).
    destruct (prompt_spec W (i :: rest) typed s2) as (s3 & Hs3 & Hc3).
    exists s3. split; [exact Hs3|]. rewrite Hc3, Hc2. exact Hc.
Qed.

Lemma print_results_summary_spec results s :
  exists s',
    print_results_summary results s = (Ret tt, s')
    /\ calls s' = calls s
    /\ rows (stdout s') = rows (stdout s) ++ ranking results.
Proof.
  assert (Hk : keeps same_calls (print_results_summary results)).
  { unfold print_results_summary. bench_keeps. }
  specialize (Hk s). unfold same_calls in Hk.
  assert (Heq : exists s', print_results_summary results s = (Ret tt, s')
                /\ rows (stdout s') = rows (stdout s) ++ ranking results).
  { unfold print_results_summary, ranking. unmonad.
    destruct results as [|r results]; [exists s; cbn; now rewrite app_nil_r|].
    unfold bind; simpl.
    match goal with
    | |- context [for_ ?l _ ?s0] => destruct (print_rows l s0) as (s' & -> & Hr)
    end.
    eexists. split; [reflexivity|].
    simpl. rewrite rows_snoc, Hr. simpl. now rewrite !rows_snoc, !app_nil_r. }
  destruct Heq as (s' & Heq & Hr). rewrite Heq in Hk.
  exists s'. split; [exact Heq|]. split; [exact Hk | exact Hr].
Qed.

Lemma run_quick_returns W models s :
  world_quiet W ->
  exists s', run_quick W models s = (Ret tt, s')
             /\ calls s' = (calls s + length models)%nat.
Proof.
  intros HW. unfold run_quick. unmonad. unfold print_status at 1. rewrite bind_print.
  assert (H : forall s0, exists s',
             for_ models (fun model =>
               bind (benchmark_model W model quick_prompt) (fun result =>
                 if success result then print_success model
                 else print_error (model ++ ": Failed (" ++ default "None" (error result)
                                   ++ ")"))) s0 = (Ret tt, s')
             /\ calls s' = (calls s0 + length models)%nat).
  { induction models as [|m models IH]; intros s0; cbn [for_].
    - exists s0. split; [reflexivity | cbn; lia].
    - destruct (benchmark_model_returns W m quick_prompt s0 HW) as (r & s1 & Hb & Hc & _).
      unfold bind at 1. rewrite (bind_eq _ _ _ _ _ Hb).
      assert (Hp : exists s2,
                 (if success r then print_success m
                  else print_error (m ++ ": Failed (" ++ default "None" (error r) ++ ")")) s1
                 = (Ret tt, s2) /\ calls s2 = calls s1).
      { destruct (success r); eexists; split; reflexivity. }
      destruct Hp as (s2 & -> & Hc2).
      destruct (IH s2) as (s' & -> & Hc').
      exists s'. split; [reflexivity|]. rewrite Hc', Hc2, Hc. cbn [length]. lia. }
  destruct (H (print (LogInfo "Running quick benchmark...") s).2) as (s' & Hs' & Hc).
  exists s'. split; [exact Hs' | exact Hc].
Qed.

Lemma check_ollama_after_banner W s :
  exists b s1,
    check_ollama W (after_banner s) = (Ret b, s1)
    /\ calls s1 = S (calls s)
    /\ rows (stdout s1) = rows (stdout s)
    /\ (b = true <-> completes W (calls s) ["ollama"; "list"] 10).
Proof.
  destruct (check_ollama_spec W (after_banner s)) as (b & s1 & Hco & Hc & Hb & _).
  pose proof (keeps_rows_check_ollama W (after_banner s)) as Hr.
  unfold same_rows in Hr. rewrite Hco, rows_after_banner in Hr.
  exists b, s1. split; [exact Hco|]. split; [exact Hc|]. split; [exact Hr | exact Hb].
Qed.

Lemma selection_step W a typed s :
  exists s',
    models_to_benchmark W a typed s
    = (selection W a (installed_at W (calls s)) typed, s')
    /\ calls s' = match arg_models a with [] => S (calls s) | _ :: _ => calls s end
    /\ rows (stdout s') = rows (stdout s).
Proof.
  destruct (models_to_benchmark_spec W a typed s) as (s' & Hm & Hc).
  pose proof (keeps_rows_models_to_benchmark W a typed s) as Hr.
  unfold same_rows in Hr. rewrite Hm in Hr.
  exists s'. split; [exact Hm|]. split; [exact Hc | exact Hr].
Qed.

Lemma full_benchmark_step W models output_file s :
  world_quiet W -> report_writable W output_file ->
  exists s' ranked,
    bind (run_comprehensive_benchmark W models output_file)
         (fun results => print_results_summary results) s = (Ret tt, s')
    /\ calls s'
       = (calls s + 5 * length models
          + report_calls W models output_file (calls s + 5 * length models))%nat
    /\ rows (stdout s') = rows (stdout s) ++ ranked
    /\ ranked ≡ₚ first_occurrences [] models.
Proof.
  intros HW Hw.
  destruct (run_comprehensive_benchmark_spec W models output_file s HW Hw)
    as (results & s1 & Hr & Hc & Hk & _).
  pose proof (keeps_rows_run_comprehensive_benchmark W models output_file s) as Hrows.
  unfold same_rows in Hrows. rewrite Hr in Hrows.
  destruct (print_results_summary_spec results s1) as (s2 & Hp & Hc2 & Hr2).
  exists s2, (ranking results). rewrite (bind_eq _ _ _ _ _ Hr).
  split; [exact Hp|]. split; [rewrite Hc2; exact Hc|].
  split; [rewrite Hr2; cbn [snd] in Hrows; now rewrite Hrows|].
  rewrite <- Hk. unfold ranking, keys, sorted_models.
  apply fmap_Permutation, sorted_desc_perm.
Qed.

(** The benchmark when the report cannot be saved: the exception of
    [open], or that of the writing after the system information has been
    gathered, leaves it once all the inference commands have run. *)
Lemma failed_save_step W m ms c f s e :
  world_quiet W ->
  open_report W = Raise e \/ (returns (open_report W) /\ dump_report W = Raise e) ->
  exists s',
    run_comprehensive_benchmark W (m :: ms) (Some (String c f)) s = (Raise e, s')
    /\ calls s'
       = (calls s + 5 * length (m :: ms)
          + report_calls W (m :: ms) (Some (String c f))
              (calls s + 5 * length (m :: ms)))%nat.
Proof.
  intros HW He. unfold run_comprehensive_benchmark, report_calls. unmonad.
  unfold print_status. rewrite !bind_print.
  match goal with
  | |- context [bind (run_models W ?ms0 ?r0) _ ?s0] =>
      destruct (run_models_spec W ms0 HW r0 s0) as (results & s1 & Hrm & Hc & _)
  end.
  rewrite (bind_eq _ _ _ _ _ Hrm). cbn [snd print modify calls] in Hc.
  destruct He as [Ho|[[[] Ho] Hd]]; rewrite Ho.
  - exists s1. split; [reflexivity | lia].
  - rewrite (bind_eq (call (Ret tt)) _ s1 tt s1) by reflexivity.
    destruct (get_system_info_spec W s1) as (s2 & Hg & Hc2 & _).
    rewrite (bind_eq _ _ _ _ _ Hg).
    exists s2. split; [unfold bind, call; now rewrite Hd|].
    rewrite Hc2, Hc. reflexivity.
Qed.

(** X18 -- When the first [ollama list] does not end in time with return
    code 0, [main] leaves with exit status 1 after that one command:
    nothing is listed, probed or displayed, whatever the arguments. *)
Theorem main_without_ollama W a typed s :
  ~ completes W (calls s) ["ollama"; "list"] 10 ->
  exists s',
    main W a typed s = (Ret 1%Z, s')
    /\ calls s' = S (calls s)
    /\ rows (stdout s') = rows (stdout s).
Proof.
  intros Hn. rewrite main_unfold.
  destruct (check_ollama_after_banner W s) as (b & s1 & Hco & Hc & Hr & Hb).
  rewrite (bind_eq _ _ _ _ _ Hco).
  destruct b; [exfalso; apply Hn, Hb; reflexivity|].
  exists s1. split; [reflexivity|]. split; [exact Hc | exact Hr].
Qed.

Lemma main_without_ollama_witness :
  exists s',
    main world_no_ollama
         {| arg_models := ["phi3"]; arg_all := false; arg_output := None; arg_quick := false |}
         (Ret "") (State 0 [])
    = (Ret 1%Z, s')
    /\ calls s' = 1%nat
    /\ rows (stdout s') = [].
Proof.
  apply (main_without_ollama world_no_ollama
           {| arg_models := ["phi3"]; arg_all := false; arg_output := None;
              arg_quick := false |} (Ret "") (State 0 [])).
  intros [r Hr]. discriminate.
Defined.

(** X19 -- As long as no probe is interrupted, what is typed at the
    prompt, if anything, is ASCII text, and the report, if one is asked
    for, can be written, [main] ends with exit status 0 or 1: 0 exactly
    when the first [ollama list] succeeds and there are models to go on
    with (those named, or those installed, or those chosen at the
    prompt).  At the prompt a [ValueError] of [int] and an interrupt are
    reported as invalid input, with status 1; any other exception of
    [input] (the end of the input, say) leaves [main], and it is the only
    exception that does. *)
Theorem main_exit_status W a typed s :
  world_quiet W ->
  (arg_quick a = false -> report_writable W (arg_output a)) ->
  ascii_line typed ->
  let sel := selection W a (installed_at W (S (calls s))) typed in
  exists r s',
    main W a typed s = (r, s')
    /\ (exit_status r = 0%Z <->
        completes W (calls s) ["ollama"; "list"] 10
        /\ exists models, sel = Ret (Some models))
    /\ (exit_status r = 0%Z \/ exit_status r = 1%Z)
    /\ (forall e, r = Raise e <->
          completes W (calls s) ["ollama"; "list"] 10 /\ sel = Raise e)
    /\ (forall e, sel = Raise e -> is_ValueError_or_KeyboardInterrupt e = false).
Proof.
  intros HW Hw _ sel.
  assert (Hsel : forall e, sel = Raise e -> is_ValueError_or_KeyboardInterrupt e = false).
  { subst sel. unfold selection, prompted. intros e.
    destruct (arg_models a); [|discriminate].
    destruct (arg_all a); [discriminate|].
    destruct (installed_at W (S (calls s))); [discriminate|].
    destruct typed as [answer|e0];
      [destruct (chosen _ _ answer) as [cl|e1]; [discriminate|];
       destruct (is_ValueError_or_KeyboardInterrupt e1) eqn:He1; [discriminate|]
      |destruct (is_ValueError_or_KeyboardInterrupt e0) eqn:He0; [discriminate|]];
      now intros [= <-]. }
  rewrite main_unfold.
  destruct (check_ollama_after_banner W s) as (b & s1 & Hco & Hc & _ & Hb).
  rewrite (bind_eq _ _ _ _ _ Hco). destruct b; cbn [negb].
  2: { exists (Ret 1%Z), s1. split; [reflexivity|].
       split; [split; [discriminate | intros [H _]; apply Hb in H; discriminate]|].
       split; [now right|]. split; [|exact Hsel].
       intros e. split; [discriminate | intros [H _]; apply Hb in H; discriminate]. }
  assert (Hok : completes W (calls s) ["ollama"; "list"] 10) by now apply Hb.
  destruct (selection_step W a typed s1) as (s2 & Hm & _).
  rewrite Hc in Hm. fold sel in Hm.
  destruct sel as [[models|]|e] eqn:Hs.
  - rewrite (bind_eq _ _ _ _ _ Hm).
    assert (Hrun : exists s3,
               (if arg_quick a then run_quick W models
                else bind (run_comprehensive_benchmark W models (arg_output a))
                          (fun results => print_results_summary results)) s2
               = (Ret tt, s3)).
    { destruct (arg_quick a).
      - destruct (run_quick_returns W models s2 HW) as (s3 & Hq & _). eauto.
      - destruct (full_benchmark_step W models (arg_output a) s2 HW (Hw eq_refl))
          as (s3 & ranked & Hf & _). eauto. }
    destruct Hrun as (s3 & Hrun). rewrite (bind_eq _ _ _ _ _ Hrun).
    exists (Ret 0%Z), s3. split; [reflexivity|].
    split; [split; [intros _; split; [exact Hok | now exists models] | reflexivity]|].
    split; [now left|]. split; [|exact Hsel].
    intros e. split; [discriminate | intros [_ H]; discriminate].
  - rewrite (bind_eq _ _ _ _ _ Hm).
    exists (Ret 1%Z), s2. split; [reflexivity|].
    split; [split; [discriminate | intros [_ [models H]]; discriminate]|].
    split; [now right|]. split; [|exact Hsel].
    intros e. split; [discriminate | intros [_ H]; discriminate].
  - exists (Raise e), s2. split; [unfold bind at 1; now rewrite Hm|].
    pose proof (Hsel e eq_refl) as He.
    assert (Hst : exit_status (Raise e) = 1%Z).
    { unfold is_ValueError_or_KeyboardInterrupt in He. cbn [exit_status].
      now destruct (exn_class e). }
    split; [split; [rewrite Hst; discriminate | intros [_ [models H]]; discriminate]|].
    split; [now right|]. split; [|exact Hsel].
    intros e'. split; [intros [= <-]; now split | intros [_ [= <-]]; reflexivity].
Qed.

Lemma main_exit_status_witness :
  exists r s',
    main world_two_models
         {| arg_models := []; arg_all := false; arg_output := Some "out"; arg_quick := true |}
         (Ret "2, 1") (State 0 [])
    = (r, s')
    /\ (exit_status r = 0%Z <->
        completes world_two_models 0 ["ollama"; "list"] 10
        /\ exists models,
             selection world_two_models
               {| arg_models := []; arg_all := false; arg_output := Some "out";
                  arg_quick := true |}
               (installed_at world_two_models 1) (Ret "2, 1") = Ret (Some models))
    /\ (exit_status r = 0%Z \/ exit_status r = 1%Z)
    /\ (forall e, r = Raise e <->
          completes world_two_models 0 ["ollama"; "list"] 10
          /\ selection world_two_models
               {| arg_models := []; arg_all := false; arg_output := Some "out";
                  arg_quick := true |}
               (installed_at world_two_models 1) (Ret "2, 1") = Raise e)
    /\ (forall e,
          selection world_two_models
            {| arg_models := []; arg_all := false; arg_output := Some "out";
               arg_quick := true |}
            (installed_at world_two_models 1) (Ret "2, 1") = Raise e ->
          is_ValueError_or_KeyboardInterrupt e = false).
Proof.
  apply (main_exit_status world_two_models
           {| arg_models := []; arg_all := false; arg_output := Some "out";
              arg_quick := true |} (Ret "2, 1") (State 0 [])).
  - exact world_two_models_quiet.
  - discriminate.
  - intros line [= <-]. reflexivity.
Defined.

(** What happens at the prompt of a machine with two models: numbers
    choose models; a field that [int] refuses for its length, and an
    interrupt, end the run with status 1; the end of the input leaves
    [main] with its exception. *)
Example prompt_outcomes :
  let a := {| arg_models := []; arg_all := false; arg_output := None; arg_quick := true |} in
  let run typed := (main world_two_models a typed (State 0 [])).1 in
  run (Ret "2, 1") = Ret 0%Z
  /\ run (Ret "7") = Ret 1%Z
  /\ run (Ret ("1," ++ string_times "0" 4300 ++ "2")%string) = Ret 1%Z
  /\ run (Raise (Exn KeyboardInterrupt "")) = Ret 1%Z
  /\ run (Raise (Exn EOFError "EOF when reading a line"))
     = Raise (Exn EOFError "EOF when reading a line").
Proof. repeat split; vm_compute; reflexivity. Qed.

(** X20 -- With [--models], the names are taken as given: [main] runs
    [ollama list] once, for the check only, then five inference commands
    per name, then the commands of the system information if a report is
    saved; it displays one row per distinct name and ends with exit
    status 0. *)
Theorem main_with_named_models W a typed s :
  world_quiet W -> report_writable W (arg_output a) ->
  completes W (calls s) ["ollama"; "list"] 10 ->
  arg_models a <> [] -> arg_quick a = false ->
  exists s' ranked,
    main W a typed s = (Ret 0%Z, s')
    /\ calls s'
       = (calls s + 1 + 5 * length (arg_models a)
          + report_calls W (arg_models a) (arg_output a)
              (calls s + 1 + 5 * length (arg_models a)))%nat
    /\ rows (stdout s') = rows (stdout s) ++ ranked
    /\ ranked ≡ₚ first_occurrences [] (arg_models a).
Proof.
  intros HW Hw Hok Hm Hq. rewrite main_unfold.
  destruct (check_ollama_after_banner W s) as (b & s1 & Hco & Hc & Hr & Hb).
  rewrite (bind_eq _ _ _ _ _ Hco). apply Hb in Hok. subst b. cbn [negb].
  destruct (selection_step W a typed s1) as (s2 & Hs & Hc2 & Hr2).
  unfold selection in Hs.
  destruct (arg_models a) as [|m ms] eqn:Ha; [congruence|].
  rewrite (bind_eq _ _ _ _ _ Hs). rewrite Hq.
  destruct (full_benchmark_step W (m :: ms) (arg_output a) s2 HW Hw)
    as (s3 & ranked & Hf & Hc3 & Hr3 & Hp).
  rewrite (bind_eq _ _ _ _ _ Hf).
  exists s3, ranked. split; [reflexivity|]. split; [|split; [|exact Hp]].
  - rewrite Hc3, Hc2, Hc. replace (S (calls s)) with (calls s + 1)%nat by lia. reflexivity.
  - now rewrite Hr3, Hr2, Hr.
Qed.

Lemma world_slow_models_quiet : world_quiet world_slow_models.
Proof.
  intros n cmd e. unfold world_slow_models. cbn [subprocess].
  destruct (bool_decide _); discriminate.
Qed.

Lemma main_with_named_models_witness :
  exists s' ranked,
    main world_slow_models
         {| arg_models := ["phi3"; "phi3"]; arg_all := true; arg_output := Some "out";
            arg_quick := false |} (Ret "") (State 0 [])
    = (Ret 0%Z, s')
    /\ calls s' = 12%nat
    /\ rows (stdout s') = ranked
    /\ ranked ≡ₚ ["phi3"].
Proof.
  apply (main_with_named_models world_slow_models
           {| arg_models := ["phi3"; "phi3"]; arg_all := true; arg_output := Some "out";
              arg_quick := false |} (Ret "") (State 0 [])).
  - exact world_slow_models_quiet.
  - split; now exists tt.
  - eexists. reflexivity.
  - discriminate.
  - reflexivity.
Defined.

(** X21 -- The quick benchmark runs one inference command per model and
    ends with exit status 0; it displays no table and never writes a
    report, so [--output] is ignored and a report that could not be
    written does no harm. *)
Theorem quick_mode_writes_nothing W a typed s :
  world_quiet W ->
  completes W (calls s) ["ollama"; "list"] 10 ->
  arg_models a <> [] -> arg_quick a = true ->
  exists s',
    main W a typed s = (Ret 0%Z, s')
    /\ calls s' = (calls s + 1 + length (arg_models a))%nat
    /\ rows (stdout s') = rows (stdout s).
Proof.
  intros HW Hok Hm Hq. rewrite main_unfold.
  destruct (check_ollama_after_banner W s) as (b & s1 & Hco & Hc & Hr & Hb).
  rewrite (bind_eq _ _ _ _ _ Hco). apply Hb in Hok. subst b. cbn [negb].
  destruct (selection_step W a typed s1) as (s2 & Hs & Hc2 & Hr2).
  unfold selection in Hs.
  destruct (arg_models a) as [|m ms] eqn:Ha; [congruence|].
  rewrite (bind_eq _ _ _ _ _ Hs). rewrite Hq.
  destruct (run_quick_returns W (m :: ms) s2 HW) as (s3 & Hf & Hc3).
  pose proof (keeps_rows_run_quick W (m :: ms) s2) as Hr3.
  unfold same_rows in Hr3. rewrite Hf in Hr3. cbn [snd] in Hr3.
  rewrite (bind_eq _ _ _ _ _ Hf).
  exists s3. split; [reflexivity|]. split.
  - rewrite Hc3, Hc2, Hc. lia.
  - now rewrite Hr3, Hr2, Hr.
Qed.

Lemma quick_mode_writes_nothing_witness :
  exists s',
    main world_two_models
         {| arg_models := ["phi3"; "llama3:8b"]; arg_all := false; arg_output := Some "out";
            arg_quick := true |} (Ret "") (State 0 [])
    = (Ret 0%Z, s')
    /\ calls s' = 3%nat
    /\ rows (stdout s') = [].
Proof.
  apply (quick_mode_writes_nothing world_two_models
           {| arg_models := ["phi3"; "llama3:8b"]; arg_all := false;
              arg_output := Some "out"; arg_quick := true |} (Ret "") (State 0 [])).
  - exact world_two_models_quiet.
  - eexists. reflexivity.
  - discriminate.
  - reflexivity.
Defined.

(** X22 -- When the report cannot be saved, because the file cannot be
    opened or because writing it fails once it is open, the
    comprehensive benchmark fails after all its inference commands have
    run, and in the second case after the commands of the system
    information too: the exception leaves [main] and the table of
    results is never displayed. *)
Theorem write_failure_loses_table W a typed s e :
  world_quiet W ->
  open_report W = Raise e \/ (returns (open_report W) /\ dump_report W = Raise e) ->
  completes W (calls s) ["ollama"; "list"] 10 ->
  arg_models a <> [] -> arg_quick a = false ->
  (exists c f, arg_output a = Some (String c f)) ->
  exists s',
    main W a typed s = (Raise e, s')
    /\ calls s'
       = (calls s + 1 + 5 * length (arg_models a)
          + match open_report W with
            | Ret _ => system_info_calls W (calls s + 1 + 5 * length (arg_models a))
            | Raise _ => 0
            end)%nat
    /\ rows (stdout s') = rows (stdout s).
Proof.
  intros HW Hw Hok Hm Hq (c & f & Ho). rewrite main_unfold.
  destruct (check_ollama_after_banner W s) as (b & s1 & Hco & Hc & Hr & Hb).
  rewrite (bind_eq _ _ _ _ _ Hco). apply Hb in Hok. subst b. cbn [negb].
  destruct (selection_step W a typed s1) as (s2 & Hs & Hc2 & Hr2).
  unfold selection in Hs.
  destruct (arg_models a) as [|m ms] eqn:Ha; [congruence|].
  rewrite (bind_eq _ _ _ _ _ Hs). rewrite Hq, Ho.
  pose proof (keeps_rows_run_comprehensive_benchmark W (m :: ms) (Some (String c f)) s2)
    as Hr3. unfold same_rows in Hr3.
  destruct (failed_save_step W m ms c f s2 e HW Hw) as (s3 & Hrun & Hc3).
  rewrite Hrun in Hr3. cbn [snd] in Hr3.
  exists s3. split; [|split].
  - unfold bind at 1 2. now rewrite Hrun.
  - rewrite Hc3, Hc2, Hc. unfold report_calls.
    replace (S (calls s)) with (calls s + 1)%nat by lia. reflexivity.
  - now rewrite Hr3, Hr2, Hr.
Qed.

Lemma write_failure_loses_table_witness :
  exists s',
    main world_two_models
         {| arg_models := ["phi3"]; arg_all := false; arg_output := Some "out";
            arg_quick := false |} (Ret "") (State 0 [])
    = (Raise (Exn OtherException "No space left on device"), s')
    /\ calls s' = 7%nat
    /\ rows (stdout s') = [].
Proof.
  apply (write_failure_loses_table world_two_models
           {| arg_models := ["phi3"]; arg_all := false; arg_output := Some "out";
              arg_quick := false |} (Ret "") (State 0 [])
           (Exn OtherException "No space left on device")).
  - exact world_two_models_quiet.
  - right. split; [now exists tt | reflexivity].
  - eexists. reflexivity.
  - discriminate.
  - reflexivity.
  - eexists _, _. reflexivity.
Defined.

(** *** The choice at the prompt *)

Lemma pick_installed {A} (installed : list A) idx :
  Forall (fun m => m ∈ installed) (pick installed idx)
  /\ (length (pick installed idx) <= length idx)%nat.
Proof.
  unfold pick. split; [|apply length_omap_le].
  apply Forall_forall. intros m Hm.
  apply list_elem_of_omap in Hm as (i & _ & Hi).
  destruct (_ && _); [|discriminate]. now apply list_elem_of_lookup_2 in Hi.
Qed.

(** What [int] makes of the fields that passed [isdigit]. *)
Lemma ints_digits limit fields :
  Forall (fun x => isdigit (strip x) = true) fields ->
  match ints limit fields with
  | Ret l => l = (fun x => int_digits (strip x) - 1)%Z <$> fields
  | Raise e =>
      exn_class e = ValueError /\ limit <> 0%nat
      /\ Exists (fun x => (limit < String.length (strip x))%nat) fields
  end.
Proof.
  induction 1 as [|x fields Hx _ IH]; [reflexivity|].
  cbn [ints]. rewrite (int_of_digits limit _ Hx).
  destruct (Nat.eqb_spec limit 0) as [H0|H0]; cbn [negb andb].
  - destruct (ints limit fields) as [l|e]; [now subst l|]. now destruct IH as (_ & ? & _).
  - destruct (Nat.ltb_spec limit (String.length (strip x))) as [Hlt|Hge].
    + split; [reflexivity|]. split; [exact H0|]. now apply Exists_cons_hd.
    + destruct (ints limit fields) as [l|e]; [now subst l|].
      destruct IH as (He & _ & Hex). split; [exact He|]. split; [exact H0|].
      now apply Exists_cons_tl.
Qed.

Lemma indices_spec limit choice :
  match indices limit choice with
  | Ret l => (length l <= length (split_on "," choice))%nat
  | Raise e =>
      exn_class e = ValueError /\ limit <> 0%nat
      /\ exists x, x ∈ split_on "," choice /\ isdigit (strip x) = true
                   /\ (limit < String.length (strip x))%nat
  end.
Proof.
  unfold indices.
  pose proof (ints_digits limit
                (filter (fun x => isdigit (strip x) = true) (split_on "," choice))) as H.
  destruct (ints limit _) as [l|e].
  - rewrite H by (apply Forall_forall; intros x Hx; now apply list_elem_of_filter in Hx).
    rewrite length_fmap. apply length_filter.
  - destruct H as (He & Hl & Hex).
    { apply Forall_forall. intros x Hx. now apply list_elem_of_filter in Hx. }
    split; [exact He|]. split; [exact Hl|].
    apply Exists_exists in Hex as (x & Hx & Hlt).
    apply list_elem_of_filter in Hx as [Hd Hx]. now exists x.
Qed.

(** X23 -- Whatever ASCII text is typed at the prompt, either [int]
    refuses one of the fields of digits for its length (a [ValueError],
    which needs a limit on the digits and a field beyond it), or the
    models chosen are among the installed ones (a number out of range, 0
    included, selects nothing and raises nothing), and there are at most
    as many as there are installed models or comma-separated fields. *)
Theorem chosen_are_installed (limit : nat) (installed : list string) (answer : string) :
  is_ascii answer = true ->
  match chosen limit installed answer with
  | Ret l =>
      Forall (fun m => m ∈ installed) l
      /\ (length l <= max (length installed) (length (split_on "," (strip answer))))%nat
  | Raise e =>
      exn_class e = ValueError /\ limit <> 0%nat
      /\ exists x, x ∈ split_on "," (strip answer) /\ isdigit (strip x) = true
                   /\ (limit < String.length (strip x))%nat
  end.
Proof.
  intros _. unfold chosen. destruct (String.eqb _ _).
  - split; [now apply Forall_forall | lia].
  - pose proof (indices_spec limit (strip answer)) as Hi.
    destruct (indices limit (strip answer)) as [idx|e]; [|exact Hi].
    destruct (pick_installed installed idx) as [Hf Hl].
    split; [exact Hf | lia].
Qed.

Lemma chosen_are_installed_witness :
  match chosen 4300 ["a"; "b"; "c"] " 1, 3,x,0,9,,1 " with
  | Ret l =>
      Forall (fun m => m ∈ ["a"; "b"; "c"]) l
      /\ (length l
          <= max (length ["a"; "b"; "c"])
                 (length (split_on "," (strip " 1, 3,x,0,9,,1 "))))%nat
  | Raise e =>
      exn_class e = ValueError /\ 4300%nat <> 0%nat
      /\ exists x, x ∈ split_on "," (strip " 1, 3,x,0,9,,1 ") /\ isdigit (strip x) = true
                   /\ (4300 < String.length (strip x))%nat
  end.
Proof. apply (chosen_are_installed 4300 ["a"; "b"; "c"] " 1, 3,x,0,9,,1 "). reflexivity. Defined.

Example chosen_examples :
  chosen 4300 ["a"; "b"; "c"] " 1, 3,x,0,9,,1 " = Ret ["a"; "c"; "a"]
  /\ chosen 4300 ["a"; "b"; "c"] " All " = Ret ["a"; "b"; "c"]
  /\ chosen 4300 ["a"; "b"; "c"] "" = Ret []
  /\ chosen 4300 ["a"; "b"; "c"] "-1" = Ret []
  /\ chosen 4300 ["a"; "b"; "c"] "1 2" = Ret []
  /\ chosen 4 ["a"; "b"; "c"] "1,00002"
     = Raise (Exn ValueError "Exceeds the limit for integer string conversion")
  /\ chosen 0 ["a"; "b"; "c"] "1,00002" = Ret ["a"; "b"]
  /\ chosen 4300 ["a"; "b"; "c"] (string_times "0" 4300 ++ "1")
     = Raise (Exn ValueError "Exceeds the limit for integer string conversion").
Proof. repeat split; vm_compute; reflexivity. Qed.

Lemma omap_cons {A B} (f : A -> option B) x l :
  omap f (x :: l) = match f x with Some y => y :: omap f l | None => omap f l end.
Proof. reflexivity. Qed.

Lemma pick_positions {A} (installed : list A) ks :
  pick installed ((fun k => Z.of_nat k - 1)%Z <$> ks) = at_positions installed ks.
Proof.
  unfold pick, at_positions. induction ks as [|k ks IH]; [reflexivity|].
  rewrite fmap_cons, !omap_cons, IH. destruct k as [|j].
  - reflexivity.
  - replace (Z.of_nat (S j) - 1)%Z with (Z.of_nat j) by lia.
    rewrite Nat2Z.id.
    destruct (Z.leb_spec 0 (Z.of_nat j)) as [_|Hneg]; [|lia]. cbn [andb].
    destruct (Z.ltb_spec (Z.of_nat j) (Z.of_nat (length installed))) as [Hlt|Hge];
      [reflexivity|].
    rewrite (lookup_ge_None_2 installed j) by lia. reflexivity.
Qed.

Lemma numerals_plain ks :
  Forall (fun w => all_digits w = true /\ w <> EmptyString) (numeral <$> ks).
Proof.
  apply Forall_fmap, Forall_forall. intros k _. cbn.
  destruct (numeral_digits k) as (H1 & H2 & _). now split.
Qed.

Lemma join_blank_free ws :
  Forall (fun w => blank_free w = true) ws -> blank_free (join "," ws) = true.
Proof.
  induction 1 as [|w ws Hw Hws IH]; [reflexivity|].
  destruct ws as [|w' ws]; [exact Hw|].
  change (join "," (w :: w' :: ws)) with (w ++ String "," (join "," (w' :: ws)))%string.
  rewrite blank_free_app, Hw. cbn [blank_free andb]. exact IH.
Qed.

Lemma ints_numerals limit ks :
  limit = 0%nat \/ Forall (fun k => (String.length (numeral k) <= limit)%nat) ks ->
  ints limit (numeral <$> ks) = Ret ((fun k => Z.of_nat k - 1)%Z <$> ks).
Proof.
  intros Hl. induction ks as [|k ks IH]; [reflexivity|].
  destruct (numeral_digits k) as (Hd & Hn & Hi).
  destruct (all_digits_plain _ Hd) as [Hb _].
  rewrite !fmap_cons. cbn [ints]. rewrite (strip_blank_free _ Hb).
  rewrite (int_of_digits limit _ (isdigit_all_digits _ Hd Hn)).
  assert (Hk : negb (limit =? 0)%nat && (limit <? String.length (numeral k))%nat = false).
  { destruct Hl as [->|Hl]; [reflexivity|]. apply Forall_cons in Hl as [Hk _].
    apply andb_false_iff. right. now apply Nat.ltb_ge. }
  rewrite Hk, IH, Hi; [reflexivity|].
  destruct Hl as [->|Hl]; [now left | right]. now apply Forall_cons in Hl as [_ Hl].
Qed.

Lemma filter_numerals (ks : list nat) :
  filter (fun x => isdigit (strip x) = true) (numeral <$> ks) = numeral <$> ks.
Proof.
  induction ks as [|k ks IH]; [reflexivity|].
  destruct (numeral_digits k) as (Hd & Hn & _).
  destruct (all_digits_plain _ Hd) as [Hb _].
  rewrite !fmap_cons, filter_cons. cbn beta. rewrite (strip_blank_free _ Hb).
  rewrite (isdigit_all_digits _ Hd Hn).
  rewrite decide_True by reflexivity. now rewrite IH.
Qed.

Lemma indices_numerals limit ks :
  limit = 0%nat \/ Forall (fun k => (String.length (numeral k) <= limit)%nat) ks ->
  indices limit (join "," (numeral <$> ks)) = Ret ((fun k => Z.of_nat k - 1)%Z <$> ks).
Proof.
  intros Hl. unfold indices. destruct ks as [|k ks]; [reflexivity|].
  rewrite fmap_cons, (split_on_join "," (numeral k) (numeral <$> ks)).
  2: { rewrite <- fmap_cons.
       eapply Forall_impl; [apply numerals_plain|]. cbn. intros w [Hw _].
       now apply all_digits_plain in Hw as [_ Hw]. }
  rewrite <- fmap_cons, filter_numerals. now apply ints_numerals.
Qed.

Lemma numerals_not_all ks : String.eqb (lower (join "," (numeral <$> ks))) "all" = false.
Proof.
  destruct ks as [|k ks]; [reflexivity|]. rewrite fmap_cons.
  destruct (numeral_digits k) as (Hd & Hn & _).
  destruct (numeral k) as [|c r]; [congruence|].
  cbn [all_digits] in Hd. apply andb_true_iff in Hd as [Hc _].
  destruct (digit_plain c Hc) as (_ & _ & Ha).
  assert (Hj : exists r', join "," (String c r :: (numeral <$> ks)) = String c r').
  { destruct (numeral <$> ks) as [|w ws]; [now exists r|].
    eexists. change (join "," (String c r :: w :: ws))
      with (String c r ++ String "," (join "," (w :: ws)))%string.
    now rewrite append_cons. }
  destruct Hj as [r' ->]. cbn [lower String.eqb]. now rewrite Ha.
Qed.

(** X24 -- Typing the numbers k1, ..., kn separated by commas, each of
    no more digits than [int] accepts, chooses the models at these
    positions of the displayed list, in the order typed and with
    repetitions; a number that is 0 or beyond the end of the list is
    skipped. *)
Theorem chosen_by_numbers (limit : nat) (installed : list string) (ks : list nat) :
  limit = 0%nat \/ Forall (fun k => (String.length (numeral k) <= limit)%nat) ks ->
  chosen limit installed (join "," (numeral <$> ks)) = Ret (at_positions installed ks).
Proof.
  intros Hl. unfold chosen.
  assert (Hb : blank_free (join "," (numeral <$> ks)) = true).
  { apply join_blank_free. eapply Forall_impl; [apply numerals_plain|].
    cbn. intros w [Hw _]. now apply all_digits_plain in Hw as [Hw _]. }
  rewrite (strip_blank_free _ Hb), numerals_not_all, (indices_numerals limit ks Hl).
  now rewrite pick_positions.
Qed.

Lemma chosen_by_numbers_witness :
  chosen 4300 ["a"; "b"; "c"] (join "," (numeral <$> [2; 0; 7; 1; 2]%nat))
  = Ret (at_positions ["a"; "b"; "c"] [2; 0; 7; 1; 2]%nat).
Proof.
  apply (chosen_by_numbers 4300 ["a"; "b"; "c"] [2; 0; 7; 1; 2]%nat).
  right. repeat (constructor; [apply Nat.leb_le; vm_compute; reflexivity|]). constructor.
Defined.

Example chosen_by_numbers_example :
  join "," (numeral <$> [2; 0; 7; 1; 2]%nat) = "2,0,7,1,2"
  /\ at_positions ["a"; "b"; "c"] [2; 0; 7; 1; 2]%nat = ["b"; "a"; "b"].
Proof. split; reflexivity. Qed.

End BenchMore.

(** ** model_downloader.py: which models are offered *)

Module DownloaderFacts.
Import Downloader.

Lemma recommendations_cases info :
  let mem := memory_gb info in
  ((mem < 8)%Z /\ get_model_recommendations info = [])
  \/ ((8 <= mem < 16)%Z /\ get_model_recommendations info = take 1 (models info))
  \/ ((16 <= mem < 32)%Z
      /\ get_model_recommendations info
         = take 3 (models info) ++ drop 4 (models info))
  \/ ((32 <= mem)%Z /\ get_model_recommendations info = models info).
Proof.
  intros mem. unfold get_model_recommendations, models. fold mem.
  rewrite !filter_cons, filter_nil. cbn [min_memory take drop app].
  destruct (decide (mem < 8)%Z); [left|right; destruct (decide (mem < 16)%Z);
    [left|right; destruct (decide (mem < 32)%Z); [left|right]]];
    (split; [lia|]); repeat case_decide; try lia; reflexivity.
Qed.

(** X25 -- The models offered are the catalogue entries whose minimum
    memory the machine has, in catalogue order: none below 8 GB, the
    lightweight one from 8 GB, all but the 72b model from 16 GB, all five
    from 32 GB. *)
Theorem offered_models_by_memory info :
  names (get_model_recommendations info)
  = if (memory_gb info <? 8)%Z then []
    else if (memory_gb info <? 16)%Z then ["dolphin-2.6-mistral-7b"]
    else if (memory_gb info <? 32)%Z then
      ["dolphin-2.6-mistral-7b"; "dolphin-mixtral-8x7b"; "wizardlm-2-8x22b";
       "mythomax-l2-13b"]
    else
      ["dolphin-2.6-mistral-7b"; "dolphin-mixtral-8x7b"; "wizardlm-2-8x22b";
       "dolphin-2.9.2-qwen2.5-72b"; "mythomax-l2-13b"].
Proof.
  destruct (recommendations_cases info) as [[H ->]|[[H ->]|[[H ->]|[H ->]]]];
    destruct (Z.ltb_spec (memory_gb info) 8); try lia;
    destruct (Z.ltb_spec (memory_gb info) 16); try lia;
    destruct (Z.ltb_spec (memory_gb info) 32); try lia; reflexivity.
Qed.

(** X26 -- Every model offered is flagged as recommended, so the label
    displayed with it is always "[RECOMMENDED]": the label "[AVAILABLE]"
    is never shown. *)
Theorem offered_models_are_recommended info m :
  m ∈ get_model_recommendations info ->
  recommended m = true /\ status m = "[RECOMMENDED]".
Proof.
  intros Hm.
  assert (H : recommended m = true).
  { unfold get_model_recommendations in Hm. apply list_elem_of_filter in Hm as [Hmin Hm].
    unfold models in Hm. repeat (apply elem_of_cons in Hm as [->|Hm]);
      try (now apply elem_of_nil in Hm);
      cbn [recommended min_memory] in *; try reflexivity; now apply Z.leb_le. }
  split; [exact H|]. unfold status. now rewrite H.
Qed.

Lemma offered_models_are_recommended_witness :
  recommended (Build_Model "mythomax-l2-13b" "8GB" "Balanced general purpose model" 16
                 true "general") = true
  /\ status (Build_Model "mythomax-l2-13b" "8GB" "Balanced general purpose model" 16
               true "general") = "[RECOMMENDED]".
Proof.
  apply (offered_models_are_recommended
           {| cpu_cores := 8; memory_gb := 16; has_gpu := false; platform := "linux" |}).
  vm_compute. do 3 right. left.
Defined.

(** X27 -- Each category holds at most one offered model, so
    [--category] downloads one model or none; the advanced category is
    empty below 32 GB, which is when the script reports that no such
    model is available. *)
Theorem one_model_per_category info cat :
  (length (category_models info cat) <= 1)%nat
  /\ (category_models info "advanced" = [] <-> (memory_gb info < 32)%Z).
Proof.
  unfold category_models.
  destruct (recommendations_cases info) as [[H ->]|[[H ->]|[[H ->]|[H ->]]]];
    unfold models; cbn [take drop app]; rewrite ?filter_cons, ?filter_nil;
    cbn [category].
  - split; [cbn; lia|]. split; [intros _; lia | reflexivity].
  - split.
    + repeat case_decide; cbn [length]; lia.
    + repeat case_decide; try discriminate. split; [intros _; lia | reflexivity].
  - split.
    + repeat case_decide; subst; try discriminate; cbn [length]; lia.
    + repeat case_decide; try discriminate. split; [intros _; lia | reflexivity].
  - split.
    + repeat case_decide; subst; try discriminate; cbn [length]; lia.
    + repeat case_decide; try congruence. split; [discriminate | lia].
Qed.

(** X28 -- Whatever is typed at the downloader's prompt, every model
    to download is one of the offered models: its minimum memory is
    within the memory of the machine. *)
Theorem downloads_fit_in_memory (limit : nat) info (answer : string) m :
  m ∈ models_to_download limit (get_model_recommendations info) answer ->
  m ∈ get_model_recommendations info /\ (min_memory m <= memory_gb info)%Z.
Proof.
  intros Hm.
  assert (H : m ∈ get_model_recommendations info).
  { unfold models_to_download in Hm. destruct (String.eqb _ _); [exact Hm|].
    destruct (Bench.indices limit (strip answer)) as [idx|e];
      [|now apply elem_of_nil in Hm].
    destruct (BenchMore.pick_installed (get_model_recommendations info) idx) as [Hf _].
    rewrite Forall_forall in Hf. now apply Hf. }
  split; [exact H|]. unfold get_model_recommendations in H.
  now apply list_elem_of_filter in H as [H _].
Qed.

Lemma downloads_fit_in_memory_witness :
  Build_Model "dolphin-2.6-mistral-7b" "4GB" "Fast, lightweight coding assistant" 8 true
    "lightweight"
  ∈ get_model_recommendations
      {| cpu_cores := 8; memory_gb := 16; has_gpu := false; platform := "linux" |}
  /\ (8 <= 16)%Z.
Proof.
  apply (downloads_fit_in_memory 4300
           {| cpu_cores := 8; memory_gb := 16; has_gpu := false; platform := "linux" |}
           "3, 1").
  vm_compute. right. left.
Defined.

End DownloaderFacts.
